(** * Cart and checkout consistency of the storefront

    A shallow embedding of the cart aggregator ([CartPage.loadCartItems],
    [CheckoutPage.loadCartItems]), the cart mutator
    ([ProductDetailPage.addToCart], [CartPage.updateQuantity],
    [CartPage.removeItem]), the checkout orchestrator
    ([CheckoutPage.handleCheckout]) and the header counter
    ([App.loadCartItemCount]).

    JavaScript numbers are IEEE 754 binary64 values, so prices, quantities
    and totals are primitive floats.  Asynchronous handlers run to
    completion one after the other; they are state transformers over the
    component's React state and the remote world (store, session, event
    log), with exceptions for rejected promises.  Which calls to the hosted
    service are rejected, and what [Date.now()] and [Math.random()] return,
    is given by the world.  Strings are the bytes of their UTF-8
    encoding. *)

From Stdlib Require Import String Ascii NArith ZArith List Bool Arith Lia.
From Stdlib Require Import Floats.
Import ListNotations.

#[local] Set Warnings "-inexact-float".

Local Open Scope string_scope.
Local Open Scope list_scope.

(* ================================================================= *)
(** ** JavaScript values *)

Module JS.

Definition number := float.

(** [Number(x)] on a value that is already a number. *)
Definition Number (x : number) : number := x.

(** [x || 0] on an optional number: [undefined], [NaN], [0] and [-0]
    are falsy. *)
Definition orZero (x : option number) : number :=
  match x with
  | None => zero
  | Some v => if (is_nan v || is_zero v)%bool then zero else v
  end.

(** The integer [n] closest to [m * 2^e * 100]; of two equally close
    ones the larger (step 6 of [Number.prototype.toFixed]). *)
Definition nearestHundredths (m : positive) (e : Z) : Z :=
  match e with
  | Zneg k => Z.shiftr (Z.pos m * 200 + Z.shiftl 1 (Z.pos k)) (Z.pos k + 1)
  | _ => Z.shiftl (Z.pos m * 100) e
  end.

(** [parseFloat] of the decimal numeral with digits [n] and two
    fractional digits: the binary64 value nearest to [n / 100]. *)
Definition parseHundredths (n : positive) : number :=
  SF2Prim (SFdiv prec emax (S754_finite false n 0) (S754_finite false 100 0)).

(** [parseFloat(x.toFixed(2))].  [toFixed] prints [NaN], the infinities
    and values of magnitude at least 1e21 as [String(x)], which
    [parseFloat] reads back; [(-0).toFixed(2)] is ["0.00"], and a negative
    value that rounds to no hundredth prints ["-0.00"]. *)
Definition toFixed2 (x : number) : number :=
  match Prim2SF x with
  | S754_nan => nan
  | S754_infinity _ => x
  | S754_zero _ => zero
  | S754_finite s m e =>
      if (1e21 <=? abs x)%float then x
      else
        let r := match nearestHundredths m e with
                 | Zpos n => parseHundredths n
                 | _ => zero
                 end in
        if s then (- r)%float else r
  end.

(** A string is held as the bytes of its UTF-8 encoding, which is what
    a string literal of this file denotes.  [chars] cuts it into its
    characters: a byte below 128, or a well-formed sequence of a lead byte
    and one, two or three continuation bytes (no overlong form, no
    surrogate, nothing above U+10FFFF).  A byte that begins no such
    sequence is a character of its own, read as the Latin-1 character of
    that code. *)
Definition between (lo hi : N) (c : ascii) : bool :=
  ((lo <=? N_of_ascii c) && (N_of_ascii c <? hi))%N.

Definition continuation (c : ascii) : bool := between 128 192 c.

Definition sequence2 (a b : ascii) : bool := between 194 224 a && continuation b.

Definition sequence3 (a b c : ascii) : bool :=
  between 224 240 a && continuation c
  && (if (N_of_ascii a =? 224)%N then between 160 192 b
      else if (N_of_ascii a =? 237)%N then between 128 160 b
           else continuation b).

Definition sequence4 (a b c d : ascii) : bool :=
  between 240 245 a && continuation c && continuation d
  && (if (N_of_ascii a =? 240)%N then between 144 192 b
      else if (N_of_ascii a =? 244)%N then between 128 144 b
           else continuation b).

Fixpoint chars (s : string) : list string :=
  match s with
  | EmptyString => []
  | String a r1 =>
      match r1 with
      | String b r2 =>
          if sequence2 a b
          then String a (String b EmptyString) :: chars r2
          else
            match r2 with
            | String c r3 =>
                if sequence3 a b c
                then String a (String b (String c EmptyString)) :: chars r3
                else
                  match r3 with
                  | String d r4 =>
                      if sequence4 a b c d
                      then String a (String b (String c (String d EmptyString)))
                             :: chars r4
                      else String a EmptyString :: chars r1
                  | EmptyString => String a EmptyString :: chars r1
                  end
            | EmptyString => String a EmptyString :: chars r1
            end
      | EmptyString => [String a EmptyString]
      end
  end.

(** The code point of a character. *)
Definition codePoint (ch : string) : N :=
  match ch with
  | String a EmptyString => N_of_ascii a
  | String a (String b EmptyString) =>
      (N_of_ascii a - 192) * 64 + (N_of_ascii b - 128)
  | String a (String b (String c EmptyString)) =>
      (N_of_ascii a - 224) * 4096 + (N_of_ascii b - 128) * 64 + (N_of_ascii c - 128)
  | String a (String b (String c (String d EmptyString))) =>
      (N_of_ascii a - 240) * 262144 + (N_of_ascii b - 128) * 4096
      + (N_of_ascii c - 128) * 64 + (N_of_ascii d - 128)
  | _ => 0
  end%N.

(** The code points [String.prototype.trim] strips: WhiteSpace (TAB, VT,
    FF, U+FEFF and the category Zs: SP, NBSP, U+1680, U+2000 to U+200A,
    U+202F, U+205F, U+3000) and LineTerminator (LF, CR, U+2028, U+2029). *)
Definition isSpace (cp : N) : bool :=
  ((9 <=? cp) && (cp <=? 13)
   || (cp =? 32) || (cp =? 160) || (cp =? 5760)
   || (8192 <=? cp) && (cp <=? 8202)
   || (cp =? 8232) || (cp =? 8233) || (cp =? 8239) || (cp =? 8287)
   || (cp =? 12288) || (cp =? 65279))%N.

Definition whiteSpace (ch : string) : bool := isSpace (codePoint ch).

Fixpoint dropSpaces (l : list string) : list string :=
  match l with
  | [] => []
  | ch :: r => if whiteSpace ch then dropSpaces r else l
  end.

Definition join (l : list string) : string := fold_right append EmptyString l.

(** The characters left once the white space at both ends is gone. *)
Definition trimmed (l : list string) : list string :=
  rev (dropSpaces (rev (dropSpaces l))).

(** [s.trim()]. *)
Definition trim (s : string) : string := join (trimmed (chars s)).

(** Truthiness of a string: only the empty string is falsy. *)
Definition truthy (s : string) : bool :=
  match s with EmptyString => false | _ => true end.

End JS.

Import JS.

(* ================================================================= *)
(** ** Records of the data model *)

Module Product.
Record t := mk {
  id : string;
  name : string;
  description : string;
  price : number;
  imageUrl : string;
  category : string;
  stockQuantity : number
}.
End Product.

Module CartItem.
(** A stored line item has no [product]; the pages attach it. *)
Record t := mk {
  id : string;
  userId : string;
  productId : string;
  quantity : number;
  product : option Product.t
}.

Definition withProduct (item : t) (p : option Product.t) : t :=
  mk (id item) (userId item) (productId item) (quantity item) p.

Definition withQuantity (item : t) (q : number) : t :=
  mk (id item) (userId item) (productId item) q (product item).
End CartItem.

Module Order.
Record t := mk {
  id : string;
  userId : string;
  totalAmount : number;
  status : string;
  shippingAddress : string
}.
End Order.

Module OrderItem.
Record t := mk {
  id : string;
  orderId : string;
  productId : string;
  quantity : number;
  price : number
}.
End OrderItem.

Module User.
Record t := mk {
  id : string;
  email : string;
  displayName : option string
}.
End User.

Inductive Page := home | products_page | cart | checkout | product_detail.

(* ================================================================= *)
(** ** The remote store *)

Record Store := mkStore {
  products : list Product.t;
  cartItems : list CartItem.t;
  orders : list Order.t;
  orderItems : list OrderItem.t
}.

(** The calls the pages make on the client SDK. *)
Inductive Call :=
| AuthMe
| CartItemsList (userId : string) (productId : option string)
| ProductsList (id : string)
| CartItemsCreate (c : CartItem.t)
| CartItemsUpdate (id : string) (quantity : number)
| CartItemsDelete (id : string)
| OrdersCreate (o : Order.t)
| OrderItemsCreate (oi : OrderItem.t).

Definition whereCartItem (u : string) (p : option string) (c : CartItem.t) : bool :=
  (CartItem.userId c =? u) &&
  match p with
  | None => true
  | Some pid => CartItem.productId c =? pid
  end.

Definition whereProduct (pid : string) (p : Product.t) : bool :=
  Product.id p =? pid.

Definition hasId (i : string) (c : CartItem.t) : bool := CartItem.id c =? i.

(** The record [ci] after [update(i, { quantity: q })]. *)
Definition setLineQuantity (i : string) (q : number) (ci : CartItem.t) : CartItem.t :=
  if hasId i ci then CartItem.withQuantity ci q else ci.

(** Modelled from the spec: the store client ([blink.db]) is a hosted
    service whose code is not part of the repository.  [list] returns the
    matching records in stored order, [create] adds the record the caller
    built, [update] changes the record with the given id and fails when
    there is none, [delete] removes it and is idempotent.  [write] is the
    effect of an acknowledged mutation, [None] when the store rejects it. *)
Definition write (c : Call) (s : Store) : option Store :=
  match c with
  | CartItemsCreate ci =>
      Some (mkStore (products s) (cartItems s ++ [ci]) (orders s) (orderItems s))
  | CartItemsUpdate i q =>
      if existsb (hasId i) (cartItems s)
      then Some (mkStore (products s)
                   (map (setLineQuantity i q) (cartItems s))
                   (orders s) (orderItems s))
      else None
  | CartItemsDelete i =>
      Some (mkStore (products s)
              (filter (fun ci => negb (hasId i ci)) (cartItems s))
              (orders s) (orderItems s))
  | OrdersCreate o =>
      Some (mkStore (products s) (cartItems s) (orders s ++ [o]) (orderItems s))
  | OrderItemsCreate oi =>
      Some (mkStore (products s) (cartItems s) (orders s) (orderItems s ++ [oi]))
  | AuthMe | CartItemsList _ _ | ProductsList _ => Some s
  end.

(** What the pages do that is observable from outside the handler: the
    calls with their outcome, the toasts (by title and variant; the
    description is left out), the navigation and the notification that the
    cart has changed.  Writing to the console is not an event. *)
Inductive Event :=
| Called (c : Call) (ok : bool)
| Toast (title : string) (destructive : bool)
| Navigate (p : Page)
| CartUpdate.

(** The world a handler runs in.  [faults] says, call by call, whether the
    next call to the service is rejected (no flag left: it is served); a
    rejected call leaves the store as it was.  [entropy] stands for
    [Date.now()] and [Math.random()]: the [draws]-th suffix of a generated
    id. *)
Record World := mkWorld {
  db : Store;
  session : option User.t;
  faults : list bool;
  entropy : nat -> string;
  draws : nat;
  log : list Event
}.

(** Whether the next call to the service is rejected. *)
Definition nextFault (w : World) : bool :=
  match faults w with
  | b :: _ => b
  | [] => false
  end.

Definition emit (e : Event) (w : World) : World :=
  mkWorld (db w) (session w) (faults w) (entropy w) (draws w) (log w ++ [e]).

Definition served (c : Call) (s : Store) (w : World) : World :=
  mkWorld s (session w) (tl (faults w)) (entropy w) (draws w)
          (log w ++ [Called c true]).

Definition rejected (c : Call) (w : World) : World :=
  mkWorld (db w) (session w) (tl (faults w)) (entropy w) (draws w)
          (log w ++ [Called c false]).

Definition drawn (w : World) : World :=
  mkWorld (db w) (session w) (faults w) (entropy w) (S (draws w)) (log w).

(* ================================================================= *)
(** ** Handlers: state, world and exceptions *)

Inductive Result (A : Type) :=
| Ok (a : A)
| Throw.
Arguments Ok {A} a.
Arguments Throw {A}.

(** A computation over the component state [S] and the world. *)
Definition M (S A : Type) : Type := S -> World -> Result A * S * World.

Section Handlers.
Context {S : Type}.

Definition ret {A} (a : A) : M S A := fun s w => (Ok a, s, w).

Definition bind {A B} (m : M S A) (k : A -> M S B) : M S B :=
  fun s w =>
    match m s w with
    | (Ok a, s', w') => k a s' w'
    | (Throw, s', w') => (Throw, s', w')
    end.

Definition getState : M S S := fun s w => (Ok s, s, w).

Definition setState (f : S -> S) : M S unit := fun s w => (Ok tt, f s, w).

Definition effect (e : Event) : M S unit := fun s w => (Ok tt, s, emit e w).

(** [try { body } catch { handler } finally { fin }]. *)
Definition tryCatchFinally (body handler fin : M S unit) : M S unit :=
  fun s w =>
    match body s w with
    | (Ok _, s', w') => fin s' w'
    | (Throw, s', w') =>
        match handler s' w' with
        | (Ok _, s'', w'') => fin s'' w''
        | (Throw, s'', w'') =>
            match fin s'' w'' with
            | (_, s3, w3) => (Throw, s3, w3)
            end
        end
    end.

(** One awaited call to the service: rejected when the next fault flag
    is set or when the service refuses the request. *)
Definition await {A} (c : Call) (reply : World -> option A) : M S A :=
  fun s w =>
    if nextFault w then (Throw, s, rejected c w)
    else
      match reply w, write c (db w) with
      | Some a, Some d => (Ok a, s, served c d w)
      | _, _ => (Throw, s, rejected c w)
      end.

(** The suffix [${Date.now()}_${Math.random().toString(36).substr(2, 9)}]. *)
Definition freshSuffix : M S string :=
  fun s w => (Ok (entropy w (draws w)), s, drawn w).

(** [for (const x of xs) { await body(x) }]. *)
Fixpoint forOf {A} (xs : list A) (body : A -> M S unit) : M S unit :=
  match xs with
  | [] => ret tt
  | x :: rest => bind (body x) (fun _ => forOf rest body)
  end.

(** [await Promise.all(xs.map(f))]: every request is issued, in order;
    the results are delivered when all are fulfilled, and one rejection
    rejects the whole.  The responses are taken to arrive in the order of
    the requests. *)
Fixpoint promiseAll {A B} (xs : list A) (f : A -> M S B) : M S (list B) :=
  match xs with
  | [] => ret []
  | x :: rest =>
      fun s w =>
        match f x s w with
        | (r, s1, w1) =>
            match promiseAll rest f s1 w1 with
            | (rs, s2, w2) =>
                (match r, rs with
                 | Ok b, Ok bs => Ok (b :: bs)
                 | _, _ => Throw
                 end, s2, w2)
            end
        end
  end.

End Handlers.

Declare Scope handler_scope.
Delimit Scope handler_scope with handler.
Notation "x <- m ;; k" := (bind m (fun x => k))
  (at level 100, m at next level, right associativity) : handler_scope.
Notation "m ;;; k" := (bind m (fun _ => k))
  (at level 100, right associativity) : handler_scope.

(** *** The client SDK *)

Section Client.
Context {S : Type}.

Definition auth_me : M S User.t :=
  await AuthMe session.

Definition cartItems_list (u : string) (p : option string) : M S (list CartItem.t) :=
  await (CartItemsList u p)
        (fun w => Some (filter (whereCartItem u p) (cartItems (db w)))).

Definition products_list (pid : string) : M S (list Product.t) :=
  await (ProductsList pid)
        (fun w => Some (filter (whereProduct pid) (products (db w)))).

Definition cartItems_create (c : CartItem.t) : M S unit :=
  await (CartItemsCreate c) (fun _ => Some tt).

Definition cartItems_update (i : string) (q : number) : M S unit :=
  await (CartItemsUpdate i q) (fun _ => Some tt).

Definition cartItems_delete (i : string) : M S unit :=
  await (CartItemsDelete i) (fun _ => Some tt).

Definition orders_create (o : Order.t) : M S unit :=
  await (OrdersCreate o) (fun _ => Some tt).

Definition orderItems_create (oi : OrderItem.t) : M S unit :=
  await (OrderItemsCreate oi) (fun _ => Some tt).

Definition toast (title : string) (destructive : bool) : M S unit :=
  effect (Toast title destructive).

Definition onNavigate (p : Page) : M S unit := effect (Navigate p).

Definition onCartUpdate : M S unit := effect CartUpdate.

End Client.

Local Open Scope handler_scope.

Definition hasProduct (item : CartItem.t) : bool :=
  match CartItem.product item with Some _ => true | None => false end.

(** [{ ...item, product: products[0] || null }] after the product lookup. *)
Definition hydrate {S : Type} (item : CartItem.t) : M S CartItem.t :=
  found <- products_list (CartItem.productId item) ;;
  ret (CartItem.withProduct item (hd_error found)).

(* ================================================================= *)
(** ** src/pages/CartPage.tsx *)

Module CartPage.

Record state := mkState {
  cartItems : list CartItem.t;
  loading : bool;
  updating : option string
}.

Definition setCartItems (f : list CartItem.t -> list CartItem.t) : M state unit :=
  setState (fun st => mkState (f (cartItems st)) (loading st) (updating st)).

Definition setLoading (b : bool) : M state unit :=
  setState (fun st => mkState (cartItems st) b (updating st)).

Definition setUpdating (u : option string) : M state unit :=
  setState (fun st => mkState (cartItems st) (loading st) u).

Definition loadCartItems : M state unit :=
  setLoading true ;;;
  tryCatchFinally
    (user <- auth_me ;;
     items <- cartItems_list (User.id user) None ;;
     itemsWithProducts <- promiseAll items hydrate ;;
     let validItems := filter hasProduct itemsWithProducts in
     setCartItems (fun _ => validItems))
    (toast "Error" true)
    (setLoading false).

Definition updateQuantity (itemId : string) (newQuantity : number) : M state unit :=
  if (newQuantity <? 1)%float then ret tt
  else
    setUpdating (Some itemId) ;;;
    tryCatchFinally
      (cartItems_update itemId newQuantity ;;;
       setCartItems
         (map (fun item =>
                 if CartItem.id item =? itemId
                 then CartItem.withQuantity item newQuantity
                 else item)) ;;;
       onCartUpdate)
      (toast "Error" true)
      (setUpdating None).

Definition removeItem (itemId : string) : M state unit :=
  setUpdating (Some itemId) ;;;
  tryCatchFinally
    (cartItems_delete itemId ;;;
     setCartItems (filter (fun item => negb (CartItem.id item =? itemId))) ;;;
     onCartUpdate ;;;
     toast "Item removed" false)
    (toast "Error" true)
    (setUpdating None).

Definition calculateTotal (items : list CartItem.t) : number :=
  fold_left
    (fun total item =>
       (total + orZero (option_map Product.price (CartItem.product item))
                * Number (CartItem.quantity item))%float)
    items zero.

Definition getTotalItems (items : list CartItem.t) : number :=
  fold_left (fun total item => (total + Number (CartItem.quantity item))%float)
            items zero.

(** Which of the three screens the component returns. *)
Inductive View :=
| Skeleton
| EmptyCart
| CartList (items : list CartItem.t) (count total : number).

Definition render (st : state) : View :=
  if loading st then Skeleton
  else match cartItems st with
       | [] => EmptyCart
       | items => CartList items (getTotalItems items) (calculateTotal items)
       end.

Definition initial : state := mkState [] true None.

End CartPage.

(* ================================================================= *)
(** ** src/pages/CheckoutPage.tsx *)

Module CheckoutPage.

Record state := mkState {
  cartItems : list CartItem.t;
  loading : bool;
  processing : bool;
  shippingAddress : string
}.

Definition setCartItems (items : list CartItem.t) : M state unit :=
  setState (fun st => mkState items (loading st) (processing st) (shippingAddress st)).

Definition setLoading (b : bool) : M state unit :=
  setState (fun st => mkState (cartItems st) b (processing st) (shippingAddress st)).

Definition setProcessing (b : bool) : M state unit :=
  setState (fun st => mkState (cartItems st) (loading st) b (shippingAddress st)).

Definition setShippingAddress (a : string) : M state unit :=
  setState (fun st => mkState (cartItems st) (loading st) (processing st) a).

Definition loadCartItems : M state unit :=
  setLoading true ;;;
  tryCatchFinally
    (user <- auth_me ;;
     items <- cartItems_list (User.id user) None ;;
     itemsWithProducts <- promiseAll items hydrate ;;
     let validItems := filter hasProduct itemsWithProducts in
     setCartItems validItems ;;;
     match validItems with
     | [] => toast "Cart is empty" true ;;; onNavigate cart
     | _ => ret tt
     end)
    (toast "Error" true)
    (setLoading false).

Definition calculateTotal (items : list CartItem.t) : number :=
  fold_left
    (fun total item =>
       (total + orZero (option_map Product.price (CartItem.product item))
                * Number (CartItem.quantity item))%float)
    items zero.

Definition getTotalItems (items : list CartItem.t) : number :=
  fold_left (fun total item => (total + Number (CartItem.quantity item))%float)
            items zero.

(** The record passed to [blink.db.orders.create]. *)
Definition orderData (orderId : string) (user : User.t) (total : number)
           (address : string) : Order.t :=
  Order.mk orderId (User.id user) (toFixed2 total) "pending" (trim address).

(** The record passed to [blink.db.orderItems.create] for one entry. *)
Definition orderItemData (suffix orderId : string) (item : CartItem.t) : OrderItem.t :=
  OrderItem.mk ("orderitem_" ++ suffix)%string orderId
               (CartItem.productId item)
               (Number (CartItem.quantity item))
               (toFixed2 (orZero (option_map Product.price (CartItem.product item)))).

Definition handleCheckout : M state unit :=
  st <- getState ;;
  if negb (truthy (trim (shippingAddress st)))
  then toast "Missing information" true
  else
    setProcessing true ;;;
    tryCatchFinally
      (user <- auth_me ;;
       let total := calculateTotal (cartItems st) in
       suffix <- freshSuffix ;;
       let orderId := ("order_" ++ suffix)%string in
       orders_create (orderData orderId user total (shippingAddress st)) ;;;
       forOf (cartItems st)
             (fun item =>
                sfx <- freshSuffix ;;
                orderItems_create (orderItemData sfx orderId item)) ;;;
       forOf (cartItems st)
             (fun item => cartItems_delete (CartItem.id item)) ;;;
       toast "Order placed successfully!" false ;;;
       onNavigate home)
      (toast "Checkout failed" true)
      (setProcessing false).

Definition initial : state := mkState [] true false "".

End CheckoutPage.

(* ================================================================= *)
(** ** src/pages/ProductDetailPage.tsx *)

Module ProductDetailPage.

Record state := mkState {
  product : option Product.t;
  loading : bool;
  quantity : number;
  addingToCart : bool
}.

Definition setQuantity (q : number) : M state unit :=
  setState (fun st => mkState (product st) (loading st) q (addingToCart st)).

Definition setAddingToCart (b : bool) : M state unit :=
  setState (fun st => mkState (product st) (loading st) (quantity st) b).

Definition addToCart : M state unit :=
  st <- getState ;;
  match product st with
  | None => ret tt
  | Some product =>
      setAddingToCart true ;;;
      tryCatchFinally
        (user <- auth_me ;;
         existingCartItems <-
           cartItems_list (User.id user) (Some (Product.id product)) ;;
         match existingCartItems with
         | existingItem :: _ =>
             let newQuantity :=
               (Number (CartItem.quantity existingItem) + quantity st)%float in
             cartItems_update (CartItem.id existingItem) newQuantity
         | [] =>
             suffix <- freshSuffix ;;
             cartItems_create
               (CartItem.mk ("cart_" ++ suffix)%string (User.id user)
                            (Product.id product) (quantity st) None)
         end ;;;
         toast "Added to cart" false ;;;
         onCartUpdate ;;;
         setQuantity 1%float)
        (toast "Error" true)
        (setAddingToCart false)
  end.

Definition setProduct (p : option Product.t) : M state unit :=
  setState (fun st => mkState p (loading st) (quantity st) (addingToCart st)).

Definition setLoading (b : bool) : M state unit :=
  setState (fun st => mkState (product st) b (quantity st) (addingToCart st)).

(** [loadProduct], for the [productId] the page was given: [null] and the
    empty string are falsy. *)
Definition loadProduct (productId : option string) : M state unit :=
  match productId with
  | Some pid =>
      if truthy pid then
        setLoading true ;;;
        tryCatchFinally
          (found <- products_list pid ;;
           match found with
           | p :: _ => setProduct (Some p)
           | [] => toast "Product not found" true ;;; onNavigate products_page
           end)
          (toast "Error" true)
          (setLoading false)
      else onNavigate products_page
  | None => onNavigate products_page
  end.

(** The plus and minus buttons of the quantity selector. *)
Definition handleQuantityChange (change : number) : M state unit :=
  st <- getState ;;
  let newQuantity := (quantity st + change)%float in
  if ((1 <=? newQuantity)%float
      && (newQuantity <=? orZero (option_map Product.stockQuantity (product st)))%float)%bool
  then setQuantity newQuantity
  else ret tt.

Definition initial : state := mkState None true 1%float false.

End ProductDetailPage.

(* ================================================================= *)
(** ** src/App.tsx *)

Module App.

Record state := mkState {
  user : option User.t;
  cartItemCount : number
}.

Definition setCartItemCount (n : number) : M state unit :=
  setState (fun st => mkState (user st) n).

(** The count shown by the header badge; a failure is only written to
    the console. *)
Definition loadCartItemCount : M state unit :=
  st <- getState ;;
  match user st with
  | None => ret tt
  | Some user =>
      tryCatchFinally
        (items <- cartItems_list (User.id user) None ;;
         let totalCount :=
           fold_left (fun sum item => (sum + Number (CartItem.quantity item))%float)
                     items zero in
         setCartItemCount totalCount)
        (ret tt)
        (ret tt)
  end.

(** The routing state of the application: the page shown and the last
    product and category that were selected. *)
Record route := mkRoute {
  currentPage : Page;
  selectedProductId : option string;
  selectedCategory : option string
}.

(** [if (x) set(x)] on an optional string argument: [undefined] and the
    empty string leave the old value. *)
Definition orKeep (x old : option string) : option string :=
  match x with
  | Some v => if truthy v then x else old
  | None => old
  end.

Definition navigateTo (page : Page) (productId category : option string)
           (r : route) : route :=
  mkRoute page (orKeep productId (selectedProductId r))
          (orKeep category (selectedCategory r)).

Definition initialRoute : route := mkRoute home None None.

End App.

(* ================================================================= *)
(** ** Straight-line sequences of awaited writes

    The loops of the handlers issue one call after the other and stop at
    the first that is rejected.  [runScript] is that behaviour on the
    world alone; a step says whether an id suffix is drawn before the
    call. *)

Fixpoint runScript (script : list (bool * Call)) (w : World) : bool * World :=
  match script with
  | [] => (true, w)
  | (draw, c) :: rest =>
      let w0 := if draw then drawn w else w in
      if nextFault w0 then (false, rejected c w0)
      else match write c (db w0) with
           | Some d => runScript rest (served c d w0)
           | None => (false, rejected c w0)
           end
  end.

(** The store after the acknowledged writes [cs]. *)
Definition applyAll (cs : list Call) (s : Store) : Store :=
  fold_left (fun s c => match write c s with Some s' => s' | None => s end) cs s.

Definition servedEvents (cs : list Call) : list Event :=
  map (fun c => Called c true) cs.

(** The order items a checkout creates for [items], the suffix of the
    first being the [d]-th draw. *)
Fixpoint orderItemsFrom (gen : nat -> string) (d : nat) (orderId : string)
         (items : list CartItem.t) : list OrderItem.t :=
  match items with
  | [] => []
  | item :: rest =>
      CheckoutPage.orderItemData (gen d) orderId item
        :: orderItemsFrom gen (S d) orderId rest
  end.

(** The writes of one checkout, in program order. *)
Definition checkoutPlan (o : Order.t) (ois : list OrderItem.t)
           (items : list CartItem.t) : list Call :=
  OrdersCreate o :: map OrderItemsCreate ois
    ++ map (fun item => CartItemsDelete (CartItem.id item)) items.

Definition checkoutScript (o : Order.t) (ois : list OrderItem.t)
           (items : list CartItem.t) : list (bool * Call) :=
  (true, OrdersCreate o) :: map (fun oi => (true, OrderItemsCreate oi)) ois
    ++ map (fun item => (false, CartItemsDelete (CartItem.id item))) items.

(** The sum of [price * quantity] over order items, accumulated as the
    pages accumulate a cart total. *)
Definition orderItemsTotal (ois : list OrderItem.t) : number :=
  fold_left (fun total oi => (total + OrderItem.price oi * OrderItem.quantity oi)%float)
            ois zero.

(** Every order item has its parent order in the store. *)
Definition noOrphans (s : Store) : Prop :=
  forall oi, In oi (orderItems s) ->
    exists o, In o (orders s) /\ Order.id o = OrderItem.orderId oi.

(** The product the store holds for a line item, if any: [products[0]]
    of the lookup by id. *)
Definition lookup (s : Store) (item : CartItem.t) : option Product.t :=
  hd_error (filter (whereProduct (CartItem.productId item)) (products s)).

(** The entries the aggregator produces for user [u] when every call is
    served. *)
Definition hydrated (s : Store) (u : string) : list CartItem.t :=
  filter hasProduct
    (map (fun item => CartItem.withProduct item (lookup s item))
         (filter (whereCartItem u None) (cartItems s))).

(** The event of each product lookup of a [Promise.all], given the fault
    flags it meets. *)
Fixpoint lookupEvents (items : list CartItem.t) (fs : list bool) : list Event :=
  match items with
  | [] => []
  | item :: rest =>
      Called (ProductsList (CartItem.productId item)) (negb (hd false fs))
        :: lookupEvents rest (tl fs)
  end.

(** [e1] occurs in [l] at an earlier position than [e2]. *)
Definition precedes (e1 e2 : Event) (l : list Event) : Prop :=
  exists l1 l2 l3, l = l1 ++ e1 :: l2 ++ e2 :: l3.

(** The order record and the order items of the checkout that starts in
    page state [st] and world [w] for user [u]. *)
Definition checkoutOrderId (w : World) : string :=
  ("order_" ++ entropy w (draws w))%string.

Definition checkoutOrder (u : User.t) (st : CheckoutPage.state) (w : World) : Order.t :=
  CheckoutPage.orderData (checkoutOrderId w) u
    (CheckoutPage.calculateTotal (CheckoutPage.cartItems st))
    (CheckoutPage.shippingAddress st).

Definition checkoutItems (st : CheckoutPage.state) (w : World) : list OrderItem.t :=
  orderItemsFrom (entropy w) (S (draws w)) (checkoutOrderId w)
                 (CheckoutPage.cartItems st).

Definition successToast : Event := Toast "Order placed successfully!" false.
Definition failureToast : Event := Toast "Checkout failed" true.

Definition errorToast : Event := Toast "Error" true.

(** How a checkout ends once the calls before [rest] are served: with
    nothing left it reports success and leaves the page, otherwise the next
    call is rejected and the failure is reported. *)
Definition closing (rest : list Call) : list Event :=
  match rest with
  | [] => [successToast; Navigate home]
  | c :: _ => [Called c false; failureToast]
  end.

(** The price a page reads off an entry: [item.product?.price || 0]. *)
Definition priceOf (item : CartItem.t) : number :=
  orZero (option_map Product.price (CartItem.product item)).

(** The records a list of served calls has created, and the line items it
    has deleted. *)
Definition createdOrders (cs : list Call) : list Order.t :=
  flat_map (fun c => match c with OrdersCreate o => [o] | _ => [] end) cs.

Definition createdOrderItems (cs : list Call) : list OrderItem.t :=
  flat_map (fun c => match c with OrderItemsCreate oi => [oi] | _ => [] end) cs.

Definition deletedIds (cs : list Call) : list string :=
  flat_map (fun c => match c with CartItemsDelete i => [i] | _ => [] end) cs.

(** The calls a checkout makes after authentication. *)
Definition isCheckoutWrite (c : Call) : bool :=
  match c with
  | OrdersCreate _ | OrderItemsCreate _ | CartItemsDelete _ => true
  | _ => false
  end.

(** A line item survives the deletions [ids]. *)
Definition keptAfter (ids : list string) (ci : CartItem.t) : bool :=
  negb (existsb (String.eqb (CartItem.id ci)) ids).

(** None of the next [n] calls is rejected. *)
Definition noFaults (n : nat) (w : World) : bool :=
  forallb negb (firstn n (faults w)).

(* ================================================================= *)
(** ** A small shop, for concrete runs *)

Module Demo.

Definition ball : Product.t :=
  Product.mk "p-ball" "Ball" "A ball" 10%float "ball.png" "Sports" 5%float.

Definition lamp : Product.t :=
  Product.mk "p-lamp" "Lamp" "A lamp" 5.5%float "lamp.png" "Home & Garden" 3%float.

(** Priced by the eighth of a unit. *)
Definition nail : Product.t :=
  Product.mk "p-nail" "Nail" "A nail" 0.125%float "nail.png" "Home & Garden" 900%float.

Definition screw : Product.t :=
  Product.mk "p-screw" "Screw" "A screw" 0.375%float "screw.png" "Home & Garden" 900%float.

Definition ann : User.t := User.mk "u-ann" "ann@example.org" None.

Definition line (i p : string) (q : number) : CartItem.t :=
  CartItem.mk i "u-ann" p q None.

Definition gen (n : nat) : string :=
  match n with
  | 0 => "1700000000000_a"
  | 1 => "1700000000001_b"
  | 2 => "1700000000002_c"
  | _ => "1700000000003_d"
  end.

Definition world (s : Store) (fs : list bool) : World :=
  mkWorld s (Some ann) fs gen 0 [].

(** Two lines with a product and one whose product has left the
    catalog. *)
Definition shop : Store :=
  mkStore [ball; lamp]
          [line "c1" "p-ball" 2%float; line "c3" "p-gone" 4%float;
           line "c2" "p-lamp" 1%float]
          [] [].

Definition hydratedCart : list CartItem.t :=
  [CartItem.withProduct (line "c1" "p-ball" 2%float) (Some ball);
   CartItem.withProduct (line "c2" "p-lamp" 1%float) (Some lamp)].

Definition atCheckout (items : list CartItem.t) : CheckoutPage.state :=
  CheckoutPage.mkState items false false "1 Main Street".

(** The state and the world a handler leaves. *)
Definition after {S} (h : M S unit) (s : S) (w : World) : S * World :=
  (snd (fst (h s w)), snd (h s w)).

Definition checkoutState : CheckoutPage.state := atCheckout hydratedCart.

(** The fifth call, the first deletion of a checkout, is rejected. *)
Definition faultyWorld : World := world shop [false; false; false; false; true].

Definition stopped : CheckoutPage.state * World :=
  after CheckoutPage.handleCheckout checkoutState faultyWorld.

(** Every call is served: the checkout of the hydrated cart completes. *)
Definition placed : CheckoutPage.state * World :=
  after CheckoutPage.handleCheckout checkoutState (world shop []).

(** Four nails at an eighth each. *)
Definition nailCart : list CartItem.t :=
  [CartItem.withProduct (line "c7" "p-nail" 4%float) (Some nail)].

Definition nailShop : Store :=
  mkStore [nail] [line "c7" "p-nail" 4%float] [] [].

Definition nailsPlaced : CheckoutPage.state * World :=
  after CheckoutPage.handleCheckout (atCheckout nailCart) (world nailShop []).

(** One screw at three eighths. *)
Definition screwCart : list CartItem.t :=
  [CartItem.withProduct (line "c8" "p-screw" 1%float) (Some screw)].

Definition screwShop : Store :=
  mkStore [screw] [line "c8" "p-screw" 1%float] [] [].

Definition screwPlaced : CheckoutPage.state * World :=
  after CheckoutPage.handleCheckout (atCheckout screwCart) (world screwShop []).

(** The cart page loads; in [lookupRejected] the lookup of the ball, the
    third call, is rejected. *)
Definition loaded : CartPage.state * World :=
  after CartPage.loadCartItems CartPage.initial (world shop []).

Definition lookupRejected : CartPage.state * World :=
  after CartPage.loadCartItems CartPage.initial (world shop [false; false; true]).

(** The header counts. *)
Definition counted : App.state * World :=
  after App.loadCartItemCount (App.mkState (Some ann) zero) (world shop []).

(** The product page of the ball, the cart being empty. *)
Definition ballShop : Store := mkStore [ball; lamp] [] [] [].

Definition ballPage : ProductDetailPage.state :=
  ProductDetailPage.mkState (Some ball) false 1%float false.

(** A checkout page that holds no entry, and a shop whose only line item
    has lost its product. *)
Definition emptyCheckout : CheckoutPage.state := atCheckout [].

Definition goneShop : Store :=
  mkStore [ball; lamp] [line "c3" "p-gone" 4%float] [] [].

(** The checkout page loads. *)
Definition checkoutLoaded : CheckoutPage.state * World :=
  after CheckoutPage.loadCartItems CheckoutPage.initial (world shop []).

(** The shop without the line item whose product is gone, and its header
    count. *)
Definition tidyShop : Store :=
  mkStore [ball; lamp]
          [line "c1" "p-ball" 2%float; line "c2" "p-lamp" 1%float] [] [].

Definition countedTidy : App.state * World :=
  after App.loadCartItemCount (App.mkState (Some ann) zero) (world tidyShop []).

(** Three pins at a tenth each. *)
Definition pin : Product.t :=
  Product.mk "p-pin" "Pin" "A pin" 0.1%float "pin.png" "Home & Garden" 900%float.

Definition pinCart : list CartItem.t :=
  [CartItem.withProduct (line "c9" "p-pin" 3%float) (Some pin)].

Definition pinsPlaced : CheckoutPage.state * World :=
  after CheckoutPage.handleCheckout (atCheckout pinCart)
        (world (mkStore [pin] [line "c9" "p-pin" 3%float] [] []) []).

(** The events a run has added to the log. *)
Definition since (w w' : World) : list Event := skipn (length (log w)) (log w').

(** The cart page, loaded, loses the ball; in [removalRejected] the
    deletion is rejected; in [removedAgain] it is asked for a second time. *)
Definition cartPage : CartPage.state := fst loaded.

Definition removed : CartPage.state * World :=
  after (CartPage.removeItem "c1") cartPage (world shop []).

Definition removalRejected : CartPage.state * World :=
  after (CartPage.removeItem "c1") cartPage (world shop [true]).

Definition removedAgain : CartPage.state * World :=
  after (CartPage.removeItem "c1") (fst removed) (snd removed).

(** Three balls instead of two; and the same for a line item the store
    does not have. *)
Definition threeBalls : CartPage.state * World :=
  after (CartPage.updateQuantity "c1" 3%float) cartPage (world shop []).

Definition unknownLine : CartPage.state * World :=
  after (CartPage.updateQuantity "c0" 3%float) cartPage (world shop []).

(** The string with the given bytes; a no-break space, U+00A0. *)
Definition bytes (l : list nat) : string :=
  fold_right (fun n s => String (ascii_of_nat n) s) EmptyString l.

Definition nbsp : string := bytes [194; 160].

(** A checkout with an address of a space and a no-break space. *)
Definition blankCheckout : CheckoutPage.state :=
  CheckoutPage.mkState hydratedCart false false (String " " nbsp).

Definition refused : CheckoutPage.state * World :=
  after CheckoutPage.handleCheckout blankCheckout (world shop []).

(** The checkout that stopped is tried again. *)
Definition retried : CheckoutPage.state * World :=
  after CheckoutPage.handleCheckout (fst stopped) (snd stopped).

(** The cart page after the completed checkout. *)
Definition reloaded : CartPage.state * World :=
  after CartPage.loadCartItems CartPage.initial (snd placed).

(** The checkout page of a cart whose only line item has lost its
    product. *)
Definition redirected : CheckoutPage.state * World :=
  after CheckoutPage.loadCartItems CheckoutPage.initial (world goneShop []).

(** Adding the ball, the listing of the line items being rejected. *)
Definition addRejected : ProductDetailPage.state * World :=
  after ProductDetailPage.addToCart ballPage (world ballShop [false; true]).

(** Adding one more nail to the four of [nailShop]. *)
Definition nailPage : ProductDetailPage.state :=
  ProductDetailPage.mkState (Some nail) false 1%float false.

Definition nailAdded : ProductDetailPage.state * World :=
  after ProductDetailPage.addToCart nailPage (world nailShop []).

(** The product page opens on the ball, which is then added. *)
Definition ballLoaded : ProductDetailPage.state * World :=
  after (ProductDetailPage.loadProduct (Some "p-ball")) ProductDetailPage.initial
        (world ballShop []).

Definition ballAdded : ProductDetailPage.state * World :=
  after ProductDetailPage.addToCart (fst ballLoaded) (snd ballLoaded).

Definition oneMore : ProductDetailPage.state * World :=
  after (ProductDetailPage.handleQuantityChange 1%float) ballPage (world ballShop []).

(** The header: a recount that is rejected; and a count, three balls
    added, a recount. *)
Definition countRejected : App.state * World :=
  after App.loadCartItemCount (App.mkState (Some ann) 7%float) (world shop [true]).

Definition emptyCount : App.state * World :=
  after App.loadCartItemCount (App.mkState (Some ann) zero) (world ballShop []).

Definition threeAdded : ProductDetailPage.state * World :=
  after ProductDetailPage.addToCart
        (ProductDetailPage.mkState (Some ball) false 3%float false) (snd emptyCount).

Definition recounted : App.state * World :=
  after App.loadCartItemCount (fst emptyCount) (snd threeAdded).

(** The cart page on the shop without the dangling line item. *)
Definition tidyLoaded : CartPage.state * World :=
  after CartPage.loadCartItems CartPage.initial (world tidyShop []).

(** An empty checkout page whose address is two spaces. *)
Definition spacesCheckout : CheckoutPage.state :=
  CheckoutPage.mkState [] false false "  ".

Definition spacesRefused : CheckoutPage.state * World :=
  after CheckoutPage.handleCheckout spacesCheckout (world goneShop []).

(** Another user holds a lamp; in [collisionShop] the id of that line
    item is the one the next add will generate. *)
Definition bobShop : Store :=
  mkStore [ball; lamp] [CartItem.mk "c5" "u-bob" "p-lamp" 1%float None] [] [].

Definition collisionShop : Store :=
  mkStore [ball; lamp]
          [CartItem.mk "cart_1700000000000_a" "u-bob" "p-lamp" 1%float None] [] [].

(** Three balls are added, then two more. *)
Definition addedOnce (s : Store) : ProductDetailPage.state * World :=
  after ProductDetailPage.addToCart
        (ProductDetailPage.mkState (Some ball) false 3%float false) (world s []).

Definition addedTwice (s : Store) : ProductDetailPage.state * World :=
  after ProductDetailPage.addToCart
        (ProductDetailPage.mkState (Some ball) false 2%float false)
        (snd (addedOnce s)).

End Demo.

(** The world after the lookups for the line items of [u], the
    authentication and the listing having been served. *)
Definition afterLookups (u : User.t) (w : World) : World :=
  let items := filter (whereCartItem (User.id u) None) (cartItems (db w)) in
  let w2 := served (CartItemsList (User.id u) None) (db w) (served AuthMe (db w) w) in
  mkWorld (db w) (session w) (skipn (length items) (faults w2)) (entropy w) (draws w)
          (log w2 ++ lookupEvents items (faults w2)).

Definition lookupsServed (u : User.t) (w : World) : bool :=
  noFaults (length (filter (whereCartItem (User.id u) None) (cartItems (db w))))
           (served (CartItemsList (User.id u) None) (db w) (served AuthMe (db w) w)).

(** What one aggregation does with the entries [old] of a page: a
    rejected call makes it report an error and keep them; otherwise the new
    entries are those hydrated from the store.  The store is never
    written. *)
Definition aggregated (w w' : World) (old new : list CartItem.t)
           (evs : list Event) : Prop :=
  db w' = db w /\
  log w' = log w ++ evs /\
  (((exists c, In (Called c false) evs) /\ In errorToast evs /\ new = old) \/
   ((forall c, ~ In (Called c false) evs) /\ ~ In errorToast evs /\
    exists u, session w = Some u /\ new = hydrated (db w) (User.id u))).

(** The line item [addToCart] creates for user [u] and product [p]. *)
Definition newLine (w : World) (u : User.t) (p : Product.t) (q : number) : CartItem.t :=
  CartItem.mk ("cart_" ++ entropy w (draws w))%string (User.id u) (Product.id p) q None.

(** The page with the quantity selector set to [q]. *)
Definition chooseQuantity (q : number) (st : ProductDetailPage.state)
  : ProductDetailPage.state :=
  ProductDetailPage.mkState (ProductDetailPage.product st) (ProductDetailPage.loading st)
                            q (ProductDetailPage.addingToCart st).

(** The store and the page of the cart after [removeItem i] is served. *)
Definition withoutLine (i : string) (l : list CartItem.t) : list CartItem.t :=
  filter (fun ci => negb (hasId i ci)) l.

(** A string made of white space only (or of nothing). *)
Definition blank (s : string) : bool := forallb whiteSpace (chars s).

(** At most one line item for each user and product. *)
Definition atMostOnePerPair (s : Store) : Prop :=
  forall u p, length (filter (whereCartItem u (Some p)) (cartItems s)) <= 1.

(** The quantity selector of the product page is between 1 and the
    stock of the product shown. *)
Definition inRange (st : ProductDetailPage.state) : bool :=
  ((1 <=? ProductDetailPage.quantity st)%float
   && (ProductDetailPage.quantity st
       <=? orZero (option_map Product.stockQuantity (ProductDetailPage.product st)))%float)%bool.

(** The sum of the quantities of line items, as the pages and the header
    accumulate it. *)
Definition quantitySum (l : list CartItem.t) : number :=
  fold_left (fun sum item => (sum + CartItem.quantity item)%float) l zero.

(* ================================================================= *)
(** ** Basic facts *)

(** *** [toFixed(2)] on binary64 values *)

Example toFixed2_exact : toFixed2 25.5%float = 25.5%float.
Proof. vm_compute. reflexivity. Qed.

(** A tie goes to the larger hundredth. *)
Example toFixed2_tie : toFixed2 0.125%float = 0.13%float.
Proof. vm_compute. reflexivity. Qed.

(** The binary64 value written 1.005 is below the tie. *)
Example toFixed2_below_tie : toFixed2 1.005%float = 1%float.
Proof. vm_compute. reflexivity. Qed.

Example toFixed2_tenth : toFixed2 0.1%float = 0.1%float.
Proof. vm_compute. reflexivity. Qed.

Example toFixed2_sum : toFixed2 (0.1 + 0.2)%float = 0.3%float.
Proof. vm_compute. reflexivity. Qed.

Example toFixed2_zero : toFixed2 zero = zero.
Proof. vm_compute. reflexivity. Qed.

(** A negative value that rounds to no hundredth keeps its sign. *)
Example toFixed2_negative_zero : toFixed2 (-0.001)%float = neg_zero.
Proof. vm_compute. reflexivity. Qed.

Example toFixed2_nan : toFixed2 nan = nan.
Proof. vm_compute. reflexivity. Qed.

Example toFixed2_large : toFixed2 1e21%float = 1e21%float.
Proof. vm_compute. reflexivity. Qed.

Example trim_address : trim "  1 Main Street " = "1 Main Street".
Proof. reflexivity. Qed.

Lemma world_eta w :
  mkWorld (db w) (session w) (faults w) (entropy w) (draws w) (log w) = w.
Proof. destruct w; reflexivity. Qed.

Lemma runScript_app a b w :
  runScript (a ++ b) w =
  (let (ok, w1) := runScript a w in if ok then runScript b w1 else (false, w1)).
Proof.
  revert w; induction a as [| [draw c] a IH]; intro w; simpl.
  - destruct (runScript b w); reflexivity.
  - destruct (nextFault (if draw then drawn w else w)); [reflexivity |].
    destruct (write c (db (if draw then drawn w else w))); [apply IH | reflexivity].
Qed.

(** What a script leaves behind: the calls served, in order, then the
    rejected one if any; the store holds exactly the served writes. *)
Lemma runScript_spec script :
  forall w ok w',
    runScript script w = (ok, w') ->
    exists done rest,
      map snd script = done ++ rest /\
      (ok = true -> rest = []) /\
      log w' = log w ++ servedEvents done
                 ++ (if ok then [] else match rest with
                                        | c :: _ => [Called c false]
                                        | [] => []
                                        end) /\
      (ok = false -> rest <> []) /\
      db w' = applyAll done (db w) /\
      session w' = session w /\
      entropy w' = entropy w.
Proof.
  induction script as [| [draw c] script IH]; intros w ok w' H; simpl in H.
  - inversion H; subst. exists [], []. simpl. rewrite app_nil_r.
    repeat split; auto. discriminate.
  - set (w0 := if draw then drawn w else w) in *.
    assert (E0 : db w0 = db w /\ log w0 = log w /\ session w0 = session w
                 /\ entropy w0 = entropy w)
      by (destruct draw; subst w0; simpl; auto).
    destruct E0 as (Edb & Elog & Eses & Eent).
    destruct (nextFault w0).
    + inversion H; subst. exists [], (c :: map snd script). simpl.
      rewrite Elog. repeat split; auto; try discriminate.
    + destruct (write c (db w0)) as [d |] eqn:Ew.
      * apply IH in H. destruct H as (done & rest & Hm & Hok & Hlog & Hne & Hdb & Hs & He).
        exists (c :: done), rest. simpl in *.
        rewrite Hm. repeat split; auto.
        -- rewrite Hlog, Elog, <- app_assoc. reflexivity.
        -- rewrite Hdb. unfold applyAll. simpl. rewrite <- Edb, Ew. reflexivity.
        -- congruence.
        -- congruence.
      * inversion H; subst. exists [], (c :: map snd script). simpl.
        rewrite Elog. repeat split; auto; try discriminate.
Qed.

(** *** The loops of the checkout as scripts *)

Lemma forOf_create_script {S} (s : S) oid items :
  forall w,
    forOf items
      (fun item =>
         sfx <- freshSuffix ;;
         orderItems_create (CheckoutPage.orderItemData sfx oid item)) s w =
    (let (ok, w') :=
       runScript (map (fun oi => (true, OrderItemsCreate oi))
                      (orderItemsFrom (entropy w) (draws w) oid items)) w in
     (if ok then Ok tt else Throw, s, w')).
Proof.
  induction items as [| item items IH]; intro w; simpl.
  - reflexivity.
  - unfold bind at 1. unfold bind at 1. unfold freshSuffix at 1.
    unfold orderItems_create at 1, await.
    destruct (nextFault (drawn w)); [reflexivity |].
    cbn [write]. rewrite IH. reflexivity.
Qed.

Lemma forOf_delete_script {S} (s : S) items :
  forall w,
    forOf items (fun item => cartItems_delete (CartItem.id item)) s w =
    (let (ok, w') :=
       runScript (map (fun item => (false, CartItemsDelete (CartItem.id item))) items) w in
     (if ok then Ok tt else Throw, s, w')).
Proof.
  induction items as [| item items IH]; intro w; simpl.
  - reflexivity.
  - unfold bind at 1. unfold cartItems_delete at 1, await.
    destruct (nextFault w); [reflexivity |].
    cbn [write]. rewrite IH. reflexivity.
Qed.

(** [handleCheckout] with a shipping address, as one run of its script. *)
Lemma handleCheckout_run st w :
  truthy (trim (CheckoutPage.shippingAddress st)) = true ->
  CheckoutPage.handleCheckout st w =
  (let st' := CheckoutPage.mkState (CheckoutPage.cartItems st) (CheckoutPage.loading st)
                                   false (CheckoutPage.shippingAddress st) in
   if nextFault w then (Ok tt, st', emit failureToast (rejected AuthMe w))
   else match session w with
        | None => (Ok tt, st', emit failureToast (rejected AuthMe w))
        | Some u =>
            let (ok, w2) :=
              runScript (checkoutScript (checkoutOrder u st w) (checkoutItems st w)
                                        (CheckoutPage.cartItems st))
                        (served AuthMe (db w) w) in
            (Ok tt, st',
             if ok then emit (Navigate home) (emit successToast w2)
             else emit failureToast w2)
        end).
Proof.
  intro Haddr.
  unfold CheckoutPage.handleCheckout, bind at 1, getState.
  rewrite Haddr. cbn [negb].
  unfold bind at 1, CheckoutPage.setProcessing, setState, tryCatchFinally.
  unfold bind at 1, auth_me, await.
  destruct (nextFault w) eqn:Hf; [reflexivity |].
  destruct (session w) as [u |] eqn:Hs; cbn [write]; [| reflexivity].
  unfold bind at 1, freshSuffix at 1.
  unfold bind at 1, orders_create at 1, await.
  unfold checkoutScript. cbn [runScript].
  set (w1 := served AuthMe (db w) w).
  destruct (nextFault (drawn w1)) eqn:Hf1; [reflexivity |].
  cbn [write].
  unfold bind at 1. rewrite forOf_create_script.
  rewrite runScript_app.
  set (o := checkoutOrder u st w).
  replace (CheckoutPage.orderData _ u _ _) with o by reflexivity.
  unfold checkoutItems, checkoutOrderId. subst w1.
  cbn [entropy draws served drawn db].
  match goal with
  | |- context [runScript (map (fun oi => (true, OrderItemsCreate oi)) ?l) ?w'] =>
      destruct (runScript (map (fun oi => (true, OrderItemsCreate oi)) l) w') as [ok1 w2]
  end.
  destruct ok1; [| reflexivity].
  unfold bind at 1. rewrite forOf_delete_script.
  match goal with
  | |- context [runScript ?sc ?w'] => destruct (runScript sc w') as [ok2 w3]
  end.
  destruct ok2; reflexivity.
Qed.

Lemma checkoutScript_calls o ois items :
  map snd (checkoutScript o ois items) = checkoutPlan o ois items.
Proof.
  unfold checkoutScript, checkoutPlan. simpl.
  rewrite map_app, !map_map. reflexivity.
Qed.

(** Every run of [handleCheckout] with an address: authentication is
    rejected, or a prefix [done] of the plan is served and the run either
    completes or stops at the first rejected call. *)
Lemma handleCheckout_outcome st w r st' w' :
  truthy (trim (CheckoutPage.shippingAddress st)) = true ->
  CheckoutPage.handleCheckout st w = (r, st', w') ->
  r = Ok tt /\
  st' = CheckoutPage.mkState (CheckoutPage.cartItems st) (CheckoutPage.loading st)
                             false (CheckoutPage.shippingAddress st) /\
  ((db w' = db w /\ log w' = log w ++ [Called AuthMe false; failureToast]) \/
   exists u done rest,
     session w = Some u /\
     checkoutPlan (checkoutOrder u st w) (checkoutItems st w) (CheckoutPage.cartItems st)
       = done ++ rest /\
     db w' = applyAll done (db w) /\
     log w' = log w ++ Called AuthMe true :: servedEvents done ++ closing rest).
Proof.
  intros Haddr Hrun. rewrite (handleCheckout_run _ _ Haddr) in Hrun.
  cbv zeta in Hrun.
  destruct (nextFault w).
  { inversion Hrun; subst. repeat split; auto. left. simpl.
    rewrite <- app_assoc. auto. }
  destruct (session w) as [u |] eqn:Hs.
  2:{ inversion Hrun; subst. repeat split; auto. left. simpl.
      rewrite <- app_assoc. auto. }
  destruct (runScript _ _) as [ok w2] eqn:Hsc.
  apply runScript_spec in Hsc.
  destruct Hsc as (done & rest & Hm & Hok & Hlog & Hne & Hdb & _ & _).
  rewrite checkoutScript_calls in Hm.
  inversion Hrun; subst. repeat split; auto. right.
  exists u, done, rest. repeat split; auto.
  - destruct ok; simpl; exact Hdb.
  - destruct ok.
    + rewrite (Hok eq_refl) in *. simpl. rewrite Hlog. simpl.
      rewrite !app_nil_r, <- !app_assoc. reflexivity.
    + destruct rest as [| c rest]; [exfalso; apply Hne; auto |].
      simpl. rewrite Hlog. simpl. rewrite <- !app_assoc. reflexivity.
Qed.

(** *** Stores after checkout writes *)

Lemma store_eta s :
  mkStore (products s) (cartItems s) (orders s) (orderItems s) = s.
Proof. destruct s; reflexivity. Qed.

Lemma filter_all {A} (f : A -> bool) l :
  (forall x, In x l -> f x = true) -> filter f l = l.
Proof.
  induction l as [| a l IH]; simpl; intro H; [reflexivity |].
  rewrite (H a (or_introl eq_refl)). f_equal. apply IH. intros; apply H; auto.
Qed.

Lemma filter_twice {A} (f g : A -> bool) l :
  filter f (filter g l) = filter (fun x => g x && f x) l.
Proof.
  induction l as [| a l IH]; simpl; [reflexivity |].
  destruct (g a); simpl; [destruct (f a) |]; rewrite IH; reflexivity.
Qed.

Lemma keptAfter_cons i ids ci :
  keptAfter (i :: ids) ci = negb (hasId i ci) && keptAfter ids ci.
Proof. unfold keptAfter, hasId. simpl. apply negb_orb. Qed.

Lemma applyAll_checkout done :
  forall s,
    forallb isCheckoutWrite done = true ->
    applyAll done s =
    mkStore (products s)
            (filter (keptAfter (deletedIds done)) (cartItems s))
            (orders s ++ createdOrders done)
            (orderItems s ++ createdOrderItems done).
Proof.
  induction done as [| c done IH]; intros s H.
  - simpl. rewrite !app_nil_r, filter_all by reflexivity. symmetry; apply store_eta.
  - simpl in H. apply andb_prop in H. destruct H as [Hc Hd].
    unfold applyAll in *. simpl fold_left.
    destruct c; try discriminate Hc; cbn [write]; rewrite (IH _ Hd); simpl.
    + rewrite filter_twice. f_equal. apply filter_ext. intro ci.
      symmetry. apply keptAfter_cons.
    + rewrite <- app_assoc. reflexivity.
    + rewrite <- app_assoc. reflexivity.
Qed.

Lemma checkoutPlan_writes o ois items :
  forallb isCheckoutWrite (checkoutPlan o ois items) = true.
Proof.
  unfold checkoutPlan. simpl. rewrite forallb_app.
  apply andb_true_intro; split; apply forallb_forall;
    intros c Hc; apply in_map_iff in Hc; destruct Hc as (x & <- & _); reflexivity.
Qed.

Lemma deletedIds_app a b : deletedIds (a ++ b) = deletedIds a ++ deletedIds b.
Proof. apply flat_map_app. Qed.

Lemma createdOrders_app a b : createdOrders (a ++ b) = createdOrders a ++ createdOrders b.
Proof. apply flat_map_app. Qed.

Lemma createdOrderItems_app a b :
  createdOrderItems (a ++ b) = createdOrderItems a ++ createdOrderItems b.
Proof. apply flat_map_app. Qed.

Lemma creates_delete_nothing ois : deletedIds (map OrderItemsCreate ois) = [].
Proof. induction ois; simpl; auto. Qed.

Lemma creates_order_nothing ois : createdOrders (map OrderItemsCreate ois) = [].
Proof. induction ois; simpl; auto. Qed.

Lemma creates_items ois : createdOrderItems (map OrderItemsCreate ois) = ois.
Proof. induction ois; simpl; congruence. Qed.

Lemma deletes_ids (items : list CartItem.t) :
  deletedIds (map (fun item => CartItemsDelete (CartItem.id item)) items)
  = map CartItem.id items.
Proof. induction items; simpl; congruence. Qed.

Lemma deletes_order_nothing (items : list CartItem.t) :
  createdOrders (map (fun item => CartItemsDelete (CartItem.id item)) items) = [].
Proof. induction items; simpl; auto. Qed.

Lemma deletes_create_nothing (items : list CartItem.t) :
  createdOrderItems (map (fun item => CartItemsDelete (CartItem.id item)) items) = [].
Proof. induction items; simpl; auto. Qed.

(** A prefix of the creations of a plan deletes nothing. *)
Lemma prefix_of_creates_deletes_nothing (done l : list Call) o ois :
  OrdersCreate o :: map OrderItemsCreate ois = done ++ l ->
  deletedIds done = [].
Proof.
  intro H.
  assert (E : deletedIds (done ++ l) = []).
  { rewrite <- H. simpl. apply creates_delete_nothing. }
  rewrite deletedIds_app in E. apply app_eq_nil in E. tauto.
Qed.

(** Where a plan splits: inside the creations, or after all of them. *)
Lemma checkoutPlan_split o ois items done rest :
  checkoutPlan o ois items = done ++ rest ->
  (exists l, l <> [] /\ OrdersCreate o :: map OrderItemsCreate ois = done ++ l /\
             rest = l ++ map (fun item => CartItemsDelete (CartItem.id item)) items) \/
  (exists l, done = (OrdersCreate o :: map OrderItemsCreate ois) ++ l /\
             map (fun item => CartItemsDelete (CartItem.id item)) items = l ++ rest).
Proof.
  unfold checkoutPlan. intro H.
  change (OrdersCreate o :: map OrderItemsCreate ois ++ ?d)
    with ((OrdersCreate o :: map OrderItemsCreate ois) ++ d) in H.
  apply app_eq_app in H.
  destruct H as (l & [[H1 H2] | [H1 H2]]).
  - destruct l as [| x l].
    + right. exists []. rewrite app_nil_r in *. simpl in *. auto.
    + left. exists (x :: l). repeat split; auto. discriminate.
  - right. exists l. auto.
Qed.

(* ================================================================= *)
(** ** Checkout: failure *)

Lemma served_not_rejected c done : ~ In (Called c false) (servedEvents done).
Proof.
  unfold servedEvents. intro H. apply in_map_iff in H.
  destruct H as (x & Hx & _). discriminate Hx.
Qed.

(** C5: when the creation of the order, the creation of an order item or
    the deletion of a line item is rejected, the checkout has served
    exactly the writes that precede it in the plan, emits nothing after the
    rejected call but the failure toast, keeps every record it created, and
    leaves in the cart every line item whose deletion was not served; the
    page's own cart entries are untouched. *)
Theorem checkout_failure_stops_without_rollback st w r st' w' evs c :
  truthy (trim (CheckoutPage.shippingAddress st)) = true ->
  CheckoutPage.handleCheckout st w = (r, st', w') ->
  log w' = log w ++ evs ->
  isCheckoutWrite c = true ->
  In (Called c false) evs ->
  exists u done rest,
    session w = Some u /\
    checkoutPlan (checkoutOrder u st w) (checkoutItems st w) (CheckoutPage.cartItems st)
      = done ++ c :: rest /\
    evs = Called AuthMe true :: servedEvents done ++ [Called c false; failureToast] /\
    products (db w') = products (db w) /\
    orders (db w') = orders (db w) ++ createdOrders done /\
    orderItems (db w') = orderItems (db w) ++ createdOrderItems done /\
    cartItems (db w') = filter (keptAfter (deletedIds done)) (cartItems (db w)) /\
    ((forall i, c <> CartItemsDelete i) -> cartItems (db w') = cartItems (db w)) /\
    CheckoutPage.cartItems st' = CheckoutPage.cartItems st.
Proof.
  intros Haddr Hrun Hlog Hc Hin.
  destruct (handleCheckout_outcome _ _ _ _ _ Haddr Hrun) as (_ & Hst & Hout).
  destruct Hout as [[_ Hl] | (u & done & rest & Hs & Hplan & Hdb & Hl)];
    rewrite Hl in Hlog; apply app_inv_head in Hlog; subst evs.
  { simpl in Hin. destruct Hin as [H | [H | []]]; [| discriminate H].
    inversion H; subst c. discriminate Hc. }
  simpl in Hin. destruct Hin as [H | Hin]; [discriminate H |].
  apply in_app_or in Hin. destruct Hin as [Hin | Hin];
    [exfalso; exact (served_not_rejected _ _ Hin) |].
  destruct rest as [| c' rest].
  { simpl in Hin. destruct Hin as [H | [H | []]]; discriminate H. }
  simpl in Hin. destruct Hin as [H | [H | []]]; [| discriminate H].
  inversion H; subst c'. clear H.
  assert (Hw : forallb isCheckoutWrite done = true).
  { pose proof (checkoutPlan_writes (checkoutOrder u st w) (checkoutItems st w)
                                    (CheckoutPage.cartItems st)) as Hall.
    rewrite Hplan, forallb_app in Hall. apply andb_prop in Hall. tauto. }
  rewrite (applyAll_checkout _ _ Hw) in Hdb.
  exists u, done, rest. rewrite Hdb. simpl.
  repeat split; auto.
  - intro Hnd. apply checkoutPlan_split in Hplan.
    destruct Hplan as [(l & _ & Hl1 & _) | (l & _ & Hl2)].
    + rewrite (prefix_of_creates_deletes_nothing _ _ _ _ Hl1).
      apply filter_all. reflexivity.
    + exfalso. assert (Hd : In c (map (fun item => CartItemsDelete (CartItem.id item))
                                      (CheckoutPage.cartItems st))).
      { rewrite Hl2. apply in_or_app. right. left. reflexivity. }
      apply in_map_iff in Hd. destruct Hd as (x & Hx & _).
      exact (Hnd _ (eq_sym Hx)).
  - subst st'. reflexivity.
Qed.

Lemma checkout_failure_stops_witness :
  exists u done rest,
    session Demo.faultyWorld = Some u /\
    checkoutPlan (checkoutOrder u Demo.checkoutState Demo.faultyWorld)
                 (checkoutItems Demo.checkoutState Demo.faultyWorld)
                 (CheckoutPage.cartItems Demo.checkoutState)
      = done ++ CartItemsDelete "c1" :: rest /\
    log (snd Demo.stopped)
      = Called AuthMe true :: servedEvents done
          ++ [Called (CartItemsDelete "c1") false; failureToast] /\
    products (db (snd Demo.stopped)) = products (db Demo.faultyWorld) /\
    orders (db (snd Demo.stopped))
      = orders (db Demo.faultyWorld) ++ createdOrders done /\
    orderItems (db (snd Demo.stopped))
      = orderItems (db Demo.faultyWorld) ++ createdOrderItems done /\
    cartItems (db (snd Demo.stopped))
      = filter (keptAfter (deletedIds done)) (cartItems (db Demo.faultyWorld)) /\
    ((forall i, CartItemsDelete "c1" <> CartItemsDelete i) ->
     cartItems (db (snd Demo.stopped)) = cartItems (db Demo.faultyWorld)) /\
    CheckoutPage.cartItems (fst Demo.stopped)
      = CheckoutPage.cartItems Demo.checkoutState.
Proof.
  apply (checkout_failure_stops_without_rollback
           Demo.checkoutState Demo.faultyWorld (Ok tt)
           (fst Demo.stopped) (snd Demo.stopped)
           (log (snd Demo.stopped)) (CartItemsDelete "c1")).
  - vm_compute; reflexivity.
  - vm_compute; reflexivity.
  - vm_compute; reflexivity.
  - reflexivity.
  - vm_compute. do 4 right. left. reflexivity.
Defined.

(* ================================================================= *)
(** ** Checkout: order of the writes *)

Lemma precedes_app e1 e2 a b :
  In e1 a -> In e2 b -> precedes e1 e2 (a ++ b).
Proof.
  intros H1 H2. apply in_split in H1. apply in_split in H2.
  destruct H1 as (a1 & a2 & ->). destruct H2 as (b1 & b2 & ->).
  exists a1, (a2 ++ b1), b2. rewrite <- !app_assoc. reflexivity.
Qed.

Lemma served_in c done : In c done -> In (Called c true) (servedEvents done).
Proof. intro H. unfold servedEvents. apply in_map_iff. eauto. Qed.

(** A call found among the events of a run was served, or is the one the
    run stopped at. *)
Lemma called_in_run c b done rest :
  In (Called c b) (servedEvents done ++ closing rest) ->
  In c done \/ exists rest', rest = c :: rest'.
Proof.
  intro H. apply in_app_or in H. destruct H as [H | H].
  - left. unfold servedEvents in H. apply in_map_iff in H.
    destruct H as (x & Hx & Hin). inversion Hx; subst; exact Hin.
  - right. destruct rest as [| c' rest]; simpl in H.
    + destruct H as [H | [H | []]]; discriminate H.
    + destruct H as [H | [H | []]]; [| discriminate H].
      inversion H; subst. eauto.
Qed.

Lemma orderItemsFrom_orderId gen oid items :
  forall d oi, In oi (orderItemsFrom gen d oid items) -> OrderItem.orderId oi = oid.
Proof.
  induction items as [| item items IH]; intros d oi H; simpl in H.
  - contradiction.
  - destruct H as [<- | H]; [reflexivity | eauto].
Qed.

Lemma orderItemsFrom_length gen oid items :
  forall d, length (orderItemsFrom gen d oid items) = length items.
Proof. induction items; intro d; simpl; auto. Qed.

Lemma in_createdOrderItems oi cs :
  In oi (createdOrderItems cs) <-> In (OrderItemsCreate oi) cs.
Proof.
  unfold createdOrderItems. rewrite in_flat_map. split.
  - intros (c & Hc & Hin). destruct c; simpl in Hin; try contradiction.
    destruct Hin as [<- | []]. exact Hc.
  - intro H. exists (OrderItemsCreate oi). simpl. auto.
Qed.

(** No call of the creation part of a plan is a deletion. *)
Lemma creation_not_deletion o ois i :
  ~ In (CartItemsDelete i) (OrdersCreate o :: map OrderItemsCreate ois).
Proof.
  intros [H | H]; [discriminate H |].
  apply in_map_iff in H. destruct H as (x & Hx & _). discriminate Hx.
Qed.

Lemma item_creation_in_plan oi ois (items : list CartItem.t) :
  In (OrderItemsCreate oi)
     (map OrderItemsCreate ois
        ++ map (fun item => CartItemsDelete (CartItem.id item)) items) ->
  In oi ois.
Proof.
  intro H. apply in_app_or in H. destruct H as [H | H];
    apply in_map_iff in H; destruct H as (x & Hx & Hin).
  - inversion Hx; subst; exact Hin.
  - discriminate Hx.
Qed.

(** Serving a prefix of a checkout plan never leaves an order item
    without its order. *)
Lemma noOrphans_prefix o ois items done rest s :
  (forall oi, In oi ois -> OrderItem.orderId oi = Order.id o) ->
  checkoutPlan o ois items = done ++ rest ->
  noOrphans s ->
  noOrphans (applyAll done s).
Proof.
  intros Hid Hplan Hs.
  assert (Hw : forallb isCheckoutWrite done = true).
  { pose proof (checkoutPlan_writes o ois items) as Hall.
    rewrite Hplan, forallb_app in Hall. apply andb_prop in Hall. tauto. }
  rewrite (applyAll_checkout _ _ Hw).
  intros oi Hoi. simpl in *. apply in_app_or in Hoi. destruct Hoi as [Hoi | Hoi].
  - destruct (Hs oi Hoi) as (p & Hp & Hpid). exists p. split; [| exact Hpid].
    apply in_or_app; auto.
  - destruct done as [| c done]; [contradiction |].
    unfold checkoutPlan in Hplan. simpl in Hplan. injection Hplan as Hc Hrest.
    subst c. exists o. split.
    + apply in_or_app. right. simpl. auto.
    + symmetry. apply Hid. simpl in Hoi.
      apply in_createdOrderItems in Hoi.
      apply (item_creation_in_plan oi ois items).
      rewrite Hrest. apply in_or_app; auto.
Qed.

Lemma checkoutOrder_id u st w : Order.id (checkoutOrder u st w) = checkoutOrderId w.
Proof. reflexivity. Qed.

Lemma checkoutItems_orderId st w oi :
  In oi (checkoutItems st w) -> OrderItem.orderId oi = checkoutOrderId w.
Proof. apply orderItemsFrom_orderId. Qed.

(** C6: in every run of the checkout, whatever call is rejected, (1) a
    call creating an order item comes after the served creation of its
    order; (2) a call deleting a line item comes after the served creation
    of every order item of the checkout, one per cart entry; (3) the success
    toast comes after the served creation of every order item and the served
    deletion of every cart entry; (4) from a store without orphans, the
    store after each served write of the plan, and the store the run leaves,
    has none. *)
Theorem checkout_writes_in_order st w r st' w' evs :
  truthy (trim (CheckoutPage.shippingAddress st)) = true ->
  CheckoutPage.handleCheckout st w = (r, st', w') ->
  log w' = log w ++ evs ->
  (forall oi b,
      In (Called (OrderItemsCreate oi) b) evs ->
      exists o, Order.id o = OrderItem.orderId oi /\
                precedes (Called (OrdersCreate o) true)
                         (Called (OrderItemsCreate oi) b) evs) /\
  (forall i b,
      In (Called (CartItemsDelete i) b) evs ->
      forall oi, In oi (checkoutItems st w) ->
                 precedes (Called (OrderItemsCreate oi) true)
                          (Called (CartItemsDelete i) b) evs) /\
  (In successToast evs ->
   (forall oi, In oi (checkoutItems st w) ->
               precedes (Called (OrderItemsCreate oi) true) successToast evs) /\
   (forall item, In item (CheckoutPage.cartItems st) ->
                 precedes (Called (CartItemsDelete (CartItem.id item)) true)
                          successToast evs)) /\
  length (checkoutItems st w) = length (CheckoutPage.cartItems st) /\
  (noOrphans (db w) ->
   noOrphans (db w') /\
   forall u k,
     noOrphans (applyAll (firstn k (checkoutPlan (checkoutOrder u st w)
                                                 (checkoutItems st w)
                                                 (CheckoutPage.cartItems st)))
                         (db w))).
Proof.
  intros Haddr Hrun Hlog.
  destruct (handleCheckout_outcome _ _ _ _ _ Haddr Hrun) as (_ & _ & Hout).
  assert (Horph : forall u done rest,
             checkoutPlan (checkoutOrder u st w) (checkoutItems st w)
                          (CheckoutPage.cartItems st) = done ++ rest ->
             noOrphans (db w) -> noOrphans (applyAll done (db w))).
  { intros u done rest. apply noOrphans_prefix.
    intros oi Hoi. rewrite (checkoutOrder_id u st w).
    apply (checkoutItems_orderId st w), Hoi. }
  assert (Hlen : length (checkoutItems st w) = length (CheckoutPage.cartItems st))
    by apply orderItemsFrom_length.
  assert (Hk : noOrphans (db w) ->
               forall u k,
                 noOrphans (applyAll (firstn k (checkoutPlan (checkoutOrder u st w)
                                                             (checkoutItems st w)
                                                             (CheckoutPage.cartItems st)))
                                     (db w))).
  { intros Hs u k. eapply Horph; [| exact Hs]. symmetry. apply firstn_skipn. }
  destruct Hout as [[Hdb Hl] | (u & done & rest & Hs & Hplan & Hdb & Hl)];
    rewrite Hl in Hlog; apply app_inv_head in Hlog; subst evs.
  { repeat split; auto.
    - intros oi b [H | [H | []]]; discriminate H.
    - intros i b [H | [H | []]]; discriminate H.
    - destruct H as [H | [H | []]]; discriminate H.
    - destruct H as [H | [H | []]]; discriminate H.
    - rewrite Hdb. assumption. }
  split; [| split; [| split; [| split]]]; auto.
  - (* an order item is created after its order *)
    intros oi b [H | H]; [discriminate H |].
    destruct done as [| c done].
    + simpl in H. unfold checkoutPlan in Hplan. simpl in Hplan. subst rest.
      simpl in H. destruct H as [H | [H | []]]; discriminate H.
    + unfold checkoutPlan in Hplan. simpl in Hplan. injection Hplan as Hc Hrest.
      subst c. simpl in H. destruct H as [H | H]; [discriminate H |].
      exists (checkoutOrder u st w). split.
      * rewrite (checkoutOrder_id u st w). symmetry.
        apply (checkoutItems_orderId st w).
        apply (item_creation_in_plan oi _ (CheckoutPage.cartItems st)).
        rewrite Hrest. apply in_or_app.
        destruct (called_in_run _ _ _ _ H) as [Hd | (rest' & ->)]; simpl; auto.
      * change (Called AuthMe true
                  :: servedEvents (OrdersCreate (checkoutOrder u st w) :: done)
                  ++ closing rest)
          with ([Called AuthMe true; Called (OrdersCreate (checkoutOrder u st w)) true]
                  ++ (servedEvents done ++ closing rest)).
        apply precedes_app; simpl; auto.
  - (* a line item is deleted after every order item is created *)
    intros i b [H | H] oi Hoi; [discriminate H |].
    apply checkoutPlan_split in Hplan.
    destruct Hplan as [(l & Hne & Hl1 & Hl2) | (l & Hl1 & Hl2)].
    + exfalso. apply (creation_not_deletion (checkoutOrder u st w) (checkoutItems st w) i).
      rewrite Hl1. apply in_or_app.
      destruct (called_in_run _ _ _ _ H) as [Hd | (rest' & Hr)]; [auto |].
      right. destruct l as [| x l]; [contradiction |].
      rewrite Hr in Hl2. simpl in Hl2. injection Hl2 as Hx _. subst x. simpl; auto.
    + subst done. unfold servedEvents in *. rewrite map_app, <- app_assoc in *.
      apply in_app_or in H. destruct H as [H | H].
      * exfalso. apply in_map_iff in H. destruct H as (x & Hx & Hin).
        inversion Hx; subst.
        exact (creation_not_deletion _ _ _ Hin).
      * rewrite app_comm_cons. apply precedes_app; [| exact H].
        right. apply in_map_iff.
        exists (OrderItemsCreate oi). split; [reflexivity |].
        right. apply in_map. exact Hoi.
  - (* success is reported after all of it *)
    intro H. destruct H as [H | H]; [discriminate H |].
    apply in_app_or in H. destruct H as [H | H].
    { unfold servedEvents in H. apply in_map_iff in H.
      destruct H as (x & Hx & _). discriminate Hx. }
    destruct rest as [| c rest].
    2:{ simpl in H. destruct H as [H | [H | []]]; discriminate H. }
    rewrite app_nil_r in Hplan. subst done.
    split.
    + intros oi Hoi. rewrite app_comm_cons. apply precedes_app; [| simpl; auto].
      right. apply served_in. unfold checkoutPlan. right.
      apply in_or_app. left. apply in_map. exact Hoi.
    + intros item Hitem. rewrite app_comm_cons. apply precedes_app; [| simpl; auto].
      right. apply served_in. unfold checkoutPlan. right.
      apply in_or_app. right.
      apply (in_map (fun item => CartItemsDelete (CartItem.id item))). exact Hitem.
  - intro Hno. split; [| auto]. rewrite Hdb. eapply Horph; eauto.
Qed.

(* ================================================================= *)
(** ** Checkout: success *)

Lemma keptAfter_spec ids ci :
  keptAfter ids ci = true <-> ~ In (CartItem.id ci) ids.
Proof.
  unfold keptAfter. rewrite negb_true_iff. split.
  - intros H Hin. assert (E : existsb (String.eqb (CartItem.id ci)) ids = true).
    { apply existsb_exists. exists (CartItem.id ci). split; [exact Hin |].
      apply String.eqb_refl. }
    congruence.
  - intro H. destruct (existsb _ ids) eqn:E; [| reflexivity].
    apply existsb_exists in E. destruct E as (x & Hx & Heq).
    apply String.eqb_eq in Heq. subst x. contradiction.
Qed.

(** A run that shows the success toast has served the whole plan. *)
Lemma checkout_success st w r st' w' evs :
  truthy (trim (CheckoutPage.shippingAddress st)) = true ->
  CheckoutPage.handleCheckout st w = (r, st', w') ->
  log w' = log w ++ evs ->
  In successToast evs ->
  exists u,
    session w = Some u /\
    evs = Called AuthMe true
            :: servedEvents (checkoutPlan (checkoutOrder u st w) (checkoutItems st w)
                                          (CheckoutPage.cartItems st))
            ++ [successToast; Navigate home] /\
    db w' = mkStore (products (db w))
                    (filter (keptAfter (map CartItem.id (CheckoutPage.cartItems st)))
                            (cartItems (db w)))
                    (orders (db w) ++ [checkoutOrder u st w])
                    (orderItems (db w) ++ checkoutItems st w).
Proof.
  intros Haddr Hrun Hlog Hin.
  destruct (handleCheckout_outcome _ _ _ _ _ Haddr Hrun) as (_ & _ & Hout).
  destruct Hout as [[Hdb Hl] | (u & done & rest & Hs & Hplan & Hdb & Hl)];
    rewrite Hl in Hlog; apply app_inv_head in Hlog; subst evs.
  { destruct Hin as [H | [H | []]]; discriminate H. }
  destruct Hin as [H | Hin]; [discriminate H |].
  apply in_app_or in Hin. destruct Hin as [H | H].
  { unfold servedEvents in H. apply in_map_iff in H.
    destruct H as (x & Hx & _). discriminate Hx. }
  destruct rest as [| c rest].
  2:{ simpl in H. destruct H as [H | [H | []]]; discriminate H. }
  rewrite app_nil_r in Hplan. subst done.
  exists u. repeat split; auto.
  rewrite Hdb, applyAll_checkout by apply checkoutPlan_writes.
  unfold checkoutPlan. simpl.
  rewrite deletedIds_app, createdOrders_app, createdOrderItems_app.
  rewrite creates_delete_nothing, creates_order_nothing, creates_items.
  rewrite deletes_ids, deletes_order_nothing, deletes_create_nothing.
  rewrite !app_nil_r. reflexivity.
Qed.

Lemma orderItemsFrom_fields gen oid items :
  forall d,
    Forall2 (fun item oi =>
               OrderItem.orderId oi = oid /\
               OrderItem.productId oi = CartItem.productId item /\
               OrderItem.quantity oi = CartItem.quantity item /\
               OrderItem.price oi = toFixed2 (priceOf item))
            items (orderItemsFrom gen d oid items).
Proof.
  induction items as [| item items IH]; intro d; simpl; constructor; auto.
Qed.

(** C7, amended: after a checkout that reports success, none of the
    page's cart entries is left in the store (the other line items are as
    they were), the store has gained one order, pending, whose total amount
    is the cart total rounded to two decimals, and one order item per cart
    entry, in order, each with the order's id, the entry's product id and
    quantity, and the entry's product price rounded to two decimals. *)
Theorem checkout_success_records st w r st' w' evs :
  truthy (trim (CheckoutPage.shippingAddress st)) = true ->
  CheckoutPage.handleCheckout st w = (r, st', w') ->
  log w' = log w ++ evs ->
  In successToast evs ->
  exists u o ois,
    session w = Some u /\
    orders (db w') = orders (db w) ++ [o] /\
    Order.userId o = User.id u /\
    Order.status o = "pending" /\
    Order.totalAmount o
      = toFixed2 (CheckoutPage.calculateTotal (CheckoutPage.cartItems st)) /\
    orderItems (db w') = orderItems (db w) ++ ois /\
    Forall2 (fun item oi =>
               OrderItem.orderId oi = Order.id o /\
               OrderItem.productId oi = CartItem.productId item /\
               OrderItem.quantity oi = CartItem.quantity item /\
               OrderItem.price oi = toFixed2 (priceOf item))
            (CheckoutPage.cartItems st) ois /\
    (forall ci,
        In ci (cartItems (db w')) <->
        In ci (cartItems (db w)) /\
        forall item, In item (CheckoutPage.cartItems st) ->
                     CartItem.id ci <> CartItem.id item).
Proof.
  intros Haddr Hrun Hlog Hin.
  destruct (checkout_success _ _ _ _ _ _ Haddr Hrun Hlog Hin) as (u & Hs & _ & Hdb).
  exists u, (checkoutOrder u st w), (checkoutItems st w).
  rewrite Hdb. simpl. repeat split; auto.
  - apply orderItemsFrom_fields.
  - apply filter_In in H. tauto.
  - apply filter_In in H. destruct H as [_ H]. apply keptAfter_spec in H.
    intros item Hitem E. apply H. rewrite E. apply in_map. exact Hitem.
  - intros [H1 H2]. apply filter_In. split; [exact H1 |].
    apply keptAfter_spec. intro Hid. apply in_map_iff in Hid.
    destruct Hid as (item & E & Hitem). exact (H2 item Hitem (eq_sym E)).
Qed.

Lemma fold_total_ext (items : list CartItem.t) gen oid :
  (forall item, In item items -> toFixed2 (priceOf item) = priceOf item) ->
  forall d acc,
    fold_left (fun total oi => (total + OrderItem.price oi * OrderItem.quantity oi)%float)
              (orderItemsFrom gen d oid items) acc
    = fold_left (fun total item =>
                   (total + priceOf item * Number (CartItem.quantity item))%float)
                items acc.
Proof.
  induction items as [| item items IH]; intros H d acc; simpl.
  - reflexivity.
  - change (orZero (option_map Product.price (CartItem.product item)))
      with (priceOf item).
    rewrite (H item (or_introl eq_refl)). apply IH. intros; apply H; right; assumption.
Qed.

(** C1, amended: the total at the start of a checkout is the sum of
    [price * quantity] over the page's cart entries, and its rounding to two
    decimals is the total amount of the order created; the order items carry
    each price rounded to two decimals, so when no price changes by that
    rounding the sum of [price * quantity] over the order items created is
    the cart total, and rounded to two decimals it is the order's total
    amount. *)
Theorem checkout_total_rounded st w r st' w' evs :
  truthy (trim (CheckoutPage.shippingAddress st)) = true ->
  CheckoutPage.handleCheckout st w = (r, st', w') ->
  log w' = log w ++ evs ->
  In successToast evs ->
  exists u o ois,
    session w = Some u /\
    orders (db w') = orders (db w) ++ [o] /\
    orderItems (db w') = orderItems (db w) ++ ois /\
    CheckoutPage.calculateTotal (CheckoutPage.cartItems st)
      = fold_left (fun total item =>
                     (total + priceOf item * CartItem.quantity item)%float)
                  (CheckoutPage.cartItems st) zero /\
    Order.totalAmount o
      = toFixed2 (CheckoutPage.calculateTotal (CheckoutPage.cartItems st)) /\
    ((forall item, In item (CheckoutPage.cartItems st) ->
                   toFixed2 (priceOf item) = priceOf item) ->
     orderItemsTotal ois = CheckoutPage.calculateTotal (CheckoutPage.cartItems st) /\
     toFixed2 (orderItemsTotal ois) = Order.totalAmount o).
Proof.
  intros Haddr Hrun Hlog Hin.
  destruct (checkout_success _ _ _ _ _ _ Haddr Hrun Hlog Hin) as (u & Hs & _ & Hdb).
  exists u, (checkoutOrder u st w), (checkoutItems st w).
  rewrite Hdb. simpl. repeat split; auto.
  - unfold orderItemsTotal, checkoutItems. rewrite fold_total_ext by assumption.
    reflexivity.
  - unfold orderItemsTotal, checkoutItems. rewrite fold_total_ext by assumption.
    reflexivity.
Qed.

(** Two numbers on different sides of a threshold are different. *)
Lemma separated (x y t : number) :
  (x <? t)%float = true -> (y <? t)%float = false -> x <> y.
Proof. intros Hx Hy E. subst y. congruence. Qed.

(** C1 fails as stated: four nails at 0.125 give a total of 0.5, which is
    the order's total amount, while the order item stores the price 0.13,
    so that the sum of [price * quantity] over the order items is 0.52. *)
Lemma checkout_total_counterexample :
  In successToast (log (snd Demo.nailsPlaced)) /\
  CheckoutPage.calculateTotal Demo.nailCart = 0.5%float /\
  exists o oi,
    orders (db (snd Demo.nailsPlaced)) = [o] /\
    orderItems (db (snd Demo.nailsPlaced)) = [oi] /\
    Order.totalAmount o = 0.5%float /\
    OrderItem.price oi = 0.13%float /\
    orderItemsTotal [oi] = 0.52%float /\
    Order.totalAmount o <> orderItemsTotal [oi].
Proof.
  split; [vm_compute; auto 10 |]. split; [vm_compute; reflexivity |].
  eexists; eexists. split; [vm_compute; reflexivity |].
  split; [vm_compute; reflexivity |].
  split; [vm_compute; reflexivity |].
  split; [vm_compute; reflexivity |].
  split; [vm_compute; reflexivity |].
  apply (separated _ _ 0.51%float); vm_compute; reflexivity.
Qed.

Lemma checkout_total_rounded_witness :
  exists u o ois,
    session (Demo.world Demo.shop []) = Some u /\
    orders (db (snd Demo.placed)) = orders Demo.shop ++ [o] /\
    orderItems (db (snd Demo.placed)) = orderItems Demo.shop ++ ois /\
    Order.totalAmount o = 25.5%float /\
    orderItemsTotal ois = 25.5%float /\
    toFixed2 (orderItemsTotal ois) = Order.totalAmount o.
Proof.
  destruct (checkout_total_rounded
              Demo.checkoutState (Demo.world Demo.shop []) (Ok tt)
              (fst Demo.placed) (snd Demo.placed) (log (snd Demo.placed)))
    as (u & o & ois & Hs & Ho & Hois & _ & Ht & Hsum).
  - vm_compute; reflexivity.
  - vm_compute; reflexivity.
  - vm_compute; reflexivity.
  - vm_compute. auto 10.
  - destruct Hsum as [Hsum Hround].
    + intros item [<- | [<- | []]]; vm_compute; reflexivity.
    + exists u, o, ois. split; [exact Hs |]. split; [exact Ho |].
      split; [exact Hois |]. split; [rewrite Ht; vm_compute; reflexivity |].
      split; [rewrite Hsum; vm_compute; reflexivity | exact Hround].
Defined.

(** C7 fails as stated: a screw priced 0.375 is ordered at 0.38. *)
Lemma checkout_price_counterexample :
  In successToast (log (snd Demo.screwPlaced)) /\
  exists oi,
    orderItems (db (snd Demo.screwPlaced)) = [oi] /\
    OrderItem.productId oi = Product.id Demo.screw /\
    Product.price Demo.screw = 0.375%float /\
    OrderItem.price oi = 0.38%float /\
    OrderItem.price oi <> Product.price Demo.screw.
Proof.
  split; [vm_compute; auto 10 |].
  eexists. split; [vm_compute; reflexivity |].
  split; [reflexivity |]. split; [reflexivity |].
  split; [vm_compute; reflexivity |].
  apply not_eq_sym. apply (separated _ _ 0.3775%float); vm_compute; reflexivity.
Qed.

Lemma checkout_success_records_witness :
  exists u o ois,
    session (Demo.world Demo.shop []) = Some u /\
    orders (db (snd Demo.placed)) = orders (db (Demo.world Demo.shop [])) ++ [o] /\
    Order.userId o = User.id u /\
    Order.status o = "pending" /\
    Order.totalAmount o
      = toFixed2 (CheckoutPage.calculateTotal (CheckoutPage.cartItems Demo.checkoutState)) /\
    orderItems (db (snd Demo.placed))
      = orderItems (db (Demo.world Demo.shop [])) ++ ois /\
    Forall2 (fun item oi =>
               OrderItem.orderId oi = Order.id o /\
               OrderItem.productId oi = CartItem.productId item /\
               OrderItem.quantity oi = CartItem.quantity item /\
               OrderItem.price oi = toFixed2 (priceOf item))
            (CheckoutPage.cartItems Demo.checkoutState) ois /\
    (forall ci,
        In ci (cartItems (db (snd Demo.placed))) <->
        In ci (cartItems (db (Demo.world Demo.shop []))) /\
        forall item, In item (CheckoutPage.cartItems Demo.checkoutState) ->
                     CartItem.id ci <> CartItem.id item).
Proof.
  apply (checkout_success_records
           Demo.checkoutState (Demo.world Demo.shop []) (Ok tt)
           (fst Demo.placed) (snd Demo.placed) (log (snd Demo.placed))).
  - vm_compute; reflexivity.
  - vm_compute; reflexivity.
  - vm_compute; reflexivity.
  - vm_compute. auto 10.
Defined.

Lemma checkout_writes_in_order_witness :
  (forall oi b,
      In (Called (OrderItemsCreate oi) b) (log (snd Demo.placed)) ->
      exists o, Order.id o = OrderItem.orderId oi /\
                precedes (Called (OrdersCreate o) true)
                         (Called (OrderItemsCreate oi) b) (log (snd Demo.placed))) /\
  (forall i b,
      In (Called (CartItemsDelete i) b) (log (snd Demo.placed)) ->
      forall oi, In oi (checkoutItems Demo.checkoutState (Demo.world Demo.shop [])) ->
                 precedes (Called (OrderItemsCreate oi) true)
                          (Called (CartItemsDelete i) b) (log (snd Demo.placed))) /\
  (In successToast (log (snd Demo.placed)) ->
   (forall oi, In oi (checkoutItems Demo.checkoutState (Demo.world Demo.shop [])) ->
               precedes (Called (OrderItemsCreate oi) true) successToast
                        (log (snd Demo.placed))) /\
   (forall item, In item (CheckoutPage.cartItems Demo.checkoutState) ->
                 precedes (Called (CartItemsDelete (CartItem.id item)) true)
                          successToast (log (snd Demo.placed)))) /\
  length (checkoutItems Demo.checkoutState (Demo.world Demo.shop []))
    = length (CheckoutPage.cartItems Demo.checkoutState) /\
  (noOrphans (db (Demo.world Demo.shop [])) ->
   noOrphans (db (snd Demo.placed)) /\
   forall u k,
     noOrphans
       (applyAll
          (firstn k (checkoutPlan
                       (checkoutOrder u Demo.checkoutState (Demo.world Demo.shop []))
                       (checkoutItems Demo.checkoutState (Demo.world Demo.shop []))
                       (CheckoutPage.cartItems Demo.checkoutState)))
          (db (Demo.world Demo.shop [])))).
Proof.
  apply (checkout_writes_in_order
           Demo.checkoutState (Demo.world Demo.shop []) (Ok tt)
           (fst Demo.placed) (snd Demo.placed) (log (snd Demo.placed))).
  - vm_compute; reflexivity.
  - vm_compute; reflexivity.
  - vm_compute; reflexivity.
Defined.

(** *** Fault flags *)

Lemma noFaults_next n w : noFaults (S n) w = true -> nextFault w = false.
Proof.
  unfold noFaults, nextFault. destruct (faults w) as [| b fs]; simpl; [reflexivity |].
  destruct b; simpl; [discriminate | reflexivity].
Qed.

Lemma noFaults_tail n w w1 :
  faults w1 = tl (faults w) -> noFaults (S n) w = true -> noFaults n w1 = true.
Proof.
  unfold noFaults. intros ->. destruct (faults w) as [| b fs]; simpl.
  - intros _. destruct n; reflexivity.
  - intro H. apply andb_prop in H. tauto.
Qed.

(* ================================================================= *)
(** ** The cart aggregator *)

Lemma skipn_tl {A} n (l : list A) : skipn n (tl l) = skipn (S n) l.
Proof. destruct l; simpl; [apply skipn_nil | reflexivity]. Qed.

(** The product lookups of one aggregation: all are issued, the store is
    not touched, and the entries are delivered only if none is rejected. *)
Lemma promiseAll_hydrate {S} (s : S) items :
  forall w,
    promiseAll items hydrate s w =
    (if noFaults (length items) w
     then Ok (map (fun item => CartItem.withProduct item (lookup (db w) item)) items)
     else Throw,
     s,
     mkWorld (db w) (session w) (skipn (length items) (faults w)) (entropy w) (draws w)
             (log w ++ lookupEvents items (faults w))).
Proof.
  induction items as [| item items IH]; intro w.
  - simpl. rewrite app_nil_r, world_eta. reflexivity.
  - cbn [promiseAll length lookupEvents].
    unfold hydrate at 1, bind at 1, products_list at 1, await.
    unfold noFaults, nextFault.
    destruct (faults w) as [| [|] fs] eqn:Hf; cbn [write ret];
      rewrite IH; unfold noFaults, served, rejected; cbn [db session faults entropy draws log];
      rewrite Hf; cbn [tl hd negb firstn forallb andb skipn];
      rewrite <- ?app_assoc; cbn [app]; try reflexivity.
    + rewrite skipn_nil. destruct (length items); reflexivity.
    + destruct (forallb negb (firstn (length items) fs)); reflexivity.
Qed.

Lemma lookupEvents_served items :
  forall fs c,
    forallb negb (firstn (length items) fs) = true ->
    ~ In (Called c false) (lookupEvents items fs).
Proof.
  induction items as [| item items IH]; intros fs c H; simpl; [tauto |].
  destruct fs as [| b fs]; simpl in *.
  - intros [E | E]; [discriminate E |]. revert E. apply IH.
    destruct (length items); reflexivity.
  - apply andb_prop in H. destruct H as [Hb H]. destruct b; [discriminate Hb |].
    intros [E | E]; [discriminate E |]. revert E. apply IH. exact H.
Qed.

Lemma lookupEvents_rejected items :
  forall fs,
    forallb negb (firstn (length items) fs) = false ->
    exists item, In item items /\
      In (Called (ProductsList (CartItem.productId item)) false) (lookupEvents items fs).
Proof.
  induction items as [| item items IH]; intros fs H; simpl in H; [discriminate H |].
  destruct fs as [| b fs]; simpl in H; [discriminate H |].
  destruct b; simpl in *.
  - exists item. auto.
  - destruct (IH fs H) as (x & Hx & Hin). exists x. auto.
Qed.

Lemma lookupEvents_calls items :
  forall fs e, In e (lookupEvents items fs) -> exists c b, e = Called c b.
Proof.
  induction items as [| item items IH]; intros fs e H; simpl in H; [contradiction |].
  destruct H as [<- | H]; eauto.
Qed.

(** A product found by a lookup is in the store and has the id that was
    asked for. *)
Lemma lookup_in s row p :
  lookup s row = Some p -> In p (products s) /\ Product.id p = CartItem.productId row.
Proof.
  unfold lookup. intro Hl.
  destruct (filter (whereProduct (CartItem.productId row)) (products s)) as [| q l] eqn:Hq;
    [discriminate Hl |].
  injection Hl as ->.
  assert (Hin : In p (filter (whereProduct (CartItem.productId row)) (products s)))
    by (rewrite Hq; left; reflexivity).
  apply filter_In in Hin. destruct Hin as [Hin Hid]. apply String.eqb_eq in Hid. auto.
Qed.

(** Every entry the aggregator produces carries a product of the store
    that has the id the line item refers to, and comes from a stored line
    item of the user. *)
Lemma hydrated_sound s u item :
  In item (hydrated s u) ->
  exists row p,
    In row (cartItems s) /\ CartItem.userId row = u /\
    item = CartItem.withProduct row (Some p) /\
    In p (products s) /\ Product.id p = CartItem.productId item.
Proof.
  unfold hydrated. intro H. apply filter_In in H. destruct H as [H Hp].
  apply in_map_iff in H. destruct H as (row & <- & Hrow).
  apply filter_In in Hrow. destruct Hrow as [Hrow Hu].
  unfold whereCartItem in Hu. rewrite andb_true_r in Hu. apply String.eqb_eq in Hu.
  unfold hasProduct in Hp. simpl in Hp.
  destruct (lookup s row) as [p |] eqn:Hl; [| discriminate Hp].
  destruct (lookup_in _ _ _ Hl) as [Hin Hid].
  exists row, p. repeat split; auto.
Qed.

(** A stored line item of the user whose product is in the store is
    produced. *)
Lemma hydrated_complete s u row p :
  In row (cartItems s) -> CartItem.userId row = u ->
  lookup s row = Some p ->
  In (CartItem.withProduct row (Some p)) (hydrated s u).
Proof.
  intros Hrow Hu Hl. unfold hydrated. apply filter_In. split; [| reflexivity].
  apply in_map_iff. exists row. rewrite Hl. split; [reflexivity |].
  apply filter_In. split; [exact Hrow |].
  unfold whereCartItem. rewrite Hu, String.eqb_refl. reflexivity.
Qed.

Lemma CartPage_loadCartItems_run st w :
  CartPage.loadCartItems st w =
  (let off := CartPage.mkState (CartPage.cartItems st) false (CartPage.updating st) in
   if nextFault w then (Ok tt, off, emit errorToast (rejected AuthMe w))
   else match session w with
        | None => (Ok tt, off, emit errorToast (rejected AuthMe w))
        | Some u =>
            let w1 := served AuthMe (db w) w in
            if nextFault w1
            then (Ok tt, off,
                  emit errorToast (rejected (CartItemsList (User.id u) None) w1))
            else if lookupsServed u w
                 then (Ok tt,
                       CartPage.mkState (hydrated (db w) (User.id u)) false
                                        (CartPage.updating st),
                       afterLookups u w)
                 else (Ok tt, off, emit errorToast (afterLookups u w))
        end).
Proof.
  unfold CartPage.loadCartItems, bind at 1, CartPage.setLoading, setState, tryCatchFinally.
  unfold bind at 1, auth_me, await.
  destruct (nextFault w); [reflexivity |].
  destruct (session w) as [u |]; cbn [write]; [| reflexivity].
  unfold bind at 1, cartItems_list, await.
  destruct (nextFault (served AuthMe (db w) w)); [reflexivity |].
  cbn [write]. unfold bind at 1. rewrite promiseAll_hydrate.
  unfold lookupsServed, afterLookups, hydrated.
  cbn [db served session entropy draws].
  destruct (noFaults _ _); reflexivity.
Qed.

Lemma CheckoutPage_loadCartItems_run st w :
  CheckoutPage.loadCartItems st w =
  (let off := CheckoutPage.mkState (CheckoutPage.cartItems st) false
                                   (CheckoutPage.processing st)
                                   (CheckoutPage.shippingAddress st) in
   if nextFault w then (Ok tt, off, emit errorToast (rejected AuthMe w))
   else match session w with
        | None => (Ok tt, off, emit errorToast (rejected AuthMe w))
        | Some u =>
            let w1 := served AuthMe (db w) w in
            if nextFault w1
            then (Ok tt, off,
                  emit errorToast (rejected (CartItemsList (User.id u) None) w1))
            else if lookupsServed u w
                 then (Ok tt,
                       CheckoutPage.mkState (hydrated (db w) (User.id u)) false
                                            (CheckoutPage.processing st)
                                            (CheckoutPage.shippingAddress st),
                       match hydrated (db w) (User.id u) with
                       | [] => emit (Navigate cart)
                                    (emit (Toast "Cart is empty" true) (afterLookups u w))
                       | _ => afterLookups u w
                       end)
                 else (Ok tt, off, emit errorToast (afterLookups u w))
        end).
Proof.
  unfold CheckoutPage.loadCartItems, bind at 1, CheckoutPage.setLoading, setState,
    tryCatchFinally.
  unfold bind at 1, auth_me, await.
  destruct (nextFault w); [reflexivity |].
  destruct (session w) as [u |]; cbn [write]; [| reflexivity].
  unfold bind at 1, cartItems_list, await.
  destruct (nextFault (served AuthMe (db w) w)); [reflexivity |].
  cbn [write]. unfold bind at 1. rewrite promiseAll_hydrate.
  unfold lookupsServed, afterLookups, hydrated.
  cbn [db served session entropy draws].
  destruct (noFaults _ _); [| reflexivity].
  destruct (filter hasProduct _); reflexivity.
Qed.

Lemma afterLookups_log u w :
  log (afterLookups u w) =
  log w ++ Called AuthMe true :: Called (CartItemsList (User.id u) None) true
        :: lookupEvents (filter (whereCartItem (User.id u) None) (cartItems (db w)))
                        (tl (tl (faults w))).
Proof.
  unfold afterLookups, served. cbn [log faults]. rewrite <- !app_assoc. reflexivity.
Qed.

Lemma lookups_clean u w c :
  lookupsServed u w = true ->
  ~ In (Called c false)
       (Called AuthMe true :: Called (CartItemsList (User.id u) None) true
          :: lookupEvents (filter (whereCartItem (User.id u) None) (cartItems (db w)))
                          (tl (tl (faults w)))).
Proof.
  intros H [E | [E | E]]; try discriminate E.
  revert E. apply lookupEvents_served. exact H.
Qed.

Lemma lookups_dirty u w :
  lookupsServed u w = false ->
  exists c, In (Called c false)
               (lookupEvents (filter (whereCartItem (User.id u) None) (cartItems (db w)))
                             (tl (tl (faults w)))).
Proof.
  intro H. apply lookupEvents_rejected in H. destruct H as (item & _ & H). eauto.
Qed.

Lemma lookups_no_toast t d items fs : ~ In (Toast t d) (lookupEvents items fs).
Proof.
  intro H. apply lookupEvents_calls in H. destruct H as (c & b & E). discriminate E.
Qed.

Lemma CartPage_aggregated st w r st' w' :
  CartPage.loadCartItems st w = (r, st', w') ->
  exists evs, aggregated w w' (CartPage.cartItems st) (CartPage.cartItems st') evs.
Proof.
  rewrite CartPage_loadCartItems_run. cbv zeta.
  destruct (nextFault w).
  { intro H; inversion H; subst. exists [Called AuthMe false; errorToast].
    split; [reflexivity |]. split; [simpl; rewrite <- app_assoc; reflexivity |].
    left. split; [exists AuthMe; left; reflexivity |].
    split; [right; left; reflexivity | reflexivity]. }
  destruct (session w) as [u |] eqn:Hs.
  2:{ intro H; inversion H; subst. exists [Called AuthMe false; errorToast].
      split; [reflexivity |]. split; [simpl; rewrite <- app_assoc; reflexivity |].
      left. split; [exists AuthMe; left; reflexivity |].
    split; [right; left; reflexivity | reflexivity]. }
  destruct (nextFault (served AuthMe (db w) w)).
  { intro H; inversion H; subst.
    exists [Called AuthMe true; Called (CartItemsList (User.id u) None) false; errorToast].
    split; [reflexivity |]. split; [simpl; rewrite <- !app_assoc; reflexivity |].
    left. split; [eexists; right; left; reflexivity |].
    split; [right; right; left; reflexivity | reflexivity]. }
  destruct (lookupsServed u w) eqn:Hl; intro H; inversion H; subst.
  - eexists. split; [reflexivity |]. split; [apply afterLookups_log |].
    right. split; [intro c; apply lookups_clean, Hl |]. split.
    + intros [E | [E | E]]; try discriminate E. exact (lookups_no_toast _ _ _ _ E).
    + eauto.
  - eexists. split; [reflexivity |]. split.
    + cbn [log emit]. rewrite afterLookups_log, <- app_assoc. reflexivity.
    + left. destruct (lookups_dirty _ _ Hl) as (c & Hc). split; [| split].
      * exists c. simpl. right. right. apply in_or_app. auto.
      * simpl. right. right. apply in_or_app. right. left. reflexivity.
      * reflexivity.
Qed.

Lemma CheckoutPage_aggregated st w r st' w' :
  CheckoutPage.loadCartItems st w = (r, st', w') ->
  exists evs, aggregated w w' (CheckoutPage.cartItems st) (CheckoutPage.cartItems st') evs.
Proof.
  rewrite CheckoutPage_loadCartItems_run. cbv zeta.
  destruct (nextFault w).
  { intro H; inversion H; subst. exists [Called AuthMe false; errorToast].
    split; [reflexivity |]. split; [simpl; rewrite <- app_assoc; reflexivity |].
    left. split; [exists AuthMe; left; reflexivity |].
    split; [right; left; reflexivity | reflexivity]. }
  destruct (session w) as [u |] eqn:Hs.
  2:{ intro H; inversion H; subst. exists [Called AuthMe false; errorToast].
      split; [reflexivity |]. split; [simpl; rewrite <- app_assoc; reflexivity |].
      left. split; [exists AuthMe; left; reflexivity |].
    split; [right; left; reflexivity | reflexivity]. }
  destruct (nextFault (served AuthMe (db w) w)).
  { intro H; inversion H; subst.
    exists [Called AuthMe true; Called (CartItemsList (User.id u) None) false; errorToast].
    split; [reflexivity |]. split; [simpl; rewrite <- !app_assoc; reflexivity |].
    left. split; [eexists; right; left; reflexivity |].
    split; [right; right; left; reflexivity | reflexivity]. }
  destruct (lookupsServed u w) eqn:Hl; intro H; inversion H; subst.
  - destruct (hydrated (db w) (User.id u)) eqn:Hh.
    + eexists. split; [reflexivity |]. split.
      * cbn [log emit]. rewrite afterLookups_log, <- !app_assoc. reflexivity.
      * right. split; [| split].
        -- intros c Hc. simpl in Hc. destruct Hc as [E | [E | E]]; try discriminate E.
           apply in_app_or in E. destruct E as [E | [E | [E | []]]]; try discriminate E.
           revert E. apply lookupEvents_served. exact Hl.
        -- intro Hc. simpl in Hc. destruct Hc as [E | [E | E]]; try discriminate E.
           apply in_app_or in E. destruct E as [E | [E | [E | []]]]; try discriminate E.
           exact (lookups_no_toast _ _ _ _ E).
        -- exists u. rewrite Hh. auto.
    + eexists. split; [reflexivity |]. split; [apply afterLookups_log |].
      right. split; [intro c'; apply lookups_clean, Hl |]. split.
      * intros [E | [E | E]]; try discriminate E. exact (lookups_no_toast _ _ _ _ E).
      * exists u. rewrite Hh. auto.
  - eexists. split; [reflexivity |]. split.
    + cbn [log emit]. rewrite afterLookups_log, <- app_assoc. reflexivity.
    + left. destruct (lookups_dirty _ _ Hl) as (c & Hc). split; [| split].
      * exists c. simpl. right. right. apply in_or_app. auto.
      * simpl. right. right. apply in_or_app. right. left. reflexivity.
      * reflexivity.
Qed.

(* ================================================================= *)
(** ** The cart mutator *)

(** C9: [updateQuantity] with a quantity below 1 returns at once: no call
    is made, the store, the fault flags, the log and the page state are what
    they were.  Whatever the quantity, a line item that is in the store or
    on the page afterwards and was not there before has a quantity that is
    not below 1. *)
Theorem updateQuantity_below_one_is_noop itemId q st w r st' w' :
  CartPage.updateQuantity itemId q st w = (r, st', w') ->
  ((q <? 1)%float = true -> r = Ok tt /\ st' = st /\ w' = w) /\
  (forall ci, In ci (cartItems (db w')) ->
              In ci (cartItems (db w)) \/ (CartItem.quantity ci <? 1)%float = false) /\
  (forall item, In item (CartPage.cartItems st') ->
                In item (CartPage.cartItems st) \/
                (CartItem.quantity item <? 1)%float = false).
Proof.
  unfold CartPage.updateQuantity. intro Hrun.
  destruct (q <? 1)%float eqn:Hq.
  { inversion Hrun; subst. repeat split; auto. }
  split; [discriminate |].
  revert Hrun.
  unfold bind at 1, CartPage.setUpdating, setState, tryCatchFinally.
  unfold bind at 1, cartItems_update, await.
  destruct (nextFault w).
  { intro H; inversion H; subst. simpl. auto. }
  cbn [write].
  destruct (existsb (hasId itemId) (cartItems (db w))).
  2:{ intro H; inversion H; subst. simpl. auto. }
  intro H; inversion H; subst. simpl. split.
  - intros ci Hci. apply in_map_iff in Hci. destruct Hci as (x & <- & Hx).
    unfold setLineQuantity.
    destruct (hasId itemId x); [right; exact Hq | left; exact Hx].
  - intros item Hitem. apply in_map_iff in Hitem. destruct Hitem as (x & <- & Hx).
    destruct (CartItem.id x =? itemId)%string; [right; exact Hq | left; exact Hx].
Qed.

Lemma noFaults_served n c d w :
  noFaults (S n) w = true -> noFaults n (served c d w) = true.
Proof. apply noFaults_tail. reflexivity. Qed.

(** An add for a product with no line item of the user: one is created. *)
Lemma addToCart_creates st w p u :
  ProductDetailPage.product st = Some p ->
  session w = Some u ->
  noFaults 3 w = true ->
  filter (whereCartItem (User.id u) (Some (Product.id p))) (cartItems (db w)) = [] ->
  exists w',
    ProductDetailPage.addToCart st w =
      (Ok tt,
       ProductDetailPage.mkState (Some p) (ProductDetailPage.loading st) 1%float false,
       w') /\
    db w' = mkStore (products (db w))
                    (cartItems (db w) ++ [newLine w u p (ProductDetailPage.quantity st)])
                    (orders (db w)) (orderItems (db w)) /\
    session w' = session w /\
    faults w' = tl (tl (tl (faults w))) /\
    log w' = log w ++ [Called AuthMe true;
                       Called (CartItemsList (User.id u) (Some (Product.id p))) true;
                       Called (CartItemsCreate
                                 (newLine w u p (ProductDetailPage.quantity st))) true;
                       Toast "Added to cart" false; CartUpdate].
Proof.
  intros Hp Hs Hf Hnone.
  unfold ProductDetailPage.addToCart, bind at 1, getState. rewrite Hp.
  unfold bind at 1, ProductDetailPage.setAddingToCart, setState, tryCatchFinally.
  unfold bind at 1, auth_me, await.
  rewrite (noFaults_next _ _ Hf), Hs. cbn [write].
  apply noFaults_served with (c := AuthMe) (d := db w) in Hf.
  unfold bind at 1, cartItems_list, await.
  rewrite (noFaults_next _ _ Hf). cbn [write db served]. rewrite Hnone.
  apply noFaults_served
    with (c := CartItemsList (User.id u) (Some (Product.id p))) (d := db w) in Hf.
  unfold bind at 1. unfold bind at 1, freshSuffix, cartItems_create, await.
  assert (Hd : nextFault
                 (drawn (served (CartItemsList (User.id u) (Some (Product.id p))) (db w)
                                (served AuthMe (db w) w))) = false).
  { apply noFaults_next in Hf. exact Hf. }
  rewrite Hd. cbn [write].
  unfold bind, toast, onCartUpdate, effect, ProductDetailPage.setQuantity, setState.
  cbn [ProductDetailPage.product ProductDetailPage.loading ProductDetailPage.quantity
       ProductDetailPage.addingToCart].
  rewrite Hp. eexists. split; [reflexivity |].
  cbn. rewrite <- !app_assoc. repeat split; auto.
Qed.

(** An add for a product the user has a line item for: the first such
    line item gets the sum of its quantity and the requested one. *)
Lemma addToCart_updates st w p u existing others :
  ProductDetailPage.product st = Some p ->
  session w = Some u ->
  noFaults 3 w = true ->
  filter (whereCartItem (User.id u) (Some (Product.id p))) (cartItems (db w))
    = existing :: others ->
  exists w',
    ProductDetailPage.addToCart st w =
      (Ok tt,
       ProductDetailPage.mkState (Some p) (ProductDetailPage.loading st) 1%float false,
       w') /\
    db w' = mkStore (products (db w))
                    (map (setLineQuantity
                            (CartItem.id existing)
                            (CartItem.quantity existing + ProductDetailPage.quantity st)%float)
                         (cartItems (db w)))
                    (orders (db w)) (orderItems (db w)) /\
    log w' = log w ++ [Called AuthMe true;
                       Called (CartItemsList (User.id u) (Some (Product.id p))) true;
                       Called (CartItemsUpdate
                                 (CartItem.id existing)
                                 (CartItem.quantity existing
                                  + ProductDetailPage.quantity st)%float) true;
                       Toast "Added to cart" false; CartUpdate].
Proof.
  intros Hp Hs Hf Hsome.
  assert (Hex : existsb (hasId (CartItem.id existing)) (cartItems (db w)) = true).
  { apply existsb_exists. exists existing. split.
    - assert (Hin : In existing (existing :: others)) by (left; reflexivity).
      rewrite <- Hsome in Hin. apply filter_In in Hin. tauto.
    - unfold hasId. apply String.eqb_refl. }
  unfold ProductDetailPage.addToCart, bind at 1, getState. rewrite Hp.
  unfold bind at 1, ProductDetailPage.setAddingToCart, setState, tryCatchFinally.
  unfold bind at 1, auth_me, await.
  rewrite (noFaults_next _ _ Hf), Hs. cbn [write].
  apply noFaults_served with (c := AuthMe) (d := db w) in Hf.
  unfold bind at 1, cartItems_list, await.
  rewrite (noFaults_next _ _ Hf). cbn [write db served]. rewrite Hsome.
  apply noFaults_served
    with (c := CartItemsList (User.id u) (Some (Product.id p))) (d := db w) in Hf.
  unfold bind at 1, cartItems_update, await.
  rewrite (noFaults_next _ _ Hf). cbn [write db served]. rewrite Hex.
  unfold bind, toast, onCartUpdate, effect, ProductDetailPage.setQuantity, setState.
  cbn [ProductDetailPage.product ProductDetailPage.loading ProductDetailPage.quantity
       ProductDetailPage.addingToCart].
  rewrite Hp. eexists. split; [reflexivity |].
  cbn. rewrite <- !app_assoc. repeat split; auto.
Qed.

Lemma noFaults_weaken n w : noFaults (S n) w = true -> noFaults n w = true.
Proof.
  unfold noFaults. generalize (faults w). induction n as [| n IH]; intros fs H.
  - reflexivity.
  - destruct fs as [| b fs]; [reflexivity |].
    cbn [firstn forallb] in *. apply andb_prop in H. destruct H as [Hb H].
    rewrite Hb. cbn [andb]. apply IH. exact H.
Qed.

Lemma served_firstn_tl n fs :
  forallb negb (firstn (S n) fs) = true -> forallb negb (firstn n (tl fs)) = true.
Proof.
  destruct fs as [| b fs]; simpl.
  - intros _. destruct n; reflexivity.
  - intro H. apply andb_prop in H. tauto.
Qed.

Lemma noFaults_after_three n w w1 :
  faults w1 = tl (tl (tl (faults w))) ->
  noFaults (3 + n) w = true -> noFaults n w1 = true.
Proof.
  unfold noFaults. intros -> H.
  do 3 apply served_firstn_tl. exact H.
Qed.

Lemma filter_map_same {A} (P : A -> bool) (f : A -> A) l :
  (forall x, P (f x) = P x) -> filter P (map f l) = map f (filter P l).
Proof.
  intro H. induction l as [| a l IH]; simpl; [reflexivity |].
  rewrite H. destruct (P a); simpl; rewrite IH; reflexivity.
Qed.

Lemma where_setLineQuantity u p i q ci :
  whereCartItem u p (setLineQuantity i q ci) = whereCartItem u p ci.
Proof. unfold setLineQuantity. destruct (hasId i ci); reflexivity. Qed.

Lemma setLineQuantity_unused i q l :
  ~ In i (map CartItem.id l) -> map (setLineQuantity i q) l = l.
Proof.
  induction l as [| ci l IH]; intro H; [reflexivity |].
  simpl. rewrite IH by (intro Hin; apply H; right; exact Hin).
  unfold setLineQuantity, hasId.
  destruct (String.eqb_spec (CartItem.id ci) i) as [E | _]; [| reflexivity].
  exfalso. apply H. left. exact E.
Qed.

Lemma hasId_unused i l :
  ~ In i (map CartItem.id l) -> filter (hasId i) l = [].
Proof.
  induction l as [| ci l IH]; intro H; [reflexivity |].
  simpl. unfold hasId at 1.
  destruct (String.eqb_spec (CartItem.id ci) i) as [E | _].
  - exfalso. apply H. left. exact E.
  - apply IH. intro Hin. apply H. right. exact Hin.
Qed.

(** C2, amended: for a user with no line item for a product, adding
    quantity [a] and then quantity [b] of it, every call being served,
    creates one line item with a generated id at the first add and changes
    its quantity in place at the second (no record is added): the store
    then holds exactly one line item for the pair, with quantity [a + b].
    The generated id is not checked against the store: when no stored line
    item has it, the two adds leave every other line item as it was and the
    new line item is the only one with its id. *)
Theorem addToCart_twice_merges st w p u a b r1 st1 w1 r2 st2 w2 :
  ProductDetailPage.product st = Some p ->
  session w = Some u ->
  noFaults 6 w = true ->
  filter (whereCartItem (User.id u) (Some (Product.id p))) (cartItems (db w)) = [] ->
  ProductDetailPage.addToCart (chooseQuantity a st) w = (r1, st1, w1) ->
  ProductDetailPage.addToCart (chooseQuantity b st1) w1 = (r2, st2, w2) ->
  cartItems (db w1) = cartItems (db w) ++ [newLine w u p a] /\
  cartItems (db w2)
    = map (setLineQuantity (CartItem.id (newLine w u p a)) (a + b)%float)
          (cartItems (db w1)) /\
  length (cartItems (db w2)) = length (cartItems (db w1)) /\
  filter (whereCartItem (User.id u) (Some (Product.id p))) (cartItems (db w2))
    = [newLine w u p (a + b)%float] /\
  (~ In (CartItem.id (newLine w u p a)) (map CartItem.id (cartItems (db w))) ->
   cartItems (db w2) = cartItems (db w) ++ [newLine w u p (a + b)%float] /\
   filter (hasId (CartItem.id (newLine w u p a))) (cartItems (db w2))
     = [newLine w u p (a + b)%float]).
Proof.
  intros Hp Hs Hf Hnone Hrun1 Hrun2.
  assert (Hf3 : noFaults 3 w = true) by (do 3 apply noFaults_weaken; exact Hf).
  destruct (addToCart_creates (chooseQuantity a st) w p u Hp Hs Hf3 Hnone)
    as (w1' & Hrun1' & Hdb1 & Hs1 & Hfs1 & _).
  rewrite Hrun1 in Hrun1'. injection Hrun1' as _ Hst1 Hw1. subst w1' st1.
  assert (Hf1 : noFaults 3 w1 = true).
  { apply (noFaults_after_three 3 w w1 Hfs1). exact Hf. }
  assert (Hcart1 : cartItems (db w1) = cartItems (db w) ++ [newLine w u p a])
    by (rewrite Hdb1; reflexivity).
  assert (Hsome : filter (whereCartItem (User.id u) (Some (Product.id p)))
                         (cartItems (db w1)) = [newLine w u p a]).
  { rewrite Hcart1, filter_app, Hnone. simpl.
    unfold whereCartItem. simpl. rewrite !String.eqb_refl. reflexivity. }
  destruct (addToCart_updates
              (chooseQuantity b
                 (ProductDetailPage.mkState (Some p)
                    (ProductDetailPage.loading (chooseQuantity a st)) 1%float false))
              w1 p u (newLine w u p a) [] eq_refl (eq_trans Hs1 Hs) Hf1 Hsome)
    as (w2' & Hrun2' & Hdb2 & _).
  pose proof (eq_trans (eq_sym Hrun2) Hrun2') as E.
  injection E as _ _ Hw2. subst w2'.
  assert (Hcart2 : cartItems (db w2)
                   = map (setLineQuantity (CartItem.id (newLine w u p a)) (a + b)%float)
                         (cartItems (db w1)))
    by (rewrite Hdb2; reflexivity).
  assert (Hnew : setLineQuantity (CartItem.id (newLine w u p a)) (a + b)%float
                                 (newLine w u p a)
                 = newLine w u p (a + b)%float).
  { unfold setLineQuantity, hasId. simpl. rewrite String.eqb_refl. reflexivity. }
  split; [exact Hcart1 |]. split; [exact Hcart2 |].
  split; [rewrite Hcart2; apply length_map |].
  split.
  - rewrite Hcart2, filter_map_same by (intro; apply where_setLineQuantity).
    rewrite Hsome. cbn [map]. rewrite Hnew. reflexivity.
  - intro Hfresh.
    assert (Hall : cartItems (db w2) = cartItems (db w) ++ [newLine w u p (a + b)%float]).
    { rewrite Hcart2, Hcart1, map_app, (setLineQuantity_unused _ _ _ Hfresh).
      cbn [map]. rewrite Hnew. reflexivity. }
    split; [exact Hall |].
    rewrite Hall, filter_app, (hasId_unused _ _ Hfresh). simpl.
    unfold hasId. simpl. rewrite String.eqb_refl. reflexivity.
Qed.

(* ================================================================= *)
(** ** Checkout of an empty cart *)

(** C10, amended: [handleCheckout] does not look at the number of cart
    entries.  With none, an address that is not empty once trimmed and its
    two calls served, it creates an order with total amount 0 and status
    pending, creates no order item, and reports success.  An empty cart is
    turned away when the checkout page loads: a load that is served and
    yields no entry shows the toast "Cart is empty" and navigates to the
    cart page.  An address that is empty once trimmed, so also one of white
    space only, places no order: the handler shows "Missing information"
    and makes no call. *)
Theorem empty_cart_checkout_places_order :
  (forall st w u r st' w',
      CheckoutPage.cartItems st = [] ->
      truthy (trim (CheckoutPage.shippingAddress st)) = true ->
      session w = Some u ->
      noFaults 2 w = true ->
      CheckoutPage.handleCheckout st w = (r, st', w') ->
      exists o,
        Order.totalAmount o = zero /\
        Order.status o = "pending" /\
        Order.userId o = User.id u /\
        Order.shippingAddress o = trim (CheckoutPage.shippingAddress st) /\
        db w' = mkStore (products (db w)) (cartItems (db w))
                        (orders (db w) ++ [o]) (orderItems (db w)) /\
        log w' = log w ++ [Called AuthMe true; Called (OrdersCreate o) true;
                           successToast; Navigate home]) /\
  (forall st w r st' w' evs,
      CheckoutPage.loadCartItems st w = (r, st', w') ->
      log w' = log w ++ evs ->
      ~ In errorToast evs ->
      CheckoutPage.cartItems st' = [] ->
      exists calls, evs = calls ++ [Toast "Cart is empty" true; Navigate cart]) /\
  (forall st w,
      truthy (trim (CheckoutPage.shippingAddress st)) = false ->
      CheckoutPage.handleCheckout st w
      = (Ok tt, st, emit (Toast "Missing information" true) w)).
Proof.
  split; [| split].
  3:{ intros st w Haddr.
      unfold CheckoutPage.handleCheckout, bind at 1, getState.
      rewrite Haddr. reflexivity. }
  - intros st w u r st' w' Hcart Haddr Hs Hf Hrun.
    rewrite (handleCheckout_run _ _ Haddr) in Hrun. cbv zeta in Hrun.
    rewrite (noFaults_next _ _ Hf), Hs in Hrun.
    unfold checkoutItems, checkoutScript in Hrun. rewrite Hcart in Hrun.
    cbn [orderItemsFrom map app runScript] in Hrun.
    apply noFaults_served with (c := AuthMe) (d := db w) in Hf.
    assert (Hd : nextFault (drawn (served AuthMe (db w) w)) = false)
      by (apply noFaults_next in Hf; exact Hf).
    rewrite Hd in Hrun. cbn [write] in Hrun.
    inversion Hrun; subst. exists (checkoutOrder u st w).
    unfold checkoutOrder. rewrite Hcart. cbn.
    rewrite <- !app_assoc. repeat split; try reflexivity.
  - intros st w r st' w' evs Hrun Hlog Herr Hempty.
    rewrite CheckoutPage_loadCartItems_run in Hrun. cbv zeta in Hrun.
    destruct (nextFault w).
    { exfalso. inversion Hrun; subst. cbn [log emit rejected] in Hlog.
      rewrite <- app_assoc in Hlog. apply app_inv_head in Hlog. subst evs.
      apply Herr. simpl. auto. }
    destruct (session w) as [u |].
    2:{ exfalso. inversion Hrun; subst. cbn [log emit rejected] in Hlog.
        rewrite <- app_assoc in Hlog. apply app_inv_head in Hlog. subst evs.
        apply Herr. simpl. auto. }
    destruct (nextFault (served AuthMe (db w) w)).
    { exfalso. inversion Hrun; subst. cbn [log emit rejected served] in Hlog.
      rewrite <- !app_assoc in Hlog. apply app_inv_head in Hlog. subst evs.
      apply Herr. simpl. auto. }
    destruct (lookupsServed u w).
    + inversion Hrun; subst. cbn [CheckoutPage.cartItems] in Hempty.
      rewrite Hempty in Hlog. cbn [log emit] in Hlog.
      rewrite afterLookups_log, <- !app_assoc in Hlog.
      apply app_inv_head in Hlog. subst evs.
      eexists. cbn [app]. rewrite !app_comm_cons. reflexivity.
    + exfalso. inversion Hrun; subst. cbn [log emit] in Hlog.
      rewrite afterLookups_log, <- !app_assoc in Hlog.
      apply app_inv_head in Hlog. subst evs.
      apply Herr. cbn [app]. right. right. apply in_or_app. right. left. reflexivity.
Qed.

(* ================================================================= *)
(** ** The aggregator and its failures *)

(** The entries produced are the user's stored line items whose lookup
    finds a product, each with the first product found. *)
Lemma hydrated_iff s u item :
  In item (hydrated s u) <->
  exists row p,
    In row (cartItems s) /\ CartItem.userId row = u /\
    lookup s row = Some p /\ item = CartItem.withProduct row (Some p).
Proof.
  split.
  - unfold hydrated. intro H. apply filter_In in H. destruct H as [H Hp].
    apply in_map_iff in H. destruct H as (row & <- & Hrow).
    apply filter_In in Hrow. destruct Hrow as [Hrow Hu].
    unfold whereCartItem in Hu. rewrite andb_true_r in Hu. apply String.eqb_eq in Hu.
    unfold hasProduct in Hp. simpl in Hp.
    destruct (lookup s row) as [p |] eqn:Hl; [| discriminate Hp].
    exists row, p. auto.
  - intros (row & p & Hrow & Hu & Hl & ->). apply hydrated_complete; assumption.
Qed.

(** The aggregator of either page: whenever one of the two pages loads
    its cart, the store is left as it was, so a line item whose product is
    gone stays in it; a load that reports an error keeps the entries the
    page had, and a load that does not gives the page only entries made of
    a stored line item and a product of the store whose id is the line
    item's product id. *)
Theorem aggregator_drops_dangling_items :
  (forall st w r st' w' evs,
      CartPage.loadCartItems st w = (r, st', w') ->
      log w' = log w ++ evs ->
      db w' = db w /\
      (In errorToast evs -> CartPage.cartItems st' = CartPage.cartItems st) /\
      (~ In errorToast evs ->
       forall item, In item (CartPage.cartItems st') ->
         exists row p,
           In row (cartItems (db w')) /\ item = CartItem.withProduct row (Some p) /\
           In p (products (db w')) /\ Product.id p = CartItem.productId item)) /\
  (forall st w r st' w' evs,
      CheckoutPage.loadCartItems st w = (r, st', w') ->
      log w' = log w ++ evs ->
      db w' = db w /\
      (In errorToast evs -> CheckoutPage.cartItems st' = CheckoutPage.cartItems st) /\
      (~ In errorToast evs ->
       forall item, In item (CheckoutPage.cartItems st') ->
         exists row p,
           In row (cartItems (db w')) /\ item = CartItem.withProduct row (Some p) /\
           In p (products (db w')) /\ Product.id p = CartItem.productId item)).
Proof.
  assert (Hall : forall w w' old new evs evs',
             aggregated w w' old new evs' -> log w' = log w ++ evs ->
             db w' = db w /\
             (In errorToast evs -> new = old) /\
             (~ In errorToast evs ->
              forall item, In item new ->
                exists row p,
                  In row (cartItems (db w')) /\ item = CartItem.withProduct row (Some p) /\
                  In p (products (db w')) /\ Product.id p = CartItem.productId item)).
  { intros w w' old new evs evs' (Hdb & Hlog' & Hcases) Hlog.
    rewrite Hlog' in Hlog. apply app_inv_head in Hlog. subst evs'.
    split; [exact Hdb |]. rewrite Hdb.
    destruct Hcases as [(_ & Herr & Hsame) | (_ & Hclean & u & _ & Hnew)].
    - split; [auto |]. intro H; contradiction.
    - split; [intro H; contradiction |]. intros _ item Hitem. subst new.
      apply hydrated_sound in Hitem.
      destruct Hitem as (row & p & Hrow & _ & Hitem & Hp & Hid). eauto 6. }
  split; intros st w r st' w' evs Hrun Hlog.
  - destruct (CartPage_aggregated _ _ _ _ _ Hrun) as (evs' & Hagg). eauto.
  - destruct (CheckoutPage_aggregated _ _ _ _ _ Hrun) as (evs' & Hagg). eauto.
Qed.

(** When the load returns the page is no longer loading. *)
Lemma CartPage_loaded st w r st' w' :
  CartPage.loadCartItems st w = (r, st', w') -> CartPage.loading st' = false.
Proof.
  rewrite CartPage_loadCartItems_run. cbv zeta.
  destruct (nextFault w); [intro H; inversion H; reflexivity |].
  destruct (session w); [| intro H; inversion H; reflexivity].
  destruct (nextFault _); [intro H; inversion H; reflexivity |].
  destruct (lookupsServed _ _); intro H; inversion H; reflexivity.
Qed.

(** C4, amended: an aggregation fails as a whole.  If any of its calls
    is rejected, the authentication, the listing of the line items or a
    single product lookup, the page reports an error and keeps the entries
    it had (with none, the cart page then shows the empty cart); if none
    is, no error is reported and the page gets the stored
    line items of the user whose lookup found a product, a line item whose
    lookup found none being the only ones left out. *)
Theorem aggregation_fails_as_a_whole :
  (forall st w r st' w' evs,
      CartPage.loadCartItems st w = (r, st', w') ->
      log w' = log w ++ evs ->
      ((exists c, In (Called c false) evs) ->
       In errorToast evs /\ CartPage.cartItems st' = CartPage.cartItems st /\
       (CartPage.cartItems st = [] -> CartPage.render st' = CartPage.EmptyCart)) /\
      ((forall c, ~ In (Called c false) evs) ->
       ~ In errorToast evs /\
       exists u, session w = Some u /\
                 CartPage.cartItems st' = hydrated (db w) (User.id u))) /\
  (forall st w r st' w' evs,
      CheckoutPage.loadCartItems st w = (r, st', w') ->
      log w' = log w ++ evs ->
      ((exists c, In (Called c false) evs) ->
       In errorToast evs /\ CheckoutPage.cartItems st' = CheckoutPage.cartItems st) /\
      ((forall c, ~ In (Called c false) evs) ->
       ~ In errorToast evs /\
       exists u, session w = Some u /\
                 CheckoutPage.cartItems st' = hydrated (db w) (User.id u))) /\
  (forall s u item,
      In item (hydrated s u) <->
      exists row p,
        In row (cartItems s) /\ CartItem.userId row = u /\
        lookup s row = Some p /\ item = CartItem.withProduct row (Some p)).
Proof.
  assert (Hall : forall w w' old new evs evs',
             aggregated w w' old new evs' -> log w' = log w ++ evs ->
             ((exists c, In (Called c false) evs) -> In errorToast evs /\ new = old) /\
             ((forall c, ~ In (Called c false) evs) ->
              ~ In errorToast evs /\
              exists u, session w = Some u /\ new = hydrated (db w) (User.id u))).
  { intros w w' old new evs evs' (Hdb & Hlog' & Hcases) Hlog.
    rewrite Hlog' in Hlog. apply app_inv_head in Hlog. subst evs'.
    destruct Hcases as [((c & Hc) & Herr & Hsame) | (Hnone & Hclean & Hnew)].
    - split; [auto |]. intro H. exfalso. exact (H c Hc).
    - split; [| auto]. intros (c & Hc). exfalso. exact (Hnone c Hc). }
  split; [| split].
  - intros st w r st' w' evs Hrun Hlog.
    destruct (CartPage_aggregated _ _ _ _ _ Hrun) as (evs' & Hagg).
    destruct (Hall _ _ _ _ _ _ Hagg Hlog) as [Hfail Hok].
    split; [| exact Hok]. intro Hc. destruct (Hfail Hc) as [Herr Hsame].
    split; [exact Herr |]. split; [exact Hsame |].
    intro Hnil. unfold CartPage.render.
    rewrite (CartPage_loaded _ _ _ _ _ Hrun), Hsame, Hnil. reflexivity.
  - intros st w r st' w' evs Hrun Hlog.
    destruct (CheckoutPage_aggregated _ _ _ _ _ Hrun) as (evs' & Hagg). eauto.
  - apply hydrated_iff.
Qed.

(* ================================================================= *)
(** ** Concrete runs *)

Lemma aggregator_drops_dangling_items_witness :
  db (snd Demo.loaded) = db (Demo.world Demo.shop []) /\
  (In errorToast (log (snd Demo.loaded)) ->
   CartPage.cartItems (fst Demo.loaded) = CartPage.cartItems CartPage.initial) /\
  (~ In errorToast (log (snd Demo.loaded)) ->
   forall item, In item (CartPage.cartItems (fst Demo.loaded)) ->
     exists row p,
       In row (cartItems (db (snd Demo.loaded))) /\
       item = CartItem.withProduct row (Some p) /\
       In p (products (db (snd Demo.loaded))) /\
       Product.id p = CartItem.productId item).
Proof.
  apply (proj1 aggregator_drops_dangling_items
               CartPage.initial (Demo.world Demo.shop []) (Ok tt)
               (fst Demo.loaded) (snd Demo.loaded) (log (snd Demo.loaded))).
  - vm_compute; reflexivity.
  - vm_compute; reflexivity.
Defined.

(** C4 fails as stated: the lookup of the ball is rejected, the two other
    lookups are served and the lamp is found, yet the page gets no entry at
    all, reports an error and shows the empty cart. *)
Lemma rejected_lookup_counterexample :
  log (snd Demo.lookupRejected)
    = [Called AuthMe true; Called (CartItemsList "u-ann" None) true;
       Called (ProductsList "p-ball") false; Called (ProductsList "p-gone") true;
       Called (ProductsList "p-lamp") true; errorToast] /\
  lookup Demo.shop (Demo.line "c2" "p-lamp" 1%float) = Some Demo.lamp /\
  CartPage.cartItems (fst Demo.lookupRejected) = [] /\
  CartPage.render (fst Demo.lookupRejected) = CartPage.EmptyCart.
Proof. repeat split; vm_compute; reflexivity. Qed.

Lemma aggregation_fails_as_a_whole_witness :
  ((exists c, In (Called c false) (log (snd Demo.lookupRejected))) ->
   In errorToast (log (snd Demo.lookupRejected)) /\
   CartPage.cartItems (fst Demo.lookupRejected) = CartPage.cartItems CartPage.initial /\
   (CartPage.cartItems CartPage.initial = [] ->
    CartPage.render (fst Demo.lookupRejected) = CartPage.EmptyCart)) /\
  ((forall c, ~ In (Called c false) (log (snd Demo.lookupRejected))) ->
   ~ In errorToast (log (snd Demo.lookupRejected)) /\
   exists u, session (Demo.world Demo.shop [false; false; true]) = Some u /\
             CartPage.cartItems (fst Demo.lookupRejected)
             = hydrated (db (Demo.world Demo.shop [false; false; true])) (User.id u)).
Proof.
  apply (proj1 aggregation_fails_as_a_whole
               CartPage.initial (Demo.world Demo.shop [false; false; true]) (Ok tt)
               (fst Demo.lookupRejected) (snd Demo.lookupRejected)
               (log (snd Demo.lookupRejected))).
  - vm_compute; reflexivity.
  - vm_compute; reflexivity.
Defined.

(** C8, at a cart with a line item of quantity 4 whose product is gone:
    the cart page counts 3 items for 25.5, the header counts 7. *)
Lemma header_count_includes_dangling_item :
  In (Demo.line "c3" "p-gone" 4%float) (cartItems Demo.shop) /\
  lookup Demo.shop (Demo.line "c3" "p-gone" 4%float) = None /\
  CartPage.render (fst Demo.loaded)
    = CartPage.CartList Demo.hydratedCart 3%float 25.5%float /\
  App.cartItemCount (fst Demo.counted) = 7%float.
Proof.
  split; [simpl; auto |]. repeat split; vm_compute; reflexivity.
Qed.

Lemma addToCart_twice_merges_witness :
  cartItems (db (snd (Demo.addedOnce Demo.bobShop)))
    = cartItems Demo.bobShop
        ++ [CartItem.mk "cart_1700000000000_a" "u-ann" "p-ball" 3%float None] /\
  filter (whereCartItem "u-ann" (Some "p-ball"))
         (cartItems (db (snd (Demo.addedTwice Demo.bobShop))))
    = [CartItem.mk "cart_1700000000000_a" "u-ann" "p-ball" 5%float None] /\
  cartItems (db (snd (Demo.addedTwice Demo.bobShop)))
    = cartItems Demo.bobShop
        ++ [CartItem.mk "cart_1700000000000_a" "u-ann" "p-ball" 5%float None] /\
  filter (hasId "cart_1700000000000_a")
         (cartItems (db (snd (Demo.addedTwice Demo.bobShop))))
    = [CartItem.mk "cart_1700000000000_a" "u-ann" "p-ball" 5%float None].
Proof.
  destruct (addToCart_twice_merges
              Demo.ballPage (Demo.world Demo.bobShop []) Demo.ball Demo.ann
              3%float 2%float
              (Ok tt) (fst (Demo.addedOnce Demo.bobShop)) (snd (Demo.addedOnce Demo.bobShop))
              (Ok tt) (fst (Demo.addedTwice Demo.bobShop))
              (snd (Demo.addedTwice Demo.bobShop)))
    as (H1 & _ & _ & H4 & H5).
  - reflexivity.
  - reflexivity.
  - reflexivity.
  - reflexivity.
  - vm_compute; reflexivity.
  - vm_compute; reflexivity.
  - destruct H5 as [H5 H6].
    + simpl. intros [H | []]. discriminate H.
    + split; [exact H1 |]. split; [exact H4 |]. split; [exact H5 | exact H6].
Defined.

(** C2 fails as stated: the id of the new line item is generated, not
    checked.  Another user's line item has the id the add generates: the
    store then holds two line items with that id, and the second add, the
    update by id, rewrites the quantity of the other user's lamp from 1
    to 5. *)
Lemma addToCart_id_collision_counterexample :
  filter (whereCartItem "u-ann" (Some "p-ball")) (cartItems Demo.collisionShop) = [] /\
  noFaults 6 (Demo.world Demo.collisionShop []) = true /\
  cartItems (db (snd (Demo.addedOnce Demo.collisionShop)))
    = [CartItem.mk "cart_1700000000000_a" "u-bob" "p-lamp" 1%float None;
       CartItem.mk "cart_1700000000000_a" "u-ann" "p-ball" 3%float None] /\
  cartItems (db (snd (Demo.addedTwice Demo.collisionShop)))
    = [CartItem.mk "cart_1700000000000_a" "u-bob" "p-lamp" 5%float None;
       CartItem.mk "cart_1700000000000_a" "u-ann" "p-ball" 5%float None].
Proof. repeat split; vm_compute; reflexivity. Qed.

Lemma updateQuantity_below_one_witness :
  ((0 <? 1)%float = true ->
   Ok tt = Ok tt /\ fst Demo.loaded = fst Demo.loaded /\ snd Demo.loaded = snd Demo.loaded) /\
  (forall ci, In ci (cartItems (db (snd Demo.loaded))) ->
              In ci (cartItems (db (snd Demo.loaded))) \/
              (CartItem.quantity ci <? 1)%float = false) /\
  (forall item, In item (CartPage.cartItems (fst Demo.loaded)) ->
                In item (CartPage.cartItems (fst Demo.loaded)) \/
                (CartItem.quantity item <? 1)%float = false).
Proof.
  apply (updateQuantity_below_one_is_noop
           "c1" 0%float (fst Demo.loaded) (snd Demo.loaded)
           (Ok tt) (fst Demo.loaded) (snd Demo.loaded)).
  vm_compute; reflexivity.
Defined.

Lemma empty_cart_checkout_witness :
  (exists o,
      Order.totalAmount o = zero /\
      Order.status o = "pending" /\
      Order.userId o = User.id Demo.ann /\
      Order.shippingAddress o = trim (CheckoutPage.shippingAddress Demo.emptyCheckout) /\
      db (snd (Demo.after CheckoutPage.handleCheckout Demo.emptyCheckout
                          (Demo.world Demo.goneShop [])))
        = mkStore (products Demo.goneShop) (cartItems Demo.goneShop)
                  (orders Demo.goneShop ++ [o]) (orderItems Demo.goneShop) /\
      log (snd (Demo.after CheckoutPage.handleCheckout Demo.emptyCheckout
                           (Demo.world Demo.goneShop [])))
        = log (Demo.world Demo.goneShop [])
            ++ [Called AuthMe true; Called (OrdersCreate o) true;
                successToast; Navigate home]) /\
  (exists calls,
      log (snd (Demo.after CheckoutPage.loadCartItems CheckoutPage.initial
                           (Demo.world Demo.goneShop [])))
      = calls ++ [Toast "Cart is empty" true; Navigate cart]).
Proof.
  destruct empty_cart_checkout_places_order as [Hplace [Hload _]]. split.
  - apply (Hplace Demo.emptyCheckout (Demo.world Demo.goneShop []) Demo.ann (Ok tt)
                  (fst (Demo.after CheckoutPage.handleCheckout Demo.emptyCheckout
                                   (Demo.world Demo.goneShop [])))).
    + reflexivity.
    + vm_compute; reflexivity.
    + reflexivity.
    + reflexivity.
    + vm_compute; reflexivity.
  - apply (Hload CheckoutPage.initial (Demo.world Demo.goneShop []) (Ok tt)
                 (fst (Demo.after CheckoutPage.loadCartItems CheckoutPage.initial
                                  (Demo.world Demo.goneShop [])))
                 (snd (Demo.after CheckoutPage.loadCartItems CheckoutPage.initial
                                  (Demo.world Demo.goneShop [])))).
    + vm_compute; reflexivity.
    + vm_compute; reflexivity.
    + vm_compute. intros [H | [H | [H | [H | [H | []]]]]]; discriminate H.
    + vm_compute; reflexivity.
Defined.

(** C10 fails as stated: an address of two spaces is not empty, yet with
    an empty cart, a user and every call served the checkout places no
    order; it makes no call and only shows "Missing information". *)
Lemma blank_address_counterexample :
  CheckoutPage.shippingAddress Demo.spacesCheckout <> EmptyString /\
  CheckoutPage.cartItems Demo.spacesCheckout = [] /\
  session (Demo.world Demo.goneShop []) = Some Demo.ann /\
  noFaults 2 (Demo.world Demo.goneShop []) = true /\
  orders (db (snd Demo.spacesRefused)) = [] /\
  log (snd Demo.spacesRefused) = [Toast "Missing information" true].
Proof.
  split; [discriminate |]. repeat split; vm_compute; reflexivity.
Qed.

(* ================================================================= *)
(** ** The header counter *)

(** [loadCartItemCount] adds up the quantities of all the stored line
    items of the user; no product is looked up. *)
Lemma loadCartItemCount_counts_every_line st w u :
  App.user st = Some u ->
  nextFault w = false ->
  App.loadCartItemCount st w =
  (Ok tt,
   App.mkState
     (Some u)
     (fold_left (fun sum item => (sum + CartItem.quantity item)%float)
                (filter (whereCartItem (User.id u) None) (cartItems (db w))) zero),
   served (CartItemsList (User.id u) None) (db w) w).
Proof.
  intros Hu Hf. unfold App.loadCartItemCount, bind at 1, getState. rewrite Hu.
  unfold tryCatchFinally, bind, cartItems_list, await. rewrite Hf. cbn [write].
  unfold App.setCartItemCount, setState, ret. cbn [App.user]. rewrite Hu. reflexivity.
Qed.

(** C3, at a cart with a line item whose product is gone: neither page
    gets an entry for it and it stays in the store, but the header count
    reads it: 7 with it, 3 in the same shop without it. *)
Lemma dangling_item_reaches_header_count :
  lookup Demo.shop (Demo.line "c3" "p-gone" 4%float) = None /\
  CartPage.cartItems (fst Demo.loaded) = Demo.hydratedCart /\
  CheckoutPage.cartItems (fst Demo.checkoutLoaded) = Demo.hydratedCart /\
  map CartItem.id Demo.hydratedCart = ["c1"; "c2"] /\
  In (Demo.line "c3" "p-gone" 4%float) (cartItems (db (snd Demo.loaded))) /\
  App.cartItemCount (fst Demo.counted) = 7%float /\
  App.cartItemCount (fst Demo.countedTidy) = 3%float.
Proof.
  split; [reflexivity |]. split; [vm_compute; reflexivity |].
  split; [vm_compute; reflexivity |]. split; [reflexivity |].
  split; [vm_compute; auto |]. split; vm_compute; reflexivity.
Qed.

(** With prices of two decimals the sum over the order items need not be
    the order's total amount before it is rounded: three pins at 0.1. *)
Lemma checkout_total_binary_example :
  toFixed2 (Product.price Demo.pin) = Product.price Demo.pin /\
  map Order.totalAmount (orders (db (snd Demo.pinsPlaced))) = [0.3%float] /\
  orderItemsTotal (orderItems (db (snd Demo.pinsPlaced))) = 0.30000000000000004%float /\
  toFixed2 (orderItemsTotal (orderItems (db (snd Demo.pinsPlaced)))) = 0.3%float.
Proof. repeat split; vm_compute; reflexivity. Qed.

(* ================================================================= *)
(** ** Removing a line item and changing its quantity *)

Lemma removeItem_run itemId st w :
  CartPage.removeItem itemId st w =
  (if nextFault w
   then (Ok tt,
         CartPage.mkState (CartPage.cartItems st) (CartPage.loading st) None,
         emit errorToast (rejected (CartItemsDelete itemId) w))
   else (Ok tt,
         CartPage.mkState (withoutLine itemId (CartPage.cartItems st))
                          (CartPage.loading st) None,
         emit (Toast "Item removed" false)
              (emit CartUpdate
                    (served (CartItemsDelete itemId)
                            (mkStore (products (db w))
                                     (withoutLine itemId (cartItems (db w)))
                                     (orders (db w)) (orderItems (db w)))
                            w)))).
Proof.
  unfold CartPage.removeItem, bind at 1, CartPage.setUpdating, setState, tryCatchFinally.
  unfold bind at 1, cartItems_delete, await.
  destruct (nextFault w); reflexivity.
Qed.

Lemma withoutLine_In i l ci :
  In ci (withoutLine i l) <-> In ci l /\ CartItem.id ci <> i.
Proof.
  unfold withoutLine. rewrite filter_In. unfold hasId.
  rewrite negb_true_iff. split; intros [H1 H2]; split; auto.
  - intro E. apply String.eqb_eq in E. congruence.
  - apply String.eqb_neq. exact H2.
Qed.

(** A served removal deletes from the store and from the page exactly
    the line items with that id, whether there is one or not, then notifies
    the counter and shows "Item removed". *)
Theorem removeItem_served itemId st w r st' w' :
  nextFault w = false ->
  CartPage.removeItem itemId st w = (r, st', w') ->
  (forall ci, In ci (cartItems (db w')) <->
              In ci (cartItems (db w)) /\ CartItem.id ci <> itemId) /\
  (forall item, In item (CartPage.cartItems st') <->
                In item (CartPage.cartItems st) /\ CartItem.id item <> itemId) /\
  products (db w') = products (db w) /\
  orders (db w') = orders (db w) /\
  orderItems (db w') = orderItems (db w) /\
  log w' = log w ++ [Called (CartItemsDelete itemId) true; CartUpdate;
                     Toast "Item removed" false].
Proof.
  intros Hf Hrun. rewrite removeItem_run, Hf in Hrun. inversion Hrun; subst. clear Hrun.
  cbn [db log emit served cartItems products orders orderItems CartPage.cartItems].
  rewrite <- !app_assoc.
  split; [intro; apply withoutLine_In |]. split; [intro; apply withoutLine_In |].
  repeat split; reflexivity.
Qed.

(** A rejected removal changes neither the store nor the entries of the
    page: it shows the error and does not notify the counter. *)
Theorem removeItem_rejected itemId st w r st' w' :
  nextFault w = true ->
  CartPage.removeItem itemId st w = (r, st', w') ->
  db w' = db w /\
  CartPage.cartItems st' = CartPage.cartItems st /\
  log w' = log w ++ [Called (CartItemsDelete itemId) false; errorToast].
Proof.
  intros Hf Hrun. rewrite removeItem_run, Hf in Hrun. inversion Hrun; subst.
  cbn. rewrite <- app_assoc. auto.
Qed.

Lemma withoutLine_twice i l : withoutLine i (withoutLine i l) = withoutLine i l.
Proof.
  unfold withoutLine. rewrite filter_twice. apply filter_ext.
  intro ci. apply andb_diag.
Qed.

(** Removing the same id a second time succeeds like the first and
    leaves the store and the page as the first removal left them. *)
Theorem removeItem_twice itemId st w r1 st1 w1 r2 st2 w2 :
  noFaults 2 w = true ->
  CartPage.removeItem itemId st w = (r1, st1, w1) ->
  CartPage.removeItem itemId st1 w1 = (r2, st2, w2) ->
  db w2 = db w1 /\
  CartPage.cartItems st2 = CartPage.cartItems st1 /\
  log w2 = log w1 ++ [Called (CartItemsDelete itemId) true; CartUpdate;
                      Toast "Item removed" false].
Proof.
  intros Hf Hrun1 Hrun2.
  rewrite removeItem_run, (noFaults_next _ _ Hf) in Hrun1.
  inversion Hrun1; subst. clear Hrun1.
  rewrite removeItem_run in Hrun2.
  assert (Hf2 : nextFault
                  (emit (Toast "Item removed" false)
                     (emit CartUpdate
                        (served (CartItemsDelete itemId)
                           (mkStore (products (db w))
                              (withoutLine itemId (cartItems (db w)))
                              (orders (db w)) (orderItems (db w))) w))) = false).
  { apply (noFaults_next 0). eapply noFaults_tail; [| exact Hf]. reflexivity. }
  rewrite Hf2 in Hrun2. inversion Hrun2; subst. clear Hrun2.
  cbn. rewrite !withoutLine_twice, <- !app_assoc. auto.
Qed.

Lemma updateQuantity_run itemId q st w :
  (q <? 1)%float = false ->
  CartPage.updateQuantity itemId q st w =
  (if (nextFault w || negb (existsb (hasId itemId) (cartItems (db w))))%bool
   then (Ok tt,
         CartPage.mkState (CartPage.cartItems st) (CartPage.loading st) None,
         emit errorToast (rejected (CartItemsUpdate itemId q) w))
   else (Ok tt,
         CartPage.mkState (map (setLineQuantity itemId q) (CartPage.cartItems st))
                          (CartPage.loading st) None,
         emit CartUpdate
              (served (CartItemsUpdate itemId q)
                      (mkStore (products (db w))
                               (map (setLineQuantity itemId q) (cartItems (db w)))
                               (orders (db w)) (orderItems (db w)))
                      w))).
Proof.
  intro Hq. unfold CartPage.updateQuantity. rewrite Hq.
  unfold bind at 1, CartPage.setUpdating, setState, tryCatchFinally.
  unfold bind at 1, cartItems_update, await.
  destruct (nextFault w); [reflexivity |].
  cbn [write orb]. destruct (existsb (hasId itemId) (cartItems (db w))); reflexivity.
Qed.

Lemma setLineQuantity_id i q ci : CartItem.id (setLineQuantity i q ci) = CartItem.id ci.
Proof. unfold setLineQuantity. destruct (hasId i ci); reflexivity. Qed.

Lemma setLineQuantity_In i q l ci :
  In ci (map (setLineQuantity i q) l) ->
  (CartItem.id ci = i /\ CartItem.quantity ci = q) \/ (CartItem.id ci <> i /\ In ci l).
Proof.
  intro H. apply in_map_iff in H. destruct H as (x & <- & Hx).
  unfold setLineQuantity, hasId. destruct (CartItem.id x =? i)%string eqn:E.
  - left. apply String.eqb_eq in E. auto.
  - right. apply String.eqb_neq in E. auto.
Qed.

(** A served change of quantity, to a value not below 1 and for an id
    the store has: in the store and on the page the line items keep their
    place and their ids, those with that id get the new quantity, the others
    are untouched, and the counter is notified. *)
Theorem updateQuantity_served itemId q st w r st' w' :
  (q <? 1)%float = false ->
  nextFault w = false ->
  existsb (hasId itemId) (cartItems (db w)) = true ->
  CartPage.updateQuantity itemId q st w = (r, st', w') ->
  map CartItem.id (cartItems (db w')) = map CartItem.id (cartItems (db w)) /\
  map CartItem.id (CartPage.cartItems st') = map CartItem.id (CartPage.cartItems st) /\
  (forall ci, In ci (cartItems (db w')) ->
              (CartItem.id ci = itemId /\ CartItem.quantity ci = q) \/
              (CartItem.id ci <> itemId /\ In ci (cartItems (db w)))) /\
  (forall item, In item (CartPage.cartItems st') ->
                (CartItem.id item = itemId /\ CartItem.quantity item = q) \/
                (CartItem.id item <> itemId /\ In item (CartPage.cartItems st))) /\
  log w' = log w ++ [Called (CartItemsUpdate itemId q) true; CartUpdate].
Proof.
  intros Hq Hf Hex Hrun. rewrite (updateQuantity_run _ _ _ _ Hq), Hf, Hex in Hrun.
  inversion Hrun; subst. clear Hrun. cbn.
  rewrite <- !app_assoc, !map_map.
  repeat split; try (apply map_ext; intro; apply setLineQuantity_id);
    intros x Hx; apply setLineQuantity_In; exact Hx.
Qed.

(** No optimistic update: when the change of quantity is rejected, by
    the service or because the store has no line item with that id, the
    store and the entries of the page are what they were, the error is shown
    and the counter is not notified. *)
Theorem updateQuantity_rejected itemId q st w r st' w' :
  (q <? 1)%float = false ->
  nextFault w = true \/ existsb (hasId itemId) (cartItems (db w)) = false ->
  CartPage.updateQuantity itemId q st w = (r, st', w') ->
  db w' = db w /\
  CartPage.cartItems st' = CartPage.cartItems st /\
  log w' = log w ++ [Called (CartItemsUpdate itemId q) false; errorToast].
Proof.
  intros Hq Hrej Hrun. rewrite (updateQuantity_run _ _ _ _ Hq) in Hrun.
  assert (E : (nextFault w || negb (existsb (hasId itemId) (cartItems (db w))))%bool = true).
  { destruct Hrej as [-> | ->]; [reflexivity | apply orb_true_r]. }
  rewrite E in Hrun. inversion Hrun; subst. cbn. rewrite <- app_assoc. auto.
Qed.

(* ================================================================= *)
(** ** Checkout: the address, the counter and the busy flags *)

Lemma chars_nonempty_within n :
  forall s, String.length s <= n ->
            forall ch, In ch (chars s) -> truthy ch = true.
Proof.
  induction n as [| n IH]; intros s Hlen ch Hin.
  - destruct s; [contradiction | simpl in Hlen; lia].
  - destruct s as [| a r1]; [contradiction |].
    assert (IHs : forall t, String.length t <= String.length r1 ->
                            forall ch, In ch (chars t) -> truthy ch = true).
    { intros t Ht. apply IH. simpl in Hlen. lia. }
    clear IH Hlen.
    change (chars (String a r1)) with
      (match r1 with
       | String b r2 =>
           if sequence2 a b
           then String a (String b EmptyString) :: chars r2
           else
             match r2 with
             | String c r3 =>
                 if sequence3 a b c
                 then String a (String b (String c EmptyString)) :: chars r3
                 else
                   match r3 with
                   | String d r4 =>
                       if sequence4 a b c d
                       then String a (String b (String c (String d EmptyString)))
                              :: chars r4
                       else String a EmptyString :: chars r1
                   | EmptyString => String a EmptyString :: chars r1
                   end
             | EmptyString => String a EmptyString :: chars r1
             end
       | EmptyString => [String a EmptyString]
       end) in Hin.
    pose proof (IHs r1 (le_n _)) as IH1.
    revert IH1 Hin. generalize (chars r1) as t1. intros t1 IH1 Hin.
    destruct r1 as [| b r2].
    { destruct Hin as [<- | []]. reflexivity. }
    assert (IH2 : forall ch, In ch (chars r2) -> truthy ch = true)
      by (apply IHs; simpl; lia).
    revert IH2 Hin. generalize (chars r2) as t2. intros t2 IH2 Hin.
    destruct (sequence2 a b).
    { destruct Hin as [<- | Hin]; [reflexivity | exact (IH2 _ Hin)]. }
    destruct r2 as [| c r3].
    { destruct Hin as [<- | Hin]; [reflexivity | exact (IH1 _ Hin)]. }
    assert (IH3 : forall ch, In ch (chars r3) -> truthy ch = true)
      by (apply IHs; simpl; lia).
    revert IH3 Hin. generalize (chars r3) as t3. intros t3 IH3 Hin.
    destruct (sequence3 a b c).
    { destruct Hin as [<- | Hin]; [reflexivity | exact (IH3 _ Hin)]. }
    destruct r3 as [| d r4].
    { destruct Hin as [<- | Hin]; [reflexivity | exact (IH1 _ Hin)]. }
    assert (IH4 : forall ch, In ch (chars r4) -> truthy ch = true)
      by (apply IHs; simpl; lia).
    destruct (sequence4 a b c d).
    { destruct Hin as [<- | Hin]; [reflexivity | exact (IH4 _ Hin)]. }
    destruct Hin as [<- | Hin]; [reflexivity | exact (IH1 _ Hin)].
Qed.

Lemma chars_nonempty s ch : In ch (chars s) -> truthy ch = true.
Proof. apply (chars_nonempty_within (String.length s)). apply le_n. Qed.

Lemma dropSpaces_incl l : forall ch, In ch (dropSpaces l) -> In ch l.
Proof.
  induction l as [| x l IH]; intros ch H; [exact H |].
  simpl in H. destruct (whiteSpace x); [right; apply IH, H | exact H].
Qed.

Lemma dropSpaces_all l : forallb whiteSpace l = true -> dropSpaces l = [].
Proof.
  induction l as [| x l IH]; [reflexivity |]. simpl.
  destruct (whiteSpace x); [exact IH | discriminate].
Qed.

Lemma dropSpaces_some l :
  forallb whiteSpace l = false ->
  exists x r, dropSpaces l = x :: r /\ whiteSpace x = false.
Proof.
  induction l as [| x l IH]; [discriminate |]. simpl.
  destruct (whiteSpace x) eqn:E; [exact IH | eauto].
Qed.

Lemma forallb_rev_cons (f : string -> bool) x r :
  f x = false -> forallb f (rev (x :: r)) = false.
Proof.
  intro H. simpl. rewrite forallb_app. simpl. rewrite H.
  apply andb_false_iff. right. reflexivity.
Qed.

(** Trimming leaves nothing exactly when every character is white
    space. *)
Lemma trimmed_nil l :
  forallb whiteSpace l = true -> trimmed l = [].
Proof. intro H. unfold trimmed. rewrite (dropSpaces_all _ H). reflexivity. Qed.

Lemma trimmed_some l :
  forallb whiteSpace l = false ->
  exists x r, trimmed l = x :: r /\ In x l.
Proof.
  intro H. unfold trimmed.
  destruct (dropSpaces_some _ H) as (x & r & Hd & Hx).
  rewrite Hd.
  destruct (dropSpaces_some _ (forallb_rev_cons whiteSpace x r Hx)) as (y & r' & Hd' & _).
  assert (Hin : forall ch, In ch (rev (dropSpaces (rev (x :: r)))) -> In ch l).
  { intros ch Hch. apply in_rev in Hch. apply dropSpaces_incl in Hch.
    apply in_rev in Hch. apply dropSpaces_incl. rewrite Hd. exact Hch. }
  destruct (rev (dropSpaces (rev (x :: r)))) as [| z t] eqn:E.
  - exfalso. apply (f_equal (@rev string)) in E. rewrite rev_involutive, Hd' in E.
    discriminate E.
  - exists z, t. split; [reflexivity |]. apply Hin. left. reflexivity.
Qed.

(** [trim] leaves something exactly when the string is not blank. *)
Lemma truthy_trim s : truthy (trim s) = negb (blank s).
Proof.
  unfold trim, blank. destruct (forallb whiteSpace (chars s)) eqn:E.
  - rewrite (trimmed_nil _ E). reflexivity.
  - destruct (trimmed_some _ E) as (x & r & -> & Hin).
    apply chars_nonempty in Hin. destruct x; [discriminate Hin | reflexivity].
Qed.

Lemma handleCheckout_blank_run st w :
  blank (CheckoutPage.shippingAddress st) = true ->
  CheckoutPage.handleCheckout st w = (Ok tt, st, emit (Toast "Missing information" true) w).
Proof.
  intro Hb. unfold CheckoutPage.handleCheckout, bind at 1, getState.
  rewrite truthy_trim, Hb. reflexivity.
Qed.

(** An address that is empty or made only of the white space
    [String.prototype.trim] strips (the ASCII one, the no-break space, the
    other Unicode spaces and the line terminators) is refused before
    anything is done: no call is made, the page and the store are what they
    were, and the only event is the toast "Missing information".  Any other
    address lets the checkout start with the authentication. *)
Theorem handleCheckout_blank_address st w r st' w' :
  CheckoutPage.handleCheckout st w = (r, st', w') ->
  (blank (CheckoutPage.shippingAddress st) = true ->
   r = Ok tt /\ st' = st /\ w' = emit (Toast "Missing information" true) w) /\
  (blank (CheckoutPage.shippingAddress st) = false ->
   exists ok rest, log w' = log w ++ Called AuthMe ok :: rest).
Proof.
  intro Hrun. split; intro Hb.
  - rewrite (handleCheckout_blank_run _ _ Hb) in Hrun. inversion Hrun; auto.
  - assert (Haddr : truthy (trim (CheckoutPage.shippingAddress st)) = true)
      by (rewrite truthy_trim, Hb; reflexivity).
    destruct (handleCheckout_outcome _ _ _ _ _ Haddr Hrun) as (_ & _ & Hout).
    destruct Hout as [[_ Hl] | (u & done & rest & _ & _ & _ & Hl)]; rewrite Hl; eauto.
Qed.

(** No run of the checkout notifies the cart counter, and a checkout
    leaves its page only for the home page, after the success toast. *)
Theorem handleCheckout_never_notifies st w r st' w' evs :
  CheckoutPage.handleCheckout st w = (r, st', w') ->
  log w' = log w ++ evs ->
  ~ In CartUpdate evs /\
  (forall p, In (Navigate p) evs -> p = home /\ precedes successToast (Navigate p) evs).
Proof.
  intros Hrun Hlog.
  destruct (blank (CheckoutPage.shippingAddress st)) eqn:Hb.
  - rewrite (handleCheckout_blank_run _ _ Hb) in Hrun. inversion Hrun; subst.
    cbn [log emit] in Hlog. apply app_inv_head in Hlog. subst evs.
    split; [intros [H | []]; discriminate H |].
    intros p [H | []]; discriminate H.
  - assert (Haddr : truthy (trim (CheckoutPage.shippingAddress st)) = true)
      by (rewrite truthy_trim, Hb; reflexivity).
    destruct (handleCheckout_outcome _ _ _ _ _ Haddr Hrun) as (_ & _ & Hout).
    destruct Hout as [[_ Hl] | (u & done & rest & _ & _ & _ & Hl)];
      rewrite Hl in Hlog; apply app_inv_head in Hlog; subst evs.
    + split; [intros [H | [H | []]]; discriminate H |].
      intros p [H | [H | []]]; discriminate H.
    + assert (Hs : forall e, (forall c b, e <> Called c b) ->
                             In e (Called AuthMe true :: servedEvents done ++ closing rest) ->
                             In e (closing rest)).
      { intros e He [H | H]; [exfalso; exact (He _ _ (eq_sym H)) |].
        apply in_app_or in H. destruct H as [H | H]; [| exact H].
        unfold servedEvents in H. apply in_map_iff in H.
        destruct H as (x & Hx & _). exfalso. exact (He _ _ (eq_sym Hx)). }
      split.
      * intro H. apply Hs in H; [| discriminate].
        destruct rest; simpl in H; destruct H as [H | [H | []]]; discriminate H.
      * intros p H. apply Hs in H; [| discriminate].
        destruct rest as [| c rest]; simpl in H.
        -- destruct H as [H | [H | []]]; [discriminate H |]. inversion H; subst p.
           split; [reflexivity |].
           exists (Called AuthMe true :: servedEvents done), [], [].
           simpl. reflexivity.
        -- destruct H as [H | [H | []]]; discriminate H.
Qed.

(* ================================================================= *)
(** ** Adding to the cart: every run *)

(** The three ways [addToCart] ends once a product is loaded: a call is
    rejected and nothing is written; or the user had no line item for the
    product and one is created; or the first line item found is updated. *)
Lemma addToCart_outcome st w p r st' w' :
  ProductDetailPage.product st = Some p ->
  ProductDetailPage.addToCart st w = (r, st', w') ->
  r = Ok tt /\
  ProductDetailPage.addingToCart st' = false /\
  ProductDetailPage.product st' = Some p /\
  ((db w' = db w /\
    ProductDetailPage.quantity st' = ProductDetailPage.quantity st /\
    exists calls c,
      log w' = log w ++ servedEvents calls ++ [Called c false; errorToast]) \/
   (exists u,
      session w = Some u /\
      ProductDetailPage.quantity st' = 1%float /\
      ((filter (whereCartItem (User.id u) (Some (Product.id p))) (cartItems (db w)) = [] /\
        db w' = mkStore (products (db w))
                        (cartItems (db w)
                           ++ [newLine w u p (ProductDetailPage.quantity st)])
                        (orders (db w)) (orderItems (db w)) /\
        log w' = log w ++ [Called AuthMe true;
                           Called (CartItemsList (User.id u) (Some (Product.id p))) true;
                           Called (CartItemsCreate
                                     (newLine w u p (ProductDetailPage.quantity st))) true;
                           Toast "Added to cart" false; CartUpdate]) \/
       (exists existing others,
          filter (whereCartItem (User.id u) (Some (Product.id p))) (cartItems (db w))
            = existing :: others /\
          db w' = mkStore (products (db w))
                          (map (setLineQuantity
                                  (CartItem.id existing)
                                  (CartItem.quantity existing
                                   + ProductDetailPage.quantity st)%float)
                               (cartItems (db w)))
                          (orders (db w)) (orderItems (db w)) /\
          log w' = log w ++ [Called AuthMe true;
                             Called (CartItemsList (User.id u) (Some (Product.id p))) true;
                             Called (CartItemsUpdate
                                       (CartItem.id existing)
                                       (CartItem.quantity existing
                                        + ProductDetailPage.quantity st)%float) true;
                             Toast "Added to cart" false; CartUpdate])))).
Proof.
  intros Hp Hrun.
  unfold ProductDetailPage.addToCart, bind at 1, getState in Hrun. rewrite Hp in Hrun.
  unfold bind at 1, ProductDetailPage.setAddingToCart, setState, tryCatchFinally in Hrun.
  unfold bind at 1, auth_me, await in Hrun.
  destruct (nextFault w).
  { inversion Hrun; subst. cbn. repeat split; auto. left. repeat split; auto.
    exists [], AuthMe. cbn. rewrite <- app_assoc. reflexivity. }
  destruct (session w) as [u |] eqn:Hs; cbn [write] in Hrun.
  2:{ inversion Hrun; subst. cbn. repeat split; auto. left. repeat split; auto.
      exists [], AuthMe. cbn. rewrite <- app_assoc. reflexivity. }
  unfold bind at 1, cartItems_list, await in Hrun.
  destruct (nextFault (served AuthMe (db w) w)).
  { inversion Hrun; subst. cbn. repeat split; auto. left. repeat split; auto.
    exists [AuthMe], (CartItemsList (User.id u) (Some (Product.id p))).
    cbn. rewrite <- !app_assoc. reflexivity. }
  cbn [write db served] in Hrun.
  destruct (filter (whereCartItem (User.id u) (Some (Product.id p))) (cartItems (db w)))
    as [| existing others] eqn:Hlines.
  - unfold bind at 1 in Hrun. unfold bind at 1, freshSuffix, cartItems_create, await in Hrun.
    destruct (nextFault _).
    + inversion Hrun; subst. cbn. repeat split; auto. left. repeat split; auto.
      exists [AuthMe; CartItemsList (User.id u) (Some (Product.id p))]. eexists.
      cbn. rewrite <- !app_assoc. reflexivity.
    + cbn [write] in Hrun.
      unfold bind, toast, onCartUpdate, effect, ProductDetailPage.setQuantity, setState in Hrun.
      inversion Hrun; subst. cbn. repeat split; auto. right. exists u.
      repeat split; auto. left. repeat split; auto.
      rewrite <- !app_assoc. reflexivity.
  - assert (Hex : existsb (hasId (CartItem.id existing)) (cartItems (db w)) = true).
    { apply existsb_exists. exists existing. split.
      - assert (Hin : In existing (existing :: others)) by (left; reflexivity).
        rewrite <- Hlines in Hin. apply filter_In in Hin. tauto.
      - unfold hasId. apply String.eqb_refl. }
    unfold bind at 1, cartItems_update, await in Hrun.
    destruct (nextFault _).
    + inversion Hrun; subst. cbn. repeat split; auto. left. repeat split; auto.
      exists [AuthMe; CartItemsList (User.id u) (Some (Product.id p))]. eexists.
      cbn. rewrite <- !app_assoc. reflexivity.
    + cbn [write db served] in Hrun. rewrite Hex in Hrun.
      unfold bind, toast, onCartUpdate, effect, ProductDetailPage.setQuantity, setState in Hrun.
      inversion Hrun; subst. cbn. repeat split; auto. right. exists u.
      repeat split; auto. right. exists existing, others. repeat split; auto.
      rewrite <- !app_assoc. reflexivity.
Qed.

Lemma called_not_update cs : ~ In CartUpdate (servedEvents cs).
Proof.
  unfold servedEvents. intro H. apply in_map_iff in H.
  destruct H as (x & Hx & _). discriminate Hx.
Qed.

(** [addToCart] writes at most once, and only as its last call: if any
    call is rejected the store is what it was, the quantity selector keeps
    its value, the error is shown and the counter is not notified; if none
    is, the counter is notified and the selector goes back to 1. *)
Theorem addToCart_rejected_writes_nothing st w p r st' w' evs :
  ProductDetailPage.product st = Some p ->
  ProductDetailPage.addToCart st w = (r, st', w') ->
  log w' = log w ++ evs ->
  ((exists c, In (Called c false) evs) ->
   db w' = db w /\
   ProductDetailPage.quantity st' = ProductDetailPage.quantity st /\
   In errorToast evs /\ ~ In CartUpdate evs /\ ~ In (Toast "Added to cart" false) evs) /\
  ((forall c, ~ In (Called c false) evs) ->
   ProductDetailPage.quantity st' = 1%float /\
   In CartUpdate evs /\ In (Toast "Added to cart" false) evs /\ ~ In errorToast evs).
Proof.
  intros Hp Hrun Hlog.
  destruct (addToCart_outcome _ _ _ _ _ _ Hp Hrun) as (_ & _ & _ & Hout).
  destruct Hout as [(Hdb & Hq & calls & c & Hl)
                   | (u & Hs & Hq & [(Hnone & Hdb & Hl) | (e & o & Hsome & Hdb & Hl)])];
    rewrite Hl in Hlog; apply app_inv_head in Hlog; subst evs.
  - split.
    + intros _. repeat split; auto.
      * apply in_or_app. right. simpl. auto.
      * intro H. apply in_app_or in H. destruct H as [H | [H | [H | []]]];
          [exact (called_not_update _ H) | discriminate H | discriminate H].
      * intro H. apply in_app_or in H. destruct H as [H | [H | [H | []]]];
          [| discriminate H | discriminate H].
        unfold servedEvents in H. apply in_map_iff in H.
        destruct H as (x & Hx & _). discriminate Hx.
    + intro Hnone. exfalso. apply (Hnone c). apply in_or_app. right. simpl. auto.
  - split.
    + intros (c & Hc). exfalso. simpl in Hc.
      repeat (destruct Hc as [Hc | Hc]; [discriminate Hc |]). exact Hc.
    + intros _. repeat split; auto; simpl; auto 10.
      intro H. repeat (destruct H as [H | H]; [discriminate H |]). exact H.
  - split.
    + intros (c & Hc). exfalso. simpl in Hc.
      repeat (destruct Hc as [Hc | Hc]; [discriminate Hc |]). exact Hc.
    + intros _. repeat split; auto; simpl; auto 10.
      intro H. repeat (destruct H as [H | H]; [discriminate H |]). exact H.
Qed.

(** [addToCart] keeps the cart free of duplicates when no other call
    to the store comes between its listing and its write (here a handler
    runs to completion): if the store has at most one line item for each
    user and product, it still has after such a run, whatever is rejected.
    Two adds whose listings both precede their writes are not covered. *)
Theorem addToCart_keeps_one_line_per_pair st w r st' w' :
  atMostOnePerPair (db w) ->
  ProductDetailPage.addToCart st w = (r, st', w') ->
  atMostOnePerPair (db w').
Proof.
  intros Hinv Hrun.
  destruct (ProductDetailPage.product st) as [p |] eqn:Hp.
  2:{ unfold ProductDetailPage.addToCart, bind at 1, getState in Hrun.
      rewrite Hp in Hrun. inversion Hrun; subst. exact Hinv. }
  destruct (addToCart_outcome _ _ _ _ _ _ Hp Hrun) as (_ & _ & _ & Hout).
  destruct Hout as [(Hdb & _)
                   | (u & Hs & Hq & [(Hnone & Hdb & _) | (e & o & Hsome & Hdb & _)])];
    rewrite Hdb; [exact Hinv | |].
  - intros u' p'. cbn [cartItems]. rewrite filter_app, length_app. simpl.
    destruct (whereCartItem u' (Some p') (newLine w u p (ProductDetailPage.quantity st)))
      eqn:Hw.
    + unfold whereCartItem, newLine in Hw. simpl in Hw.
      apply andb_prop in Hw. destruct Hw as [Hu Hp'].
      apply String.eqb_eq in Hu. apply String.eqb_eq in Hp'. subst u' p'.
      rewrite Hnone. simpl. auto.
    + simpl. rewrite Nat.add_0_r. apply Hinv.
  - intros u' p'. cbn [cartItems].
    rewrite filter_map_same by (intro; apply where_setLineQuantity).
    rewrite length_map. apply Hinv.
Qed.

(* ================================================================= *)
(** ** The product page *)

Lemma loadProduct_run pid st w :
  truthy pid = true ->
  ProductDetailPage.loadProduct (Some pid) st w =
  (let off := ProductDetailPage.mkState (ProductDetailPage.product st) false
                (ProductDetailPage.quantity st) (ProductDetailPage.addingToCart st) in
   if nextFault w
   then (Ok tt, off, emit errorToast (rejected (ProductsList pid) w))
   else match filter (whereProduct pid) (products (db w)) with
        | p :: _ =>
            (Ok tt,
             ProductDetailPage.mkState (Some p) false (ProductDetailPage.quantity st)
                                       (ProductDetailPage.addingToCart st),
             served (ProductsList pid) (db w) w)
        | [] =>
            (Ok tt, off,
             emit (Navigate products_page)
                  (emit (Toast "Product not found" true)
                        (served (ProductsList pid) (db w) w)))
        end).
Proof.
  intro Ht. unfold ProductDetailPage.loadProduct. rewrite Ht.
  unfold bind at 1, ProductDetailPage.setLoading, setState, tryCatchFinally.
  unfold bind at 1, products_list, await.
  destruct (nextFault w); [reflexivity |]. cbn [write].
  destruct (filter (whereProduct pid) (products (db w))); reflexivity.
Qed.

(** Loading the product page never writes to the store.  When the
    lookup is served and finds products with the requested id, the page
    shows the first of them; when it finds none, the page keeps what it
    showed, says "Product not found" and goes to the product list; when it
    is rejected the page keeps what it showed and shows the error.  Without
    an id the page only goes to the product list, without any call. *)
Theorem loadProduct_shows_requested_product :
  (forall pid st w r st' w',
      truthy pid = true ->
      ProductDetailPage.loadProduct (Some pid) st w = (r, st', w') ->
      db w' = db w /\
      ProductDetailPage.quantity st' = ProductDetailPage.quantity st /\
      (nextFault w = true ->
       ProductDetailPage.product st' = ProductDetailPage.product st /\
       log w' = log w ++ [Called (ProductsList pid) false; errorToast]) /\
      (nextFault w = false ->
       match filter (whereProduct pid) (products (db w)) with
       | p :: _ =>
           ProductDetailPage.product st' = Some p /\ Product.id p = pid /\
           In p (products (db w)) /\
           log w' = log w ++ [Called (ProductsList pid) true]
       | [] =>
           ProductDetailPage.product st' = ProductDetailPage.product st /\
           log w' = log w ++ [Called (ProductsList pid) true;
                              Toast "Product not found" true; Navigate products_page]
       end)) /\
  (forall productId st w,
      productId = None \/ productId = Some EmptyString ->
      ProductDetailPage.loadProduct productId st w
      = (Ok tt, st, emit (Navigate products_page) w)).
Proof.
  split.
  - intros pid st w r st' w' Ht Hrun.
    rewrite (loadProduct_run _ _ _ Ht) in Hrun. cbv zeta in Hrun.
    destruct (nextFault w) eqn:Hf.
    + inversion Hrun; subst. repeat split; auto; try discriminate.
      cbn. rewrite <- app_assoc. reflexivity.
    + destruct (filter (whereProduct pid) (products (db w))) as [| p l] eqn:Hfound;
        inversion Hrun; subst; (split; [reflexivity |]); (split; [reflexivity |]);
        (split; [discriminate |]); intros _.
      * split; [reflexivity |]. cbn. rewrite <- !app_assoc. reflexivity.
      * assert (Hin : In p (filter (whereProduct pid) (products (db w))))
          by (rewrite Hfound; left; reflexivity).
        apply filter_In in Hin. destruct Hin as [Hin Hid]. apply String.eqb_eq in Hid.
        repeat split; auto.
  - intros productId st w [-> | ->]; reflexivity.
Qed.

(** What the product page holds after [loadProduct]: what it held, or a
    product of the store with the requested id; the store is not written. *)
Lemma loadProduct_product productId st w r st' w' :
  ProductDetailPage.loadProduct productId st w = (r, st', w') ->
  db w' = db w /\
  (ProductDetailPage.product st' = ProductDetailPage.product st \/
   exists pid p, productId = Some pid /\ ProductDetailPage.product st' = Some p /\
                 In p (products (db w)) /\ Product.id p = pid).
Proof.
  intro Hrun. destruct productId as [pid |]; [| inversion Hrun; auto].
  destruct (truthy pid) eqn:Ht.
  2:{ unfold ProductDetailPage.loadProduct in Hrun. rewrite Ht in Hrun.
      inversion Hrun; auto. }
  rewrite (loadProduct_run _ _ _ Ht) in Hrun. cbv zeta in Hrun.
  destruct (nextFault w); [inversion Hrun; auto |].
  destruct (filter (whereProduct pid) (products (db w))) as [| p l] eqn:Hfound;
    inversion Hrun; subst; [auto |].
  split; [reflexivity |]. right. exists pid, p.
  assert (Hin : In p (filter (whereProduct pid) (products (db w))))
    by (rewrite Hfound; left; reflexivity).
  apply filter_In in Hin. destruct Hin as [Hin Hid]. apply String.eqb_eq in Hid. auto.
Qed.

(** A product page that opens without a product never creates a line
    item for a product that was not in the store when it loaded: after
    [loadProduct] and then [addToCart], whatever is rejected, every line
    item of the store is a line item that was there, with the same id, user
    and product, or refers to the requested product, found in the store. *)
Theorem addToCart_after_loadProduct productId st w r1 st1 w1 r2 st2 w2 :
  ProductDetailPage.product st = None ->
  ProductDetailPage.loadProduct productId st w = (r1, st1, w1) ->
  ProductDetailPage.addToCart st1 w1 = (r2, st2, w2) ->
  forall ci, In ci (cartItems (db w2)) ->
    (exists ci0, In ci0 (cartItems (db w)) /\
                 CartItem.id ci0 = CartItem.id ci /\
                 CartItem.userId ci0 = CartItem.userId ci /\
                 CartItem.productId ci0 = CartItem.productId ci) \/
    (productId = Some (CartItem.productId ci) /\
     exists p, In p (products (db w)) /\ Product.id p = CartItem.productId ci).
Proof.
  intros Hnone Hload Hadd ci Hci.
  destruct (loadProduct_product _ _ _ _ _ _ Hload) as [Hdb [Hsame | (pid & p & -> & Hp & Hin & Hid)]].
  - rewrite Hnone in Hsame.
    unfold ProductDetailPage.addToCart, bind at 1, getState in Hadd.
    rewrite Hsame in Hadd. inversion Hadd; subst. rewrite Hdb in Hci.
    left. exists ci. auto.
  - destruct (addToCart_outcome _ _ _ _ _ _ Hp Hadd) as (_ & _ & _ & Hout).
    destruct Hout as [(Hdb2 & _)
                     | (u & Hs & Hq & [(Hno & Hdb2 & _) | (e & o & Hsome & Hdb2 & _)])];
      rewrite Hdb2 in Hci; cbn [cartItems] in Hci; rewrite ?Hdb in Hci.
    + left. exists ci. auto.
    + apply in_app_or in Hci. destruct Hci as [Hci | [<- | []]].
      * left. exists ci. auto.
      * right. simpl. rewrite Hid. split; [reflexivity |]. exists p. auto.
    + apply in_map_iff in Hci. destruct Hci as (x & <- & Hx).
      left. exists x. split; [exact Hx |].
      unfold setLineQuantity. destruct (hasId _ x); auto.
Qed.

Lemma nothing_between_one_and_zero x :
  (1 <=? x)%float = true -> (x <=? 0)%float = true -> False.
Proof.
  rewrite !leb_spec. unfold SFleb.
  change (Prim2SF 1%float) with (S754_finite false 4503599627370496 (-52)).
  change (Prim2SF 0%float) with (S754_zero false).
  destruct (Prim2SF x) as [s | s | | s m e]; simpl.
  - discriminate.
  - destruct s; discriminate.
  - discriminate.
  - destruct s; [discriminate |]. intros _. discriminate.
Qed.

(** The quantity selector moves only inside the stock: after a click it
    holds what it held or the requested value, which is then between 1 and
    the stock; so a selector in range stays in range, and with no product or
    a stock of 0 it does not move.  Nothing else is touched. *)
Theorem handleQuantityChange_stays_in_range change st w r st' w' :
  ProductDetailPage.handleQuantityChange change st w = (r, st', w') ->
  w' = w /\
  ProductDetailPage.product st' = ProductDetailPage.product st /\
  (ProductDetailPage.quantity st' = ProductDetailPage.quantity st \/
   (ProductDetailPage.quantity st' = (ProductDetailPage.quantity st + change)%float /\
    inRange st' = true)) /\
  (inRange st = true -> inRange st' = true) /\
  (orZero (option_map Product.stockQuantity (ProductDetailPage.product st)) = zero ->
   ProductDetailPage.quantity st' = ProductDetailPage.quantity st).
Proof.
  unfold ProductDetailPage.handleQuantityChange, bind, getState. intro Hrun.
  match type of Hrun with
  | (if ?c then _ else _) _ _ = _ => destruct c eqn:Hc
  end.
  - inversion Hrun; subst. cbn. unfold inRange. cbn. rewrite Hc.
    repeat split; auto.
    intro Hz. exfalso. apply andb_prop in Hc. destruct Hc as [H1 H2].
    rewrite Hz in H2. exact (nothing_between_one_and_zero _ H1 H2).
  - inversion Hrun; subst. repeat split; auto.
Qed.

(* ================================================================= *)
(** ** The header counter and the routing *)

(** A recount that cannot be made, for want of a user or because the
    listing is rejected, leaves the count as it was and shows nothing. *)
Theorem loadCartItemCount_fails_silently st w r st' w' evs :
  App.user st = None \/ nextFault w = true ->
  App.loadCartItemCount st w = (r, st', w') ->
  log w' = log w ++ evs ->
  r = Ok tt /\ st' = st /\ db w' = db w /\
  forall title destructive, ~ In (Toast title destructive) evs.
Proof.
  intros Hcase Hrun Hlog.
  unfold App.loadCartItemCount, bind at 1, getState in Hrun.
  destruct (App.user st) as [u |] eqn:Hu.
  - destruct Hcase as [Hc | Hf]; [discriminate Hc |].
    unfold tryCatchFinally, bind, cartItems_list, await, ret in Hrun.
    rewrite Hf in Hrun. inversion Hrun; subst.
    cbn [log rejected] in Hlog. apply app_inv_head in Hlog. subst evs.
    repeat split; auto. intros t d [H | []]. discriminate H.
  - inversion Hrun; subst.
    rewrite <- (app_nil_r (log w')) in Hlog at 1. apply app_inv_head in Hlog. subst evs.
    repeat split; auto.
Qed.

Lemma quantitySum_snoc l x :
  quantitySum (l ++ [x]) = (quantitySum l + CartItem.quantity x)%float.
Proof. unfold quantitySum. rewrite fold_left_app. reflexivity. Qed.

Lemma loadCartItemCount_served st w u :
  App.user st = Some u ->
  nextFault w = false ->
  App.loadCartItemCount st w =
  (Ok tt,
   App.mkState (Some u)
               (quantitySum (filter (whereCartItem (User.id u) None) (cartItems (db w)))),
   served (CartItemsList (User.id u) None) (db w) w).
Proof. apply loadCartItemCount_counts_every_line. Qed.

(** The count follows an add: when the signed-in user adds quantity [q]
    of a product not yet in the cart and the counter is recounted, every
    call being served, the new count is the count there was plus [q]. *)
Theorem recount_after_add app st w p u r0 app0 w0 r1 st1 w1 r2 app2 w2 :
  App.user app = Some u ->
  session w = Some u ->
  ProductDetailPage.product st = Some p ->
  filter (whereCartItem (User.id u) (Some (Product.id p))) (cartItems (db w)) = [] ->
  noFaults 5 w = true ->
  App.loadCartItemCount app w = (r0, app0, w0) ->
  ProductDetailPage.addToCart st w0 = (r1, st1, w1) ->
  App.loadCartItemCount app0 w1 = (r2, app2, w2) ->
  App.cartItemCount app2
  = (App.cartItemCount app0 + ProductDetailPage.quantity st)%float.
Proof.
  intros Hu Hs Hp Hnone Hf Hc0 Hadd Hc2.
  rewrite (loadCartItemCount_served _ _ _ Hu (noFaults_next _ _ Hf)) in Hc0.
  inversion Hc0; subst. clear Hc0.
  apply noFaults_served
    with (c := CartItemsList (User.id u) None) (d := db w) in Hf.
  assert (Hf3 : noFaults 3 (served (CartItemsList (User.id u) None) (db w) w) = true)
    by (apply noFaults_weaken; exact Hf).
  destruct (addToCart_creates
              st (served (CartItemsList (User.id u) None) (db w) w) p u Hp Hs Hf3 Hnone)
    as (w1' & Hrun & Hdb & _ & Hfs & _).
  rewrite Hadd in Hrun. injection Hrun as _ _ <-.
  assert (Hf1 : nextFault w1 = false).
  { apply (noFaults_next 0). apply (noFaults_after_three 1 _ _ Hfs). exact Hf. }
  rewrite (loadCartItemCount_served
             (App.mkState (Some u)
                (quantitySum (filter (whereCartItem (User.id u) None) (cartItems (db w)))))
             w1 u eq_refl Hf1) in Hc2.
  inversion Hc2; subst. clear Hc2. cbn [App.cartItemCount].
  rewrite Hdb. cbn [cartItems db served]. rewrite filter_app. simpl.
  unfold whereCartItem at 2. simpl. rewrite String.eqb_refl. simpl.
  apply quantitySum_snoc.
Qed.

Lemma quantitySum_hydrated s rows :
  (forall row, In row rows -> lookup s row <> None) ->
  CartPage.getTotalItems
    (filter hasProduct (map (fun item => CartItem.withProduct item (lookup s item)) rows))
  = quantitySum rows.
Proof.
  intro Hall. rewrite filter_all.
  - unfold CartPage.getTotalItems, quantitySum.
    clear Hall. generalize zero.
    induction rows as [| row rows IH]; intro acc; simpl; [reflexivity |].
    apply IH.
  - intros x Hx. apply in_map_iff in Hx. destruct Hx as (row & <- & Hrow).
    unfold hasProduct. simpl. destruct (lookup s row) eqn:E; [reflexivity |].
    exfalso. exact (Hall row Hrow E).
Qed.

(** When every line item of the user has its product, the count in the
    heading of the cart page, after a load without error, is the count the
    header shows after a served recount on the same store. *)
Theorem counts_agree_without_dangling_items st w r st' w' evs app wa ra app' wa' u :
  session w = Some u ->
  App.user app = Some u ->
  db wa = db w ->
  nextFault wa = false ->
  (forall row, In row (cartItems (db w)) -> CartItem.userId row = User.id u ->
               lookup (db w) row <> None) ->
  CartPage.loadCartItems st w = (r, st', w') ->
  log w' = log w ++ evs ->
  ~ In errorToast evs ->
  App.loadCartItemCount app wa = (ra, app', wa') ->
  CartPage.getTotalItems (CartPage.cartItems st') = App.cartItemCount app'.
Proof.
  intros Hs Hu Hdb Hf Hall Hload Hlog Herr Hcount.
  rewrite (loadCartItemCount_served _ _ _ Hu Hf) in Hcount. inversion Hcount; subst.
  cbn [App.cartItemCount]. rewrite Hdb.
  destruct (CartPage_aggregated _ _ _ _ _ Hload) as (evs' & _ & Hlog' & Hcases).
  rewrite Hlog' in Hlog. apply app_inv_head in Hlog. subst evs'.
  destruct Hcases as [(_ & Herr' & _) | (_ & _ & u' & Hs' & ->)]; [contradiction |].
  rewrite Hs in Hs'. injection Hs' as <-.
  unfold hydrated. apply quantitySum_hydrated.
  intros row Hrow. apply filter_In in Hrow. destruct Hrow as [Hrow Hw].
  unfold whereCartItem in Hw. rewrite andb_true_r in Hw. apply String.eqb_eq in Hw.
  apply Hall; assumption.
Qed.

Lemma navigate_without_arguments pages :
  forall r,
    App.selectedProductId
      (fold_left (fun r page => App.navigateTo page None None r) pages r)
    = App.selectedProductId r /\
    App.selectedCategory
      (fold_left (fun r page => App.navigateTo page None None r) pages r)
    = App.selectedCategory r.
Proof.
  induction pages as [| page pages IH]; intro r; simpl; [auto |].
  destruct (IH (App.navigateTo page None None r)) as [H1 H2].
  rewrite H1, H2. auto.
Qed.

(** A selection is never cleared by navigating: after going to a
    category or a product, any number of navigations that name no product
    and no category (the header's links, the back buttons) leave that
    category and that product selected; an empty string counts as no
    argument. *)
Theorem navigateTo_keeps_selection page productId category pages r :
  truthy productId = true ->
  truthy category = true ->
  let r' := fold_left (fun r page => App.navigateTo page None None r) pages
                      (App.navigateTo page (Some productId) (Some category) r) in
  App.selectedProductId r' = Some productId /\
  App.selectedCategory r' = Some category /\
  App.navigateTo page (Some EmptyString) (Some EmptyString) r'
  = App.navigateTo page None None r'.
Proof.
  intros Hp Hc r'. subst r'.
  destruct (navigate_without_arguments pages
              (App.navigateTo page (Some productId) (Some category) r)) as [H1 H2].
  rewrite H1, H2. unfold App.navigateTo at 1 2. unfold App.orKeep. simpl.
  rewrite Hp, Hc. auto.
Qed.

(* ================================================================= *)
(** ** Around the checkout *)

Lemma runScript_session script :
  forall w, session (snd (runScript script w)) = session w.
Proof.
  intro w. destruct (runScript script w) as [ok w'] eqn:E.
  apply runScript_spec in E. destruct E as (d & rs & _ & _ & _ & _ & _ & Hs & _).
  exact Hs.
Qed.

Lemma handleCheckout_session st w r st' w' :
  CheckoutPage.handleCheckout st w = (r, st', w') -> session w' = session w.
Proof.
  intro Hrun. destruct (blank (CheckoutPage.shippingAddress st)) eqn:Hb.
  - rewrite (handleCheckout_blank_run _ _ Hb) in Hrun. inversion Hrun; reflexivity.
  - assert (Haddr : truthy (trim (CheckoutPage.shippingAddress st)) = true)
      by (rewrite truthy_trim, Hb; reflexivity).
    rewrite (handleCheckout_run _ _ Haddr) in Hrun. cbv zeta in Hrun.
    destruct (nextFault w); [inversion Hrun; reflexivity |].
    destruct (session w) as [u |] eqn:Hs; [| inversion Hrun; subst; cbn; auto].
    match type of Hrun with
    | (let (_, _) := runScript ?sc ?w0 in _) = _ =>
        pose proof (runScript_session sc w0) as Hsess;
        destruct (runScript sc w0) as [ok w2]
    end.
    simpl in Hsess. destruct ok; inversion Hrun; subst; cbn; rewrite Hsess; auto.
Qed.

(** The checkout page goes to the cart page exactly when its load is
    served and yields no entry; a load that fails stays on the checkout page
    with the entries it had. *)
Theorem checkout_load_redirects_iff st w r st' w' evs :
  CheckoutPage.loadCartItems st w = (r, st', w') ->
  log w' = log w ++ evs ->
  (In (Navigate cart) evs <->
   ~ In errorToast evs /\ CheckoutPage.cartItems st' = []) /\
  (forall p, In (Navigate p) evs -> p = cart) /\
  (In errorToast evs -> CheckoutPage.cartItems st' = CheckoutPage.cartItems st).
Proof.
  intros Hrun Hlog.
  rewrite CheckoutPage_loadCartItems_run in Hrun. cbv zeta in Hrun.
  assert (Hshort : forall c,
             log w' = (log w ++ [Called c false]) ++ [errorToast] ->
             CheckoutPage.cartItems st' = CheckoutPage.cartItems st ->
             (In (Navigate cart) evs <->
              ~ In errorToast evs /\ CheckoutPage.cartItems st' = []) /\
             (forall p, In (Navigate p) evs -> p = cart) /\
             (In errorToast evs -> CheckoutPage.cartItems st' = CheckoutPage.cartItems st)).
  { intros c Hl Hsame. rewrite Hl, <- app_assoc in Hlog.
    apply app_inv_head in Hlog. subst evs. split; [| split; auto].
    - split.
      + intros [H | [H | []]]; discriminate H.
      + intros [H _]. exfalso. apply H. simpl. auto.
    - intros p [H | [H | []]]; discriminate H. }
  destruct (nextFault w); [inversion Hrun; subst; eapply Hshort; reflexivity |].
  destruct (session w) as [u |]; [| inversion Hrun; subst; eapply Hshort; reflexivity].
  destruct (nextFault (served AuthMe (db w) w)).
  { inversion Hrun; subst. cbn [log emit rejected served] in Hlog.
    rewrite <- !app_assoc in Hlog. apply app_inv_head in Hlog. subst evs.
    split; [| split; auto].
    - split.
      + intros [H | [H | [H | []]]]; discriminate H.
      + intros [H _]. exfalso. apply H. simpl. auto.
    - intros p [H | [H | [H | []]]]; discriminate H. }
  destruct (lookupsServed u w).
  - destruct (hydrated (db w) (User.id u)) as [| x l] eqn:Hh;
      inversion Hrun; subst; cbn [log emit] in Hlog;
      rewrite afterLookups_log, <- ?app_assoc in Hlog;
      apply app_inv_head in Hlog; subst evs; cbn [CheckoutPage.cartItems app].
    + split; [| split].
      * split; [| intros _; right; right; apply in_or_app; right; simpl; auto].
        intros _. split; [| reflexivity].
        intros [H | [H | H]]; try discriminate H.
        apply in_app_or in H. destruct H as [H | [H | [H | []]]]; try discriminate H.
        exact (lookups_no_toast _ _ _ _ H).
      * intros p [H | [H | H]]; try discriminate H.
        apply in_app_or in H. destruct H as [H | [H | [H | []]]]; try discriminate H.
        -- apply lookupEvents_calls in H. destruct H as (c & b & E). discriminate E.
        -- inversion H. reflexivity.
      * intros [H | [H | H]]; try discriminate H.
        apply in_app_or in H. destruct H as [H | [H | [H | []]]]; try discriminate H.
        exfalso. exact (lookups_no_toast _ _ _ _ H).
    + assert (Hnav : forall p, ~ In (Navigate p)
                 (Called AuthMe true :: Called (CartItemsList (User.id u) None) true
                    :: lookupEvents
                         (filter (whereCartItem (User.id u) None) (cartItems (db w)))
                         (tl (tl (faults w))))).
      { intros p [H | [H | H]]; try discriminate H.
        apply lookupEvents_calls in H. destruct H as (c & b & E). discriminate E. }
      split; [| split].
      * split; [intro H; exfalso; exact (Hnav _ H) | intros [_ H]; discriminate H].
      * intros p H. exfalso. exact (Hnav _ H).
      * intros [H | [H | H]]; try discriminate H.
        exfalso. exact (lookups_no_toast _ _ _ _ H).
  - inversion Hrun; subst. cbn [log emit] in Hlog.
    rewrite afterLookups_log, <- ?app_assoc in Hlog.
    apply app_inv_head in Hlog. subst evs. cbn [CheckoutPage.cartItems app].
    assert (Hnav : forall p, ~ In (Navigate p)
               (Called AuthMe true :: Called (CartItemsList (User.id u) None) true
                  :: lookupEvents
                       (filter (whereCartItem (User.id u) None) (cartItems (db w)))
                       (tl (tl (faults w))) ++ [errorToast])).
    { intros p [H | [H | H]]; try discriminate H.
      apply in_app_or in H. destruct H as [H | [H | []]]; [| discriminate H].
      apply lookupEvents_calls in H. destruct H as (c & b & E). discriminate E. }
    split; [| split; auto].
    + split; [intro H; exfalso; exact (Hnav _ H) |].
      intros [H _]. exfalso. apply H. right. right. apply in_or_app. right. simpl. auto.
    + intros p H. exfalso. exact (Hnav _ H).
Qed.

(** After a successful checkout of the cart as the aggregator gives it,
    the aggregator has nothing left to give: no line item of the user has a
    product any more, and the cart page, loaded without error, shows the
    empty cart. *)
Theorem cart_empty_after_checkout st w u r st' w' evs cst rc cst' wc evsc :
  session w = Some u ->
  CheckoutPage.cartItems st = hydrated (db w) (User.id u) ->
  truthy (trim (CheckoutPage.shippingAddress st)) = true ->
  CheckoutPage.handleCheckout st w = (r, st', w') ->
  log w' = log w ++ evs ->
  In successToast evs ->
  CartPage.loadCartItems cst w' = (rc, cst', wc) ->
  log wc = log w' ++ evsc ->
  ~ In errorToast evsc ->
  hydrated (db w') (User.id u) = [] /\
  CartPage.cartItems cst' = [] /\
  CartPage.render cst' = CartPage.EmptyCart.
Proof.
  intros Hs Hcart Haddr Hrun Hlog Hok Hload Hlogc Herr.
  destruct (checkout_success _ _ _ _ _ _ Haddr Hrun Hlog Hok) as (u' & _ & _ & Hdb).
  assert (Hempty : hydrated (db w') (User.id u) = []).
  { destruct (hydrated (db w') (User.id u)) as [| x l] eqn:Hh; [reflexivity |].
    exfalso.
    assert (Hx : In x (hydrated (db w') (User.id u))) by (rewrite Hh; left; reflexivity).
    apply hydrated_iff in Hx. destruct Hx as (row & p & Hrow & Hu & Hl & _).
    rewrite Hdb in Hrow, Hl. cbn [cartItems] in Hrow.
    apply filter_In in Hrow. destruct Hrow as [Hrow Hkept].
    apply keptAfter_spec in Hkept. apply Hkept.
    assert (Hin : In (CartItem.withProduct row (Some p)) (hydrated (db w) (User.id u))).
    { apply hydrated_complete; auto. }
    rewrite <- Hcart in Hin.
    change (CartItem.id row) with (CartItem.id (CartItem.withProduct row (Some p))).
    apply in_map. exact Hin. }
  split; [exact Hempty |].
  destruct (CartPage_aggregated _ _ _ _ _ Hload) as (evs' & _ & Hlog' & Hcases).
  rewrite Hlog' in Hlogc. apply app_inv_head in Hlogc. subst evs'.
  destruct Hcases as [(_ & Herr' & _) | (_ & _ & u2 & Hs2 & Hnew)]; [contradiction |].
  rewrite (handleCheckout_session _ _ _ _ _ Hrun), Hs in Hs2. injection Hs2 as <-.
  rewrite Hempty in Hnew. split; [exact Hnew |].
  unfold CartPage.render. rewrite (CartPage_loaded _ _ _ _ _ Hload), Hnew. reflexivity.
Qed.

(** A checkout that is tried again after it stopped beyond the creation
    of the order does not resume: the store keeps the first order and the
    order items created for it, and the second run, when it succeeds, adds a
    second order for the same user, total and address, with one order item
    for every entry of the page. *)
Theorem checkout_retry_orders_again st w r1 st1 w1 evs1 c r2 st2 w2 evs2 :
  truthy (trim (CheckoutPage.shippingAddress st)) = true ->
  CheckoutPage.handleCheckout st w = (r1, st1, w1) ->
  log w1 = log w ++ evs1 ->
  In (Called c false) evs1 ->
  c <> AuthMe ->
  (forall o, c <> OrdersCreate o) ->
  CheckoutPage.handleCheckout st1 w1 = (r2, st2, w2) ->
  log w2 = log w1 ++ evs2 ->
  In successToast evs2 ->
  exists o1 o2 kept again,
    orders (db w2) = orders (db w) ++ [o1; o2] /\
    Order.userId o2 = Order.userId o1 /\
    Order.totalAmount o2 = Order.totalAmount o1 /\
    Order.shippingAddress o2 = Order.shippingAddress o1 /\
    orderItems (db w2) = orderItems (db w) ++ kept ++ again /\
    (forall oi, In oi kept -> OrderItem.orderId oi = Order.id o1) /\
    (forall oi, In oi again -> OrderItem.orderId oi = Order.id o2) /\
    length again = length (CheckoutPage.cartItems st).
Proof.
  intros Haddr Hrun1 Hlog1 Hrej Hauth Hord Hrun2 Hlog2 Hok.
  destruct (handleCheckout_outcome _ _ _ _ _ Haddr Hrun1) as (_ & Hst1 & Hout).
  pose proof (handleCheckout_session _ _ _ _ _ Hrun1) as Hsess.
  destruct Hout as [[_ Hl] | (u & done & rest & Hs & Hplan & Hdb & Hl)];
    rewrite Hl in Hlog1; apply app_inv_head in Hlog1; subst evs1.
  { destruct Hrej as [H | [H | []]]; [| discriminate H].
    inversion H. subst c. contradiction. }
  destruct Hrej as [H | Hrej]; [discriminate H |].
  apply in_app_or in Hrej.
  destruct Hrej as [Hrej | Hrej]; [exfalso; exact (served_not_rejected _ _ Hrej) |].
  destruct rest as [| c' rest'].
  { destruct Hrej as [H | [H | []]]; discriminate H. }
  destruct Hrej as [H | [H | []]]; [| discriminate H].
  inversion H. subst c'. clear H.
  assert (Hw : forallb isCheckoutWrite done = true).
  { pose proof (checkoutPlan_writes (checkoutOrder u st w) (checkoutItems st w)
                                    (CheckoutPage.cartItems st)) as Hall.
    rewrite Hplan, forallb_app in Hall. apply andb_prop in Hall. tauto. }
  destruct done as [| x done'].
  { unfold checkoutPlan in Hplan. simpl in Hplan. inversion Hplan.
    exfalso. eapply Hord. eauto. }
  unfold checkoutPlan in Hplan. simpl in Hplan.
  injection Hplan as Hx Htail. subst x.
  assert (Ho : createdOrders done' = []).
  { assert (E : createdOrders (done' ++ c :: rest') = []).
    { rewrite <- Htail, createdOrders_app, creates_order_nothing, deletes_order_nothing.
      reflexivity. }
    rewrite createdOrders_app in E. apply app_eq_nil in E. tauto. }
  assert (Hk : forall oi, In oi (createdOrderItems done') ->
                          OrderItem.orderId oi = checkoutOrderId w).
  { intros oi Hin.
    assert (E : createdOrderItems (done' ++ c :: rest') = checkoutItems st w).
    { rewrite <- Htail, createdOrderItems_app, creates_items, deletes_create_nothing.
      apply app_nil_r. }
    rewrite createdOrderItems_app in E.
    assert (Hin' : In oi (checkoutItems st w)).
    { rewrite <- E. apply in_or_app. left. exact Hin. }
    unfold checkoutItems in Hin'. eapply orderItemsFrom_orderId. exact Hin'. }
  rewrite (applyAll_checkout _ _ Hw) in Hdb.
  assert (Haddr1 : truthy (trim (CheckoutPage.shippingAddress st1)) = true)
    by (rewrite Hst1; exact Haddr).
  destruct (checkout_success _ _ _ _ _ _ Haddr1 Hrun2 Hlog2 Hok) as (u2 & Hs2 & _ & Hdb2).
  rewrite Hsess, Hs in Hs2. injection Hs2 as <-.
  exists (checkoutOrder u st w), (checkoutOrder u st1 w1),
         (createdOrderItems done'), (checkoutItems st1 w1).
  assert (Eo : createdOrders (OrdersCreate (checkoutOrder u st w) :: done')
               = [checkoutOrder u st w]).
  { change (createdOrders (OrdersCreate (checkoutOrder u st w) :: done'))
      with (checkoutOrder u st w :: createdOrders done').
    rewrite Ho. reflexivity. }
  assert (Ei : createdOrderItems (OrdersCreate (checkoutOrder u st w) :: done')
               = createdOrderItems done') by reflexivity.
  rewrite Hdb2, Hdb. cbn [orders orderItems].
  rewrite Eo, Ei, <- !app_assoc. rewrite Hst1.
  repeat split; try reflexivity.
  - exact Hk.
  - intros oi Hin. unfold checkoutItems in Hin.
    apply orderItemsFrom_orderId in Hin. exact Hin.
  - unfold checkoutItems. apply orderItemsFrom_length.
Qed.

(* ================================================================= *)
(** ** The handlers always settle *)

Lemma CheckoutPage_loaded st w r st' w' :
  CheckoutPage.loadCartItems st w = (r, st', w') ->
  r = Ok tt /\ CheckoutPage.loading st' = false.
Proof.
  rewrite CheckoutPage_loadCartItems_run. cbv zeta.
  destruct (nextFault w); [intro H; inversion H; auto |].
  destruct (session w); [| intro H; inversion H; auto].
  destruct (nextFault _); [intro H; inversion H; auto |].
  destruct (lookupsServed _ _); intro H; inversion H; auto.
Qed.

Lemma CartPage_loadCartItems_ok st w r st' w' :
  CartPage.loadCartItems st w = (r, st', w') -> r = Ok tt.
Proof.
  rewrite CartPage_loadCartItems_run. cbv zeta.
  destruct (nextFault w); [intro H; inversion H; auto |].
  destruct (session w); [| intro H; inversion H; auto].
  destruct (nextFault _); [intro H; inversion H; auto |].
  destruct (lookupsServed _ _); intro H; inversion H; auto.
Qed.

(** No rejection escapes a handler, and no handler leaves its page
    busy: whatever the service rejects, each handler of the cart page, the
    checkout page and the product page returns normally and either has
    returned at once, the page being what it was, or has put its busy marker
    back ([loading], [updating], [processing], [addingToCart]). *)
Theorem handlers_settle :
  (forall st w r st' w',
      CartPage.loadCartItems st w = (r, st', w') ->
      r = Ok tt /\ CartPage.loading st' = false) /\
  (forall itemId q st w r st' w',
      CartPage.updateQuantity itemId q st w = (r, st', w') ->
      r = Ok tt /\ (st' = st \/ CartPage.updating st' = None)) /\
  (forall itemId st w r st' w',
      CartPage.removeItem itemId st w = (r, st', w') ->
      r = Ok tt /\ CartPage.updating st' = None) /\
  (forall st w r st' w',
      CheckoutPage.loadCartItems st w = (r, st', w') ->
      r = Ok tt /\ CheckoutPage.loading st' = false) /\
  (forall st w r st' w',
      CheckoutPage.handleCheckout st w = (r, st', w') ->
      r = Ok tt /\ (st' = st \/ CheckoutPage.processing st' = false)) /\
  (forall productId st w r st' w',
      ProductDetailPage.loadProduct productId st w = (r, st', w') ->
      r = Ok tt /\ (st' = st \/ ProductDetailPage.loading st' = false)) /\
  (forall st w r st' w',
      ProductDetailPage.addToCart st w = (r, st', w') ->
      r = Ok tt /\ (st' = st \/ ProductDetailPage.addingToCart st' = false)).
Proof.
  repeat apply conj.
  - intros st w r st' w' H. split.
    + exact (CartPage_loadCartItems_ok _ _ _ _ _ H).
    + exact (CartPage_loaded _ _ _ _ _ H).
  - intros itemId q st w r st' w' H.
    destruct (q <? 1)%float eqn:Hq.
    + unfold CartPage.updateQuantity in H. rewrite Hq in H.
      inversion H. auto.
    + rewrite (updateQuantity_run _ _ _ _ Hq) in H.
      destruct (_ || _)%bool; inversion H; auto.
  - intros itemId st w r st' w' H. rewrite removeItem_run in H.
    destruct (nextFault w); inversion H; auto.
  - intros st w r st' w' H. exact (CheckoutPage_loaded _ _ _ _ _ H).
  - intros st w r st' w' H.
    destruct (blank (CheckoutPage.shippingAddress st)) eqn:Hb.
    + rewrite (handleCheckout_blank_run _ _ Hb) in H. inversion H. auto.
    + assert (Haddr : truthy (trim (CheckoutPage.shippingAddress st)) = true)
        by (rewrite truthy_trim, Hb; reflexivity).
      destruct (handleCheckout_outcome _ _ _ _ _ Haddr H) as (Hr & Hst & _).
      split; [exact Hr |]. right. rewrite Hst. reflexivity.
  - intros productId st w r st' w' H.
    destruct productId as [pid |]; [destruct (truthy pid) eqn:Ht |].
    + rewrite (loadProduct_run _ _ _ Ht) in H. cbv zeta in H.
      destruct (nextFault w); [inversion H; auto |].
      destruct (filter _ _); inversion H; auto.
    + unfold ProductDetailPage.loadProduct in H. rewrite Ht in H.
      inversion H. auto.
    + inversion H. auto.
  - intros st w r st' w' H.
    destruct (ProductDetailPage.product st) as [p |] eqn:Hp.
    + destruct (addToCart_outcome _ _ _ _ _ _ Hp H) as (Hr & Hflag & _). auto.
    + unfold ProductDetailPage.addToCart, bind at 1, getState in H.
      rewrite Hp in H. inversion H. auto.
Qed.

(* ================================================================= *)
(** ** Concrete runs of the handlers *)

(** What [trim] strips, on bytes: spaces and a tab; a no-break space in
    UTF-8 and as a lone Latin-1 byte; U+2028, U+3000 and U+FEFF; the space
    after an a with grave accent, whose second byte is 160; and nothing of
    U+200B, which is no white space, or of a dagger, which ends in byte
    160. *)
Lemma trim_strips_white_space :
  trim (String "009" "  1 Main Street  ") = "1 Main Street" /\
  trim Demo.nbsp = EmptyString /\
  trim (Demo.bytes [160]) = EmptyString /\
  trim (Demo.bytes [226; 128; 168; 227; 128; 128; 239; 187; 191]) = EmptyString /\
  trim (Demo.bytes [32; 195; 160; 32]) = Demo.bytes [195; 160] /\
  trim (Demo.bytes [226; 128; 139]) = Demo.bytes [226; 128; 139] /\
  trim (Demo.bytes [226; 128; 160; 194; 160]) = Demo.bytes [226; 128; 160].
Proof. repeat split; vm_compute; reflexivity. Qed.

(** The characters of a string, on bytes: one, two, three and four byte
    sequences, and an overlong form, which is no sequence. *)
Lemma chars_cuts_sequences :
  chars (Demo.bytes [97; 195; 160; 226; 128; 168; 240; 159; 152; 128; 98])
  = [Demo.bytes [97]; Demo.bytes [195; 160]; Demo.bytes [226; 128; 168];
     Demo.bytes [240; 159; 152; 128]; Demo.bytes [98]] /\
  chars (Demo.bytes [224; 128; 160])
  = [Demo.bytes [224]; Demo.bytes [128]; Demo.bytes [160]] /\
  map codePoint (chars (Demo.bytes [195; 160; 226; 128; 168; 240; 159; 152; 128]))
  = [224; 8232; 128512]%N.
Proof. repeat split; vm_compute; reflexivity. Qed.

Lemma removeItem_served_witness :
  (forall ci, In ci (cartItems (db (snd Demo.removed))) <->
              In ci (cartItems (db (Demo.world Demo.shop []))) /\ CartItem.id ci <> "c1") /\
  (forall item, In item (CartPage.cartItems (fst Demo.removed)) <->
                In item (CartPage.cartItems Demo.cartPage) /\ CartItem.id item <> "c1") /\
  products (db (snd Demo.removed)) = products (db (Demo.world Demo.shop [])) /\
  orders (db (snd Demo.removed)) = orders (db (Demo.world Demo.shop [])) /\
  orderItems (db (snd Demo.removed)) = orderItems (db (Demo.world Demo.shop [])) /\
  log (snd Demo.removed)
  = log (Demo.world Demo.shop [])
      ++ [Called (CartItemsDelete "c1") true; CartUpdate; Toast "Item removed" false].
Proof.
  apply (removeItem_served "c1" Demo.cartPage (Demo.world Demo.shop []) (Ok tt)
                           (fst Demo.removed) (snd Demo.removed)).
  - vm_compute; reflexivity.
  - vm_compute; reflexivity.
Defined.

Lemma removeItem_rejected_witness :
  db (snd Demo.removalRejected) = db (Demo.world Demo.shop [true]) /\
  CartPage.cartItems (fst Demo.removalRejected) = CartPage.cartItems Demo.cartPage /\
  log (snd Demo.removalRejected)
  = log (Demo.world Demo.shop [true]) ++ [Called (CartItemsDelete "c1") false; errorToast].
Proof.
  apply (removeItem_rejected "c1" Demo.cartPage (Demo.world Demo.shop [true]) (Ok tt)
                             (fst Demo.removalRejected) (snd Demo.removalRejected)).
  - vm_compute; reflexivity.
  - vm_compute; reflexivity.
Defined.

Lemma removeItem_twice_witness :
  db (snd Demo.removedAgain) = db (snd Demo.removed) /\
  CartPage.cartItems (fst Demo.removedAgain) = CartPage.cartItems (fst Demo.removed) /\
  log (snd Demo.removedAgain)
  = log (snd Demo.removed)
      ++ [Called (CartItemsDelete "c1") true; CartUpdate; Toast "Item removed" false].
Proof.
  apply (removeItem_twice "c1" Demo.cartPage (Demo.world Demo.shop [])
                          (Ok tt) (fst Demo.removed) (snd Demo.removed)
                          (Ok tt) (fst Demo.removedAgain) (snd Demo.removedAgain)).
  - vm_compute; reflexivity.
  - vm_compute; reflexivity.
  - vm_compute; reflexivity.
Defined.

Lemma updateQuantity_served_witness :
  map CartItem.id (cartItems (db (snd Demo.threeBalls)))
  = map CartItem.id (cartItems (db (Demo.world Demo.shop []))) /\
  map CartItem.id (CartPage.cartItems (fst Demo.threeBalls))
  = map CartItem.id (CartPage.cartItems Demo.cartPage) /\
  (forall ci, In ci (cartItems (db (snd Demo.threeBalls))) ->
              (CartItem.id ci = "c1" /\ CartItem.quantity ci = 3%float) \/
              (CartItem.id ci <> "c1" /\ In ci (cartItems (db (Demo.world Demo.shop []))))) /\
  (forall item, In item (CartPage.cartItems (fst Demo.threeBalls)) ->
                (CartItem.id item = "c1" /\ CartItem.quantity item = 3%float) \/
                (CartItem.id item <> "c1" /\ In item (CartPage.cartItems Demo.cartPage))) /\
  log (snd Demo.threeBalls)
  = log (Demo.world Demo.shop []) ++ [Called (CartItemsUpdate "c1" 3%float) true; CartUpdate].
Proof.
  apply (updateQuantity_served "c1" 3%float Demo.cartPage (Demo.world Demo.shop []) (Ok tt)
                               (fst Demo.threeBalls) (snd Demo.threeBalls)).
  - vm_compute; reflexivity.
  - vm_compute; reflexivity.
  - vm_compute; reflexivity.
  - vm_compute; reflexivity.
Defined.

Lemma updateQuantity_rejected_witness :
  db (snd Demo.unknownLine) = db (Demo.world Demo.shop []) /\
  CartPage.cartItems (fst Demo.unknownLine) = CartPage.cartItems Demo.cartPage /\
  log (snd Demo.unknownLine)
  = log (Demo.world Demo.shop [])
      ++ [Called (CartItemsUpdate "c0" 3%float) false; errorToast].
Proof.
  apply (updateQuantity_rejected "c0" 3%float Demo.cartPage (Demo.world Demo.shop [])
                                 (Ok tt) (fst Demo.unknownLine) (snd Demo.unknownLine)).
  - vm_compute; reflexivity.
  - right. vm_compute; reflexivity.
  - vm_compute; reflexivity.
Defined.

Lemma handleCheckout_blank_address_witness :
  (blank (CheckoutPage.shippingAddress Demo.blankCheckout) = true ->
   Ok tt = Ok tt /\ fst Demo.refused = Demo.blankCheckout /\
   snd Demo.refused = emit (Toast "Missing information" true) (Demo.world Demo.shop [])) /\
  (blank (CheckoutPage.shippingAddress Demo.blankCheckout) = false ->
   exists ok rest,
     log (snd Demo.refused) = log (Demo.world Demo.shop []) ++ Called AuthMe ok :: rest).
Proof.
  apply (handleCheckout_blank_address Demo.blankCheckout (Demo.world Demo.shop []) (Ok tt)
                                      (fst Demo.refused) (snd Demo.refused)).
  vm_compute; reflexivity.
Defined.

Lemma handleCheckout_never_notifies_witness :
  ~ In CartUpdate (log (snd Demo.placed)) /\
  (forall p, In (Navigate p) (log (snd Demo.placed)) ->
             p = home /\ precedes successToast (Navigate p) (log (snd Demo.placed))).
Proof.
  apply (handleCheckout_never_notifies Demo.checkoutState (Demo.world Demo.shop []) (Ok tt)
                                       (fst Demo.placed) (snd Demo.placed)
                                       (log (snd Demo.placed))).
  - vm_compute; reflexivity.
  - vm_compute; reflexivity.
Defined.

Lemma checkout_retry_orders_again_witness :
  exists o1 o2 kept again,
    orders (db (snd Demo.retried)) = orders (db Demo.faultyWorld) ++ [o1; o2] /\
    Order.userId o2 = Order.userId o1 /\
    Order.totalAmount o2 = Order.totalAmount o1 /\
    Order.shippingAddress o2 = Order.shippingAddress o1 /\
    orderItems (db (snd Demo.retried)) = orderItems (db Demo.faultyWorld) ++ kept ++ again /\
    (forall oi, In oi kept -> OrderItem.orderId oi = Order.id o1) /\
    (forall oi, In oi again -> OrderItem.orderId oi = Order.id o2) /\
    length again = length (CheckoutPage.cartItems Demo.checkoutState).
Proof.
  apply (checkout_retry_orders_again
           Demo.checkoutState Demo.faultyWorld (Ok tt) (fst Demo.stopped) (snd Demo.stopped)
           (log (snd Demo.stopped)) (CartItemsDelete "c1")
           (Ok tt) (fst Demo.retried) (snd Demo.retried)
           (Demo.since (snd Demo.stopped) (snd Demo.retried))).
  - vm_compute; reflexivity.
  - vm_compute; reflexivity.
  - vm_compute; reflexivity.
  - vm_compute. tauto.
  - discriminate.
  - discriminate.
  - vm_compute; reflexivity.
  - vm_compute; reflexivity.
  - vm_compute. tauto.
Defined.

Lemma checkout_load_redirects_iff_witness :
  (In (Navigate cart) (log (snd Demo.redirected)) <->
   ~ In errorToast (log (snd Demo.redirected)) /\
   CheckoutPage.cartItems (fst Demo.redirected) = []) /\
  (forall p, In (Navigate p) (log (snd Demo.redirected)) -> p = cart) /\
  (In errorToast (log (snd Demo.redirected)) ->
   CheckoutPage.cartItems (fst Demo.redirected)
   = CheckoutPage.cartItems CheckoutPage.initial).
Proof.
  apply (checkout_load_redirects_iff CheckoutPage.initial (Demo.world Demo.goneShop [])
                                     (Ok tt) (fst Demo.redirected) (snd Demo.redirected)
                                     (log (snd Demo.redirected))).
  - vm_compute; reflexivity.
  - vm_compute; reflexivity.
Defined.

Lemma cart_empty_after_checkout_witness :
  hydrated (db (snd Demo.placed)) (User.id Demo.ann) = [] /\
  CartPage.cartItems (fst Demo.reloaded) = [] /\
  CartPage.render (fst Demo.reloaded) = CartPage.EmptyCart.
Proof.
  apply (cart_empty_after_checkout
           Demo.checkoutState (Demo.world Demo.shop []) Demo.ann (Ok tt)
           (fst Demo.placed) (snd Demo.placed) (log (snd Demo.placed))
           CartPage.initial (Ok tt) (fst Demo.reloaded) (snd Demo.reloaded)
           (Demo.since (snd Demo.placed) (snd Demo.reloaded))).
  - vm_compute; reflexivity.
  - vm_compute; reflexivity.
  - vm_compute; reflexivity.
  - vm_compute; reflexivity.
  - vm_compute; reflexivity.
  - vm_compute. tauto.
  - vm_compute; reflexivity.
  - vm_compute; reflexivity.
  - vm_compute. intuition discriminate.
Defined.

Lemma addToCart_rejected_writes_nothing_witness :
  ((exists c, In (Called c false) (log (snd Demo.addRejected))) ->
   db (snd Demo.addRejected) = db (Demo.world Demo.ballShop [false; true]) /\
   ProductDetailPage.quantity (fst Demo.addRejected)
   = ProductDetailPage.quantity Demo.ballPage /\
   In errorToast (log (snd Demo.addRejected)) /\
   ~ In CartUpdate (log (snd Demo.addRejected)) /\
   ~ In (Toast "Added to cart" false) (log (snd Demo.addRejected))) /\
  ((forall c, ~ In (Called c false) (log (snd Demo.addRejected))) ->
   ProductDetailPage.quantity (fst Demo.addRejected) = 1%float /\
   In CartUpdate (log (snd Demo.addRejected)) /\
   In (Toast "Added to cart" false) (log (snd Demo.addRejected)) /\
   ~ In errorToast (log (snd Demo.addRejected))).
Proof.
  apply (addToCart_rejected_writes_nothing
           Demo.ballPage (Demo.world Demo.ballShop [false; true]) Demo.ball (Ok tt)
           (fst Demo.addRejected) (snd Demo.addRejected) (log (snd Demo.addRejected))).
  - vm_compute; reflexivity.
  - vm_compute; reflexivity.
  - vm_compute; reflexivity.
Defined.

Lemma addToCart_keeps_one_line_per_pair_witness :
  atMostOnePerPair (db (snd Demo.nailAdded)).
Proof.
  apply (addToCart_keeps_one_line_per_pair Demo.nailPage (Demo.world Demo.nailShop [])
                                           (Ok tt) (fst Demo.nailAdded)).
  - intros u p. simpl. destruct (whereCartItem u (Some p) _); simpl; lia.
  - vm_compute; reflexivity.
Defined.

Lemma loadProduct_shows_requested_product_witness :
  db (snd Demo.ballLoaded) = db (Demo.world Demo.ballShop []) /\
  ProductDetailPage.quantity (fst Demo.ballLoaded)
  = ProductDetailPage.quantity ProductDetailPage.initial /\
  (nextFault (Demo.world Demo.ballShop []) = true ->
   ProductDetailPage.product (fst Demo.ballLoaded)
   = ProductDetailPage.product ProductDetailPage.initial /\
   log (snd Demo.ballLoaded)
   = log (Demo.world Demo.ballShop []) ++ [Called (ProductsList "p-ball") false; errorToast]) /\
  (nextFault (Demo.world Demo.ballShop []) = false ->
   match filter (whereProduct "p-ball") (products (db (Demo.world Demo.ballShop []))) with
   | p :: _ =>
       ProductDetailPage.product (fst Demo.ballLoaded) = Some p /\ Product.id p = "p-ball" /\
       In p (products (db (Demo.world Demo.ballShop []))) /\
       log (snd Demo.ballLoaded)
       = log (Demo.world Demo.ballShop []) ++ [Called (ProductsList "p-ball") true]
   | [] =>
       ProductDetailPage.product (fst Demo.ballLoaded)
       = ProductDetailPage.product ProductDetailPage.initial /\
       log (snd Demo.ballLoaded)
       = log (Demo.world Demo.ballShop [])
           ++ [Called (ProductsList "p-ball") true;
               Toast "Product not found" true; Navigate products_page]
   end).
Proof.
  apply (proj1 loadProduct_shows_requested_product
               "p-ball" ProductDetailPage.initial (Demo.world Demo.ballShop []) (Ok tt)
               (fst Demo.ballLoaded) (snd Demo.ballLoaded)).
  - vm_compute; reflexivity.
  - vm_compute; reflexivity.
Defined.

Lemma addToCart_after_loadProduct_witness :
  (exists ci0, In ci0 (cartItems (db (Demo.world Demo.ballShop []))) /\
               CartItem.id ci0 = "cart_1700000000000_a" /\
               CartItem.userId ci0 = "u-ann" /\
               CartItem.productId ci0 = "p-ball") \/
  (Some "p-ball" = Some "p-ball" /\
   exists p, In p (products (db (Demo.world Demo.ballShop []))) /\
             Product.id p = "p-ball").
Proof.
  refine (addToCart_after_loadProduct
            (Some "p-ball") ProductDetailPage.initial (Demo.world Demo.ballShop [])
            (Ok tt) (fst Demo.ballLoaded) (snd Demo.ballLoaded)
            (Ok tt) (fst Demo.ballAdded) (snd Demo.ballAdded) _ _ _
            (CartItem.mk "cart_1700000000000_a" "u-ann" "p-ball" 1%float None) _).
  - vm_compute; reflexivity.
  - vm_compute; reflexivity.
  - vm_compute; reflexivity.
  - vm_compute. left. reflexivity.
Defined.

Lemma handleQuantityChange_stays_in_range_witness :
  snd Demo.oneMore = Demo.world Demo.ballShop [] /\
  ProductDetailPage.product (fst Demo.oneMore) = ProductDetailPage.product Demo.ballPage /\
  (ProductDetailPage.quantity (fst Demo.oneMore) = ProductDetailPage.quantity Demo.ballPage \/
   (ProductDetailPage.quantity (fst Demo.oneMore)
    = (ProductDetailPage.quantity Demo.ballPage + 1)%float /\
    inRange (fst Demo.oneMore) = true)) /\
  (inRange Demo.ballPage = true -> inRange (fst Demo.oneMore) = true) /\
  (orZero (option_map Product.stockQuantity (ProductDetailPage.product Demo.ballPage)) = zero ->
   ProductDetailPage.quantity (fst Demo.oneMore) = ProductDetailPage.quantity Demo.ballPage).
Proof.
  apply (handleQuantityChange_stays_in_range 1%float Demo.ballPage
                                             (Demo.world Demo.ballShop []) (Ok tt)).
  vm_compute; reflexivity.
Defined.

Lemma loadCartItemCount_fails_silently_witness :
  Ok tt = Ok tt /\ fst Demo.countRejected = App.mkState (Some Demo.ann) 7%float /\
  db (snd Demo.countRejected) = db (Demo.world Demo.shop [true]) /\
  forall title destructive,
    ~ In (Toast title destructive) (log (snd Demo.countRejected)).
Proof.
  apply (loadCartItemCount_fails_silently
           (App.mkState (Some Demo.ann) 7%float) (Demo.world Demo.shop [true]) (Ok tt)
           (fst Demo.countRejected) (snd Demo.countRejected)
           (log (snd Demo.countRejected))).
  - right. vm_compute; reflexivity.
  - vm_compute; reflexivity.
  - vm_compute; reflexivity.
Defined.

Lemma recount_after_add_witness :
  App.cartItemCount (fst Demo.recounted)
  = (App.cartItemCount (fst Demo.emptyCount) + 3)%float.
Proof.
  apply (recount_after_add
           (App.mkState (Some Demo.ann) zero)
           (ProductDetailPage.mkState (Some Demo.ball) false 3%float false)
           (Demo.world Demo.ballShop []) Demo.ball Demo.ann
           (Ok tt) (fst Demo.emptyCount) (snd Demo.emptyCount)
           (Ok tt) (fst Demo.threeAdded) (snd Demo.threeAdded)
           (Ok tt) (fst Demo.recounted) (snd Demo.recounted)).
  - vm_compute; reflexivity.
  - vm_compute; reflexivity.
  - vm_compute; reflexivity.
  - vm_compute; reflexivity.
  - vm_compute; reflexivity.
  - vm_compute; reflexivity.
  - vm_compute; reflexivity.
  - vm_compute; reflexivity.
Defined.

Lemma counts_agree_without_dangling_items_witness :
  CartPage.getTotalItems (CartPage.cartItems (fst Demo.tidyLoaded))
  = App.cartItemCount (fst Demo.countedTidy).
Proof.
  apply (counts_agree_without_dangling_items
           CartPage.initial (Demo.world Demo.tidyShop []) (Ok tt)
           (fst Demo.tidyLoaded) (snd Demo.tidyLoaded) (log (snd Demo.tidyLoaded))
           (App.mkState (Some Demo.ann) zero) (Demo.world Demo.tidyShop [])
           (Ok tt) (fst Demo.countedTidy) (snd Demo.countedTidy) Demo.ann).
  - vm_compute; reflexivity.
  - vm_compute; reflexivity.
  - vm_compute; reflexivity.
  - vm_compute; reflexivity.
  - intros row Hin _ H. simpl in Hin.
    destruct Hin as [<- | [<- | []]]; vm_compute in H; discriminate H.
  - vm_compute; reflexivity.
  - vm_compute; reflexivity.
  - vm_compute. intuition discriminate.
  - vm_compute; reflexivity.
Defined.

Lemma navigateTo_keeps_selection_witness :
  let r' := fold_left (fun r page => App.navigateTo page None None r) [cart; home]
                      (App.navigateTo product_detail (Some "p-ball") (Some "Sports")
                                      App.initialRoute) in
  App.selectedProductId r' = Some "p-ball" /\
  App.selectedCategory r' = Some "Sports" /\
  App.navigateTo product_detail (Some EmptyString) (Some EmptyString) r'
  = App.navigateTo product_detail None None r'.
Proof.
  apply (navigateTo_keeps_selection product_detail "p-ball" "Sports" [cart; home]
                                    App.initialRoute).
  - vm_compute; reflexivity.
  - vm_compute; reflexivity.
Defined.

Lemma handlers_settle_witness :
  Ok tt = Ok tt /\
  (fst Demo.stopped = Demo.checkoutState \/
   CheckoutPage.processing (fst Demo.stopped) = false).
Proof.
  apply (proj1 (proj2 (proj2 (proj2 (proj2 handlers_settle))))
               Demo.checkoutState Demo.faultyWorld (Ok tt)
               (fst Demo.stopped) (snd Demo.stopped)).
  vm_compute; reflexivity.
Defined.
